(** * Event PSOC firmware (AESOP-Lite DAQ board): a shallow embedding of
    [DAQ.cydsn/main.c] and the properties of its trigger-to-event pipeline.

    The C globals become record fields that are passed explicitly, fixed-size
    C arrays become lists indexed by [Z], and the fixed-width C integer types
    become [Z] with the wrap-around written out at every conversion.  The
    peripherals (tracker UART, clock, heap) are an input: a stream of
    answers that the code consumes.  Code that waits on the hardware or
    indexes arrays with values it has received runs in a small monad whose
    results tell a return from a wait that is not over and from an access
    outside an array.

    Part I follows the source, function by function; the vocabulary used by
    the statements comes next; Part II has the properties: the correlator,
    the error log, the command vote and gate, the tracker reads, the event
    builder and command 0x35. *)

From Stdlib Require Import ZArith Lia Bool.
From stdpp Require Import base list.

Open Scope Z_scope.

(* ===================================================================== *)
(** * Part I: the program                                                 *)
(* ===================================================================== *)

(** ** Machine integers *)

Definition uint8 (x : Z) : Z := x mod 256.
Definition uint16 (x : Z) : Z := x mod 65536.
Definition uint32 (x : Z) : Z := x mod 4294967296.
Definition int16 (x : Z) : Z := (x + 32768) mod 65536 - 32768.
(** [int] on the Cortex-M3 of the PSoC 5LP is 32 bits wide. *)
Definition int (x : Z) : Z := (x + 2147483648) mod 4294967296 - 2147483648.

(** ** Constants ([#define]s of the source) *)

Definition MXERR : Z := 64.
Definition TOFMAX_EVT : Z := 64.
Definition MAX_TKR_BOARDS : Z := 8.
Definition MAX_TKR_BOARD_BYTES : Z := 203.
Definition MAX_DATA_OUT : Z := 256.
Definition CMD_LENGTH : Z := 29.
Definition TKRHOUSE_LEN : Z := 70.
Definition VERSION : Z := 1.

Definition ERR_CMD_IGNORE : Z := 5.
Definition ERR_TKR_READ_TIMEOUT : Z := 6.
Definition ERR_TKR_BAD_ID : Z := 7.
Definition ERR_TKR_BAD_LENGTH : Z := 8.
Definition ERR_TKR_BAD_ECHO : Z := 9.
Definition ERR_GET_TKR_DATA : Z := 10.
Definition ERR_TKR_BAD_FPGA : Z := 11.
Definition ERR_TKR_BAD_TRAILER : Z := 12.
Definition ERR_TKR_BAD_NDATA : Z := 13.
Definition ERR_TKR_NUM_BOARDS : Z := 15.
Definition ERR_TKR_BAD_BOARD_ID : Z := 16.
Definition ERR_TKR_BOARD_SHORT : Z := 17.
Definition ERR_TKR_NO_MEMORY : Z := 18.
Definition ERR_BAD_CMD : Z := 20.
Definition ERR_EVT_TOO_BIG : Z := 21.
Definition ERR_BAD_BYTE : Z := 22.
Definition ERR_TKR_TOO_BIG : Z := 26.
Definition ERR_TKR_LYR_ORDER : Z := 27.
Definition ERR_TRK_WRONG_DATA_TYPE : Z := 28.

Definition TKR_EVT_DATA : Z := 0xD3.
Definition TKR_HOUSE_DATA : Z := 0xC7.
Definition TKR_ECHO_DATA : Z := 0xF1.
Definition TKR_READ_TIMEOUT : Z := 31.

Definition triggerEnable_Mask : Z := 0x01.

(** ** C arrays

    [aget] is a bounds-checked read: [None] stands for an access outside the
    array.  [aread] is the read used where the index is known to be in
    range; [aset] is the in-place store. *)

Definition aget {A} (l : list A) (i : Z) : option A :=
  if bool_decide (0 <= i) then l !! Z.to_nat i else None.

Definition aread {A} (d : A) (l : list A) (i : Z) : A := default d (aget l i).

Definition aset {A} (l : list A) (i : Z) (v : A) : list A :=
  if bool_decide (0 <= i) then <[Z.to_nat i := v]> l else l.

(** A bounds-checked store: [None] when the index is outside the array. *)
Definition astore {A} (l : list A) (i : Z) (v : A) : option (list A) :=
  if bool_decide (0 <= i < Z.of_nat (length l)) then Some (aset l i v) else None.

(** [for (i = lo; i < lo + n; ++i) s = body i s]. *)
Fixpoint for_loop {S} (n : nat) (i : Z) (body : Z -> S -> S) (s : S) : S :=
  match n with
  | O => s
  | Datatypes.S n' => for_loop n' (i + 1) body (body i s)
  end.

(** ** The error log ([errors], [nErrors], [addError]) *)

Record Error := mkError { errorCode : Z; value0 : Z; value1 : Z }.

Record ErrorLog := mkLog { errors : list Error; nErrors : Z }.

Definition addError (code val1 val2 : Z) (log : ErrorLog) : ErrorLog :=
  if nErrors log <? MXERR then
    mkLog (aset (errors log) (nErrors log)
                (mkError (uint8 code) (uint8 val1) (uint8 val2)))
          (uint8 (nErrors log + 1))
  else log.

(** The log at start-up: [nErrors = 0]; the array contents are arbitrary. *)
Definition emptyLog (garbage : list Error) : ErrorLog := mkLog garbage 0.

(** ** The output buffer ([dataOut], [nDataReady]) *)

Record OutBuf := mkOut { dataOut : list Z; nDataReady : Z }.

(** The payload that the output stage sends: [dataOut[0 .. nDataReady)]. *)
Definition payload (o : OutBuf) : list Z :=
  take (Z.to_nat (nDataReady o)) (dataOut o).

(** ** Command 0x03: read back all of the accumulated error codes *)

Definition errorBytes (e : Error) : list Z :=
  [errorCode e; value0 e; value1 e].

Definition readErrors_body (errs : list Error) (i : Z) (d : list Z) : list Z :=
  let e := aread (mkError 0 0 0) errs i in
  let d := aset d (i * 3) (errorCode e) in
  let d := aset d (i * 3 + 1) (value0 e) in
  aset d (i * 3 + 2) (value1 e).

Definition cmd_readErrors (log : ErrorLog) (o : OutBuf) : ErrorLog * OutBuf :=
  if nErrors log =? 0 then
    (log, mkOut (aset (aset (aset (dataOut o) 0 0x00) 1 0xEE) 2 0xFF) 3)
  else
    (mkLog (errors log) 0,
     mkOut (for_loop (Z.to_nat (nErrors log)) 0 (readErrors_body (errors log))
                     (dataOut o))
           (uint8 (nErrors log * 3))).

(** ** The TOF circular buffers ([struct TOF], [Store_A], [Store_B]) *)

Record TOF := mkTOF {
  shiftReg : list Z;
  clkCnt : list Z;
  filled : list bool;
  ptr : Z
}.

(** One pass of the body of the [while] loop of [Store_A] / [Store_B]:
    the shift-register word [AT] is stored with the time tag [now], the value
    of [time()].  (The debugging output sent when [outputTOF] is set goes to
    the USB link and is left out.) *)
Definition tofStore (AT now : Z) (t : TOF) : TOF :=
  let p := ptr t in
  let p' := uint8 (p + 1) in
  mkTOF (aset (shiftReg t) p AT)
        (aset (clkCnt t) p (uint16 now))
        (aset (filled t) p true)
        (if p' >=? TOFMAX_EVT then 0 else p').

(** The reset done after each event, by run start and by the dump commands. *)
Definition tofClear (t : TOF) : TOF :=
  mkTOF (shiftReg t) (clkCnt t)
        (for_loop (Z.to_nat TOFMAX_EVT) 0 (fun j f => aset f j false) (filled t))
        0.

(** ** The correlator (main loop, between the two critical-section calls) *)

(** [int iptr = tof.ptr - i - 1; if (iptr < 0) iptr = iptr + TOFMAX_EVT;] *)
Definition backIdx (p i : Z) : Z :=
  let iptr := int (p - i - 1) in
  if iptr <? 0 then int (iptr + TOFMAX_EVT) else iptr.

(** The list of TOF hits in channel A.  The pair ([idx], [nI]) of the source
    is the list of the entries stored so far, in the order stored. *)
Definition scanA_body (tofA : TOF) (timeStamp16 : Z) (i : Z) (idx : list Z)
  : list Z :=
  let iptr := backIdx (ptr tofA) i in
  if negb (aread false (filled tofA) iptr) then idx
  else
    let clk := aread 0 (clkCnt tofA) iptr in
    if (timeStamp16 =? clk) || (timeStamp16 =? int (clk + 1))
    then idx ++ [uint8 iptr]
    else idx.

Definition scanA (tofA : TOF) (timeStamp16 : Z) : list Z :=
  for_loop (Z.to_nat TOFMAX_EVT) 0 (scanA_body tofA timeStamp16) [].

Definition stopOf (T : Z) : Z := uint16 (Z.land T 0x0000FFFF).
Definition refOf (T : Z) : Z := uint16 (Z.shiftr (Z.land T 0xFFFF0000) 16).
(** [int time = ref*8333 + stop]: full time in 10 picosecond units. *)
Definition fullTime (T : Z) : Z := int (int (refOf T * 8333) + stopOf T).

(** The time difference of one (A, B) pair, with the handling of a
    reference clock that rolled over. *)
Definition pairDt (AT BT : Z) : Z :=
  let refA := refOf AT in
  let refB := refOf BT in
  let timei := fullTime AT in
  let timej := fullTime BT in
  if (refA >? 49152) && (refB <? 16384) then
    int (timej - int (timei - 500000000))
  else if (refB >? 49152) && (refA <? 16384) then
    int (int (timej - 500000000) - timei)
  else int (timej - timei).

(** The variables the two loops carry.  [bCand] is a ghost variable: the
    entries of channel B that passed both [continue] guards, i.e. those
    counted by [nJ]. *)
Record Corr := mkCorr {
  dtmin : Z;
  aCLK : Z;
  bCLK : Z;
  aTOF : Z;
  bTOF : Z;
  nJ : Z;
  bCand : list Z
}.

Definition corrInit : Corr := mkCorr 32767 65535 65535 65535 65535 0 [].

(** Body of the inner loop, for the entry [iptr] of channel A. *)
Definition pair_body (tofA tofB : TOF) (jptr : Z) (c : Corr) (iptr : Z) : Corr :=
  let clkA := aread 0 (clkCnt tofA) iptr in
  let clkB := aread 0 (clkCnt tofB) jptr in
  if Z.abs (int (clkA - clkB)) >? 1 then c
  else
    let AT := aread 0 (shiftReg tofA) iptr in
    let BT := aread 0 (shiftReg tofB) jptr in
    let dt := pairDt AT BT in
    if Z.abs dt <? Z.abs (dtmin c) then
      mkCorr (int16 dt) clkA clkB (refOf AT) (refOf BT) (nJ c) (bCand c)
    else c.

(** Body of the loop over the TOF hits in channel B. *)
Definition scanB_body (tofA tofB : TOF) (timeStamp16 : Z) (idx : list Z)
    (j : Z) (c : Corr) : Corr :=
  let jptr := backIdx (ptr tofB) j in
  if negb (aread false (filled tofB) jptr) then c
  else
    let clk := aread 0 (clkCnt tofB) jptr in
    if negb ((clk =? timeStamp16) || (clk =? int (timeStamp16 - 1))) then c
    else
      let c := mkCorr (dtmin c) (aCLK c) (bCLK c) (aTOF c) (bTOF c)
                      (int (nJ c + 1)) (bCand c ++ [jptr]) in
      foldl (pair_body tofA tofB jptr) c idx.

(** The whole search, for the time stamp saved at the trigger:
    [timeStamp16 = (uint16)(timeStampSave & 0x0000FFFF)]. *)
Definition correlate (tofA tofB : TOF) (timeStampSave : Z) : list Z * Corr :=
  let timeStamp16 := uint16 (Z.land timeStampSave 0x0000FFFF) in
  let idx := scanA tofA timeStamp16 in
  (idx, for_loop (Z.to_nat TOFMAX_EVT) 0
                 (scanB_body tofA tofB timeStamp16 idx) corrInit).

(** The time-of-flight field of the event record:
    [dataOut[35] = byte16(dtmin, 0); dataOut[36] = byte16(dtmin, 1)]. *)
Definition byte16 (word : Z) (byte : Z) : Z :=
  let w := uint16 word in
  if byte =? 0 then uint8 (Z.shiftr (Z.land w 0xFF00) 8)
  else uint8 (Z.land w 0x00FF).

Definition byte32 (word : Z) (byte : Z) : Z :=
  let w := uint32 word in
  uint8 (Z.shiftr (Z.land w (Z.shiftl 0xFF (8 * (3 - byte)))) (8 * (3 - byte))).

(** ** The tracker event ([struct TkrData]) *)

(** [hitList] is a pointer to a heap buffer: [None] is the [NULL] pointer. *)
Record BoardHits := mkBoard { nBytes : Z; hitList : option (list Z) }.

Record TkrData := mkTkrData {
  triggerCount : Z;
  cmdCount : Z;
  trgPattern : Z;
  nTkrBoards : Z;
  boardHits : list BoardHits
}.

(** ** The hardware seen by the main loop

    The peripherals are an input of the program.  Each time the code looks
    at the tracker UART or at the clock it consumes one [Poll]: what the
    receive FIFO holds at that moment and what [time()] returns at that
    moment.  Each [malloc] consumes one answer of [mallocOK]. *)

Record Poll := mkPoll { rxByte : option Z; now : Z }.

Record Env := mkEnv { poll : nat -> Poll; mallocOK : nat -> bool }.

(** Globals of the tracker interface. *)
Record TkrRegs := mkTkrRegs {
  numTkrBrds : Z;
  tkrCmdCode : Z;
  tkrCmdCount : Z;
  nTkrHouseKeeping : Z;
  tkrHouseKeepingFPGA : Z;
  tkrHouseKeeping : list Z
}.

(** Trigger logic: the trigger control register and the GO counters. *)
Record TrgRegs := mkTrgRegs {
  Control_Reg_Trg : Z;
  triggered : bool;
  cntGO : Z;
  cntGO1 : Z
}.

(** The variables of [main] that survive from one pass of the main loop to
    the next and belong to the command interface. *)
Record CmdRegs := mkCmdRegs {
  command : Z;
  cmdData : list Z;
  nDataBytes : Z;
  dCnt : Z;
  awaitingCommand : bool;
  cmdDone : bool;
  eventDataReady : bool;
  cmdCountGLB : Z;
  cmdCount' : Z;       (* [cmdCount] of [main] *)
  cmdStartTime : Z
}.

Record DAQ := mkDAQ {
  hwk : nat;           (* polls consumed so far *)
  hwm : nat;           (* mallocs done so far *)
  log : ErrorLog;
  out : OutBuf;
  tofA : TOF;
  tofB : TOF;
  outputTOF : bool;
  tkrData : TkrData;
  tkr : TkrRegs;
  trg : TrgRegs;
  cmd : CmdRegs
}.

Definition set_hwk (v : nat) (s : DAQ) : DAQ :=
  mkDAQ v (hwm s) (log s) (out s) (tofA s) (tofB s) (outputTOF s)
        (tkrData s) (tkr s) (trg s) (cmd s).
Definition set_hwm (v : nat) (s : DAQ) : DAQ :=
  mkDAQ (hwk s) v (log s) (out s) (tofA s) (tofB s) (outputTOF s)
        (tkrData s) (tkr s) (trg s) (cmd s).
Definition set_log (v : ErrorLog) (s : DAQ) : DAQ :=
  mkDAQ (hwk s) (hwm s) v (out s) (tofA s) (tofB s) (outputTOF s)
        (tkrData s) (tkr s) (trg s) (cmd s).
Definition set_out (v : OutBuf) (s : DAQ) : DAQ :=
  mkDAQ (hwk s) (hwm s) (log s) v (tofA s) (tofB s) (outputTOF s)
        (tkrData s) (tkr s) (trg s) (cmd s).
Definition set_tofA (v : TOF) (s : DAQ) : DAQ :=
  mkDAQ (hwk s) (hwm s) (log s) (out s) v (tofB s) (outputTOF s)
        (tkrData s) (tkr s) (trg s) (cmd s).
Definition set_tofB (v : TOF) (s : DAQ) : DAQ :=
  mkDAQ (hwk s) (hwm s) (log s) (out s) (tofA s) v (outputTOF s)
        (tkrData s) (tkr s) (trg s) (cmd s).
Definition set_outputTOF (v : bool) (s : DAQ) : DAQ :=
  mkDAQ (hwk s) (hwm s) (log s) (out s) (tofA s) (tofB s) v
        (tkrData s) (tkr s) (trg s) (cmd s).
Definition set_tkrData (v : TkrData) (s : DAQ) : DAQ :=
  mkDAQ (hwk s) (hwm s) (log s) (out s) (tofA s) (tofB s) (outputTOF s)
        v (tkr s) (trg s) (cmd s).
Definition set_tkr (v : TkrRegs) (s : DAQ) : DAQ :=
  mkDAQ (hwk s) (hwm s) (log s) (out s) (tofA s) (tofB s) (outputTOF s)
        (tkrData s) v (trg s) (cmd s).
Definition set_trg (v : TrgRegs) (s : DAQ) : DAQ :=
  mkDAQ (hwk s) (hwm s) (log s) (out s) (tofA s) (tofB s) (outputTOF s)
        (tkrData s) (tkr s) v (cmd s).
Definition set_cmd (v : CmdRegs) (s : DAQ) : DAQ :=
  mkDAQ (hwk s) (hwm s) (log s) (out s) (tofA s) (tofB s) (outputTOF s)
        (tkrData s) (tkr s) (trg s) v.

(** ** A monad for the main-loop code

    A computation either returns a value and the new globals, or has not
    returned within the polls it was allowed ([Waiting]), or has touched an
    array outside its bounds or dereferenced [NULL] ([Undefined]). *)

Inductive Res (A : Type) : Type :=
| Ok (a : A)
| Waiting
| Undefined.
Arguments Ok {A} a.
Arguments Waiting {A}.
Arguments Undefined {A}.

Definition M (A : Type) : Type := DAQ -> Res (A * DAQ).

#[global] Instance M_ret : MRet M := fun A (a : A) (s : DAQ) => Ok (a, s).

#[global] Instance M_bind : MBind M :=
  fun A B (f : A -> M B) (m : M A) (s : DAQ) =>
    match m s with
    | Ok (a, s') => f a s'
    | Waiting => Waiting
    | Undefined => Undefined
    end.

Definition ret {A} (a : A) : M A := mret a.

Definition gets {A} (f : DAQ -> A) : M A := fun s => Ok (f s, s).
Definition modify (f : DAQ -> DAQ) : M unit := fun s => Ok (tt, f s).
Definition when (b : bool) (m : M unit) : M unit := if b then m else ret tt.

(** [option] to [M]: [None] is an access outside an array (or to [NULL]). *)
Definition checked {A} (o : option A) : M A :=
  fun s => match o with Some a => Ok (a, s) | None => Undefined end.

(** [for (i = lo; i < lo + n; ++i) body(i)]. *)
Fixpoint forM (n : nat) (i : Z) (body : Z -> M unit) : M unit :=
  match n with
  | O => ret tt
  | Datatypes.S n' => body i;; forM n' (i + 1) body
  end.

(** The same loop carrying a local variable. *)
Fixpoint foldM {A} (n : nat) (i : Z) (body : Z -> A -> M A) (a : A) : M A :=
  match n with
  | O => ret a
  | Datatypes.S n' => a' ← body i a; foldM n' (i + 1) body a'
  end.

Definition logError (code val1 val2 : Z) : M unit :=
  modify (fun s => set_log (addError code val1 val2 (log s)) s).

(** ** The tracker protocol engine *)

Section Tracker.

(** [env] is the hardware of this run; [fuel] bounds the number of polls
    that a single wait may take in the model. *)
Variable env : Env.
Variable fuel : nat.

(** [time()]: the 5 ms clock count, read from the hardware. *)
Definition time : M Z :=
  fun s => Ok (uint32 (now (poll env (hwk s))), set_hwk (Datatypes.S (hwk s)) s).

(** The [while] loop of [tkr_getByte]; every pass looks at the receive
    status once and, when the FIFO is empty, at the clock. *)
Fixpoint tkr_getByte_loop (n : nat) (startTime flag : Z) (s : DAQ)
  : Res (Z * DAQ) :=
  match n with
  | O => Waiting
  | Datatypes.S n' =>
      let p := poll env (hwk s) in
      let s := set_hwk (Datatypes.S (hwk s)) s in
      match rxByte p with
      | Some b => Ok (uint8 b, s)
      | None =>
          let timeElapsed := uint32 (uint32 (now p) - startTime) in
          if timeElapsed >? TKR_READ_TIMEOUT then
            let temp := uint8 (Z.land timeElapsed 0x000000ff) in
            Ok (0x00, set_log (addError ERR_TKR_READ_TIMEOUT temp flag (log s)) s)
          else tkr_getByte_loop n' startTime flag s
      end
  end.

Definition tkr_getByte (startTime flag : Z) : M Z :=
  tkr_getByte_loop fuel startTime flag.

(** [malloc(n)]: a fresh buffer of [n] bytes, or [NULL]. *)
Definition malloc (n : Z) : M (option (list Z)) :=
  fun s => Ok (if mallocOK env (hwm s) then Some (replicate (Z.to_nat n) 0) else None,
               set_hwm (Datatypes.S (hwm s)) s).

Definition setTkrData (f : TkrData -> TkrData) : M unit :=
  modify (fun s => set_tkrData (f (tkrData s)) s).

Definition setTkr (f : TkrRegs -> TkrRegs) : M unit :=
  modify (fun s => set_tkr (f (tkr s)) s).

Definition setOut (f : OutBuf -> OutBuf) : M unit :=
  modify (fun s => set_out (f (out s)) s).

(** [tkrData.boardHits[brd]], an array of [MAX_TKR_BOARDS] entries. *)
Definition getBoard (brd : Z) : M BoardHits :=
  d ← gets tkrData;
  checked (aget (boardHits d) brd).

Definition setBoard (brd : Z) (b : BoardHits) : M unit :=
  d ← gets tkrData;
  bh ← checked (astore (boardHits d) brd b);
  setTkrData (fun d => mkTkrData (triggerCount d) (cmdCount d) (trgPattern d)
                                 (nTkrBoards d) bh).

(** [tkrData.boardHits[brd].nBytes = n]. *)
Definition setBoardNBytes (brd n : Z) : M unit :=
  b ← getBoard brd;
  setBoard brd (mkBoard (uint8 n) (hitList b)).

(** [tkrData.boardHits[brd].hitList = p]. *)
Definition setBoardHitList (brd : Z) (p : option (list Z)) : M unit :=
  b ← getBoard brd;
  setBoard brd (mkBoard (nBytes b) p).

(** [tkrData.boardHits[brd].hitList[i] = v]. *)
Definition storeHit (brd i v : Z) : M unit :=
  b ← getBoard brd;
  buf ← checked (hitList b);
  buf ← checked (astore buf i (uint8 v));
  setBoard brd (mkBoard (nBytes b) (Some buf)).

(** [dataOut[i] = v], a store into an array of [MAX_DATA_OUT] entries. *)
Definition setDataOut (i v : Z) : M unit :=
  o ← gets out;
  d ← checked (astore (dataOut o) i (uint8 v));
  setOut (fun o => mkOut d (nDataReady o)).

Definition setNDataReady (n : Z) : M unit :=
  setOut (fun o => mkOut (dataOut o) (uint8 n)).

(** [boardHits[brd].nBytes = 5; boardHits[brd].hitList = malloc(5);] and
    the five stores done when the pointer is not [NULL]; [tag] tells which
    check made the default hit list. *)
Definition defaultHit (tag brd : Z) : M unit :=
  setBoardNBytes brd 5;;
  p ← malloc 5;
  setBoardHitList brd p;;
  when (bool_decide (p <> None))
    (storeHit brd 0 0xE7;;
     storeHit brd 1 brd;;
     storeHit brd 2 0;;
     storeHit brd 3 tag;;
     storeHit brd 4 0x30).

(** "Make a default empty ASIC hit list" for boards [0 .. n). *)
Definition defaultHits (tag : Z) (n : Z) : M unit :=
  forM (Z.to_nat n) 0 (defaultHit tag).

(** "Send back a packet that won't cause a crash down the road". *)
Definition defaultEvent (tag : Z) : M unit :=
  n ← gets (fun s => numTkrBrds (tkr s));
  setTkrData (fun d => mkTkrData 0 0 0 n (boardHits d));;
  defaultHits tag n.

(** One pass of the loop over the boards of an event packet; [rc] is the
    local variable of [getTrackerData]. *)
Definition readBoard (startTime : Z) (brd : Z) (rc : Z) : M Z :=
  nBrdBytes ← tkr_getByte startTime 7;
  if nBrdBytes <? 4 then
    logError ERR_TKR_BOARD_SHORT nBrdBytes brd;;
    defaultHit 0x04 brd;;
    ret 57
  else
    IDbyte ← tkr_getByte startTime 8;
    if negb (IDbyte =? 0xE7) then
      logError ERR_TKR_BAD_BOARD_ID IDbyte brd;;
      defaultHit 0x05 brd;;
      ret 58
    else
      byte2 ← tkr_getByte startTime 9;
      rc ← (if byte2 >? 8 then logError ERR_TKR_BAD_FPGA byte2 brd;; ret 59
            else ret rc);
      let lyr := Z.land 0x7 byte2 in
      when (negb (lyr =? brd)) (logError ERR_TKR_LYR_ORDER lyr brd);;
      (if nBrdBytes >? MAX_TKR_BOARD_BYTES then
         setBoardNBytes lyr MAX_TKR_BOARD_BYTES;;
         logError ERR_TKR_TOO_BIG nBrdBytes lyr
       else setBoardNBytes lyr nBrdBytes);;
      p ← malloc nBrdBytes;
      setBoardHitList lyr p;;
      if bool_decide (p = None) then
        logError ERR_TKR_NO_MEMORY (nBrdBytes - 2) brd;;
        ret 60
      else
        storeHit lyr 0 IDbyte;;
        storeHit lyr 1 byte2;;
        forM (Z.to_nat (nBrdBytes - 2)) 2
          (fun i =>
             theByte ← tkr_getByte startTime 10;
             when (i <? MAX_TKR_BOARD_BYTES) (storeHit lyr i theByte));;
        ret rc.

(** The housekeeping packet. *)
Definition readHouseKeeping (startTime len : Z) : M unit :=
  nData ← tkr_getByte startTime 11;
  nData ← (if negb (len =? nData + 6) then
             logError ERR_TKR_BAD_NDATA len nData;; ret (uint8 (len - 6))
           else ret nData);
  b ← tkr_getByte startTime 12;
  setTkr (fun t => mkTkrRegs (numTkrBrds t) (tkrCmdCode t)
                     (uint16 (Z.shiftl b 8))
                     (nTkrHouseKeeping t) (tkrHouseKeepingFPGA t) (tkrHouseKeeping t));;
  b ← tkr_getByte startTime 13;
  setTkr (fun t => mkTkrRegs (numTkrBrds t) (tkrCmdCode t)
                     (uint16 (Z.lor (Z.land (tkrCmdCount t) 0xFF00) b))
                     (nTkrHouseKeeping t) (tkrHouseKeepingFPGA t) (tkrHouseKeeping t));;
  fpga ← tkr_getByte startTime 14;
  setTkr (fun t => mkTkrRegs (numTkrBrds t) (tkrCmdCode t) (tkrCmdCount t)
                     (nTkrHouseKeeping t) fpga (tkrHouseKeeping t));;
  code ← gets (fun s => tkrCmdCode (tkr s));
  when (fpga >? 8) (logError ERR_TKR_BAD_FPGA code fpga);;
  tkrHouseKeepingCMD ← tkr_getByte startTime 15;
  when (negb (tkrHouseKeepingCMD =? code))
       (logError ERR_TKR_BAD_ECHO tkrHouseKeepingCMD code);;
  setTkr (fun t => mkTkrRegs (numTkrBrds t) (tkrCmdCode t) (tkrCmdCount t)
                     0 (tkrHouseKeepingFPGA t) (tkrHouseKeeping t));;
  forM (Z.to_nat nData) 0
    (fun i =>
       tmpData ← tkr_getByte startTime 16;
       when (i <? TKRHOUSE_LEN)
         (t ← gets tkr;
          h ← checked (astore (tkrHouseKeeping t) i tmpData);
          setTkr (fun t => mkTkrRegs (numTkrBrds t) (tkrCmdCode t) (tkrCmdCount t)
                             (uint8 (nTkrHouseKeeping t + 1))
                             (tkrHouseKeepingFPGA t) h)));;
  t ← gets tkr;
  last ← checked (aget (tkrHouseKeeping t) (nTkrHouseKeeping t - 1));
  when (negb (last =? 0x0F)) (logError ERR_TKR_BAD_TRAILER code last).

(** The command echo; returns the new value of [rc]. *)
Definition readEcho (startTime len IDcode rc : Z) : M Z :=
  when (negb (len =? 4)) (logError ERR_TKR_BAD_LENGTH IDcode len);;
  setNDataReady 3;;
  b0 ← tkr_getByte startTime 17;
  setDataOut 0 b0;;
  setTkr (fun t => mkTkrRegs (numTkrBrds t) (tkrCmdCode t)
                     (uint16 (Z.shiftl b0 8))
                     (nTkrHouseKeeping t) (tkrHouseKeepingFPGA t) (tkrHouseKeeping t));;
  b1 ← tkr_getByte startTime 18;
  setDataOut 1 b1;;
  setTkr (fun t => mkTkrRegs (numTkrBrds t) (tkrCmdCode t)
                     (uint16 (Z.lor (Z.land (tkrCmdCount t) 0xFF00) b1))
                     (nTkrHouseKeeping t) (tkrHouseKeepingFPGA t) (tkrHouseKeeping t));;
  tkrCmdCodeEcho ← tkr_getByte startTime 19;
  setDataOut 2 tkrCmdCodeEcho;;
  code ← gets (fun s => tkrCmdCode (tkr s));
  if negb (code =? tkrCmdCodeEcho) then
    logError ERR_TKR_BAD_ECHO tkrCmdCodeEcho code;; ret 1
  else ret rc.

(** A packet with an unknown identifier.  (The clamp of [len] to 15 that the
    source does before the loop has no effect: the loop runs to
    [nDataReady].) *)
Definition readUnknown (startTime len IDcode : Z) : M unit :=
  n ← gets (fun s => nErrors (log s));
  when (n <? MXERR) (logError ERR_TKR_BAD_ID IDcode len);;
  setNDataReady len;;
  forM (Z.to_nat len) 0
    (fun i => b ← tkr_getByte startTime (20 + i); setDataOut i b).

(** The event packet, once its identifier and length have been accepted. *)
Definition readEvent (startTime rc : Z) : M Z :=
  b3 ← tkr_getByte startTime 3;
  setTkrData (fun d => mkTkrData (uint16 (Z.shiftl (Z.land b3 0x00FF) 8))
                         (cmdCount d) (trgPattern d) (nTkrBoards d) (boardHits d));;
  b4 ← tkr_getByte startTime 4;
  setTkrData (fun d => mkTkrData (Z.lor (triggerCount d) (Z.land b4 0x00FF))
                         (cmdCount d) (trgPattern d) (nTkrBoards d) (boardHits d));;
  b5 ← tkr_getByte startTime 5;
  setTkrData (fun d => mkTkrData (triggerCount d) b5 (trgPattern d)
                         (nTkrBoards d) (boardHits d));;
  nBoards ← tkr_getByte startTime 6;
  setTkrData (fun d => mkTkrData (triggerCount d) (cmdCount d) (Z.land nBoards 0xC0)
                         (nTkrBoards d) (boardHits d));;
  let nBoards := Z.land nBoards 0x3F in
  numBrds ← gets (fun s => numTkrBrds (tkr s));
  if negb (nBoards =? numBrds) then
    pat ← gets (fun s => trgPattern (tkrData s));
    logError ERR_TKR_NUM_BOARDS nBoards pat;;
    let nBoards := numBrds in
    setTkrData (fun d => mkTkrData (triggerCount d) (cmdCount d) (trgPattern d)
                           nBoards (boardHits d));;
    defaultHits 0x03 nBoards;;
    ret 56
  else
    setTkrData (fun d => mkTkrData (triggerCount d) (cmdCount d) (trgPattern d)
                           nBoards (boardHits d));;
    foldM (Z.to_nat nBoards) 0 (readBoard startTime) rc.

(** Function to get a full data packet from the Tracker. *)
Definition getTrackerData (idExpected : Z) : M Z :=
  let rc := 0 in
  startTime ← time;
  len ← tkr_getByte startTime 1;
  IDcode ← tkr_getByte startTime 2;
  early ← (if negb (IDcode =? idExpected) then
             if negb (idExpected =? 0) then
               logError ERR_TRK_WRONG_DATA_TYPE IDcode idExpected;;
               if idExpected =? TKR_EVT_DATA then
                 defaultEvent 0x01;; ret (Some 54)
               else ret None
             else
               if IDcode =? TKR_EVT_DATA then
                 logError ERR_TRK_WRONG_DATA_TYPE IDcode idExpected;;
                 ret (Some 53)
               else ret None
           else ret None);
  match early with
  | Some r => ret r
  | None =>
      if IDcode =? TKR_EVT_DATA then
        if negb (len =? 5) then
          logError ERR_TKR_BAD_LENGTH IDcode len;;
          defaultEvent 0x02;;
          ret 55
        else readEvent startTime rc
      else if IDcode =? TKR_HOUSE_DATA then
        readHouseKeeping startTime len;; ret rc
      else if IDcode =? TKR_ECHO_DATA then
        readEcho startTime len IDcode rc
      else
        readUnknown startTime len IDcode;; ret rc
  end.

End Tracker.

(** ** The event builder (main loop, after the correlator) *)

(** What the trigger branch has collected before it fills the buffer. *)
Record EventIn := mkEventIn {
  runNumber : Z;
  timeStampSave : Z;
  timeWord : Z;
  trgStatus : Z;
  adc1_sampleArray : list Z;
  adc2_sampleArray : list Z
}.

(** The values stored in [dataOut[0]] to [dataOut[51]], in this order. *)
Definition eventHeader (e : EventIn) (idx : list Z) (c : Corr) (s : DAQ)
  : list Z :=
  let T1mV := aread 0 (adc2_sampleArray e) 2 in
  let T2mV := aread 0 (adc1_sampleArray e) 0 in
  let T3mV := aread 0 (adc2_sampleArray e) 0 in
  let T4mV := aread 0 (adc1_sampleArray e) 1 in
  let GmV := aread 0 (adc2_sampleArray e) 1 in
  let extra := aread 0 (adc1_sampleArray e) 2 in
  let nI := Z.of_nat (length idx) in
  [ 0x5A; 0x45; 0x52; 0x4F;
    byte16 (runNumber e) 0; byte16 (runNumber e) 1;
    byte32 (cntGO (trg s)) 0; byte32 (cntGO (trg s)) 1;
    byte32 (cntGO (trg s)) 2; byte32 (cntGO (trg s)) 3;
    byte32 (timeStampSave e) 0; byte32 (timeStampSave e) 1;
    byte32 (timeStampSave e) 2; byte32 (timeStampSave e) 3;
    byte32 (cntGO1 (trg s)) 0; byte32 (cntGO1 (trg s)) 1;
    byte32 (cntGO1 (trg s)) 2; byte32 (cntGO1 (trg s)) 3;
    byte32 (timeWord e) 0; byte32 (timeWord e) 1;
    byte32 (timeWord e) 2; byte32 (timeWord e) 3;
    trgStatus e;
    byte16 T1mV 0; byte16 T1mV 1;
    byte16 T2mV 0; byte16 T2mV 1;
    byte16 T3mV 0; byte16 T3mV 1;
    byte16 T4mV 0; byte16 T4mV 1;
    byte16 GmV 0; byte16 GmV 1;
    byte16 extra 0; byte16 extra 1;
    byte16 (dtmin c) 0; byte16 (dtmin c) 1;
    byte16 (triggerCount (tkrData s)) 0; byte16 (triggerCount (tkrData s)) 1;
    cmdCount (tkrData s);
    trgPattern (tkrData s);
    nI; nJ c;
    byte16 (aTOF c) 0; byte16 (aTOF c) 1;
    byte16 (bTOF c) 0; byte16 (bTOF c) 1;
    byte16 (aCLK c) 0; byte16 (aCLK c) 1;
    byte16 (bCLK c) 0; byte16 (bCLK c) 1;
    nTkrBoards (tkrData s) ].

(** [dataOut[i] = v0; dataOut[i+1] = v1; ...] *)
Fixpoint storeFrom (i : Z) (vs : list Z) : M unit :=
  match vs with
  | [] => ret tt
  | v :: vs' => setDataOut i v;; storeFrom (i + 1) vs'
  end.

(** [dataOut[nDataReady++] = v]; [nDataReady] is a [uint8]. *)
Definition putOut (v : Z) : M unit :=
  n ← gets (fun s => nDataReady (out s));
  setDataOut n v;;
  setNDataReady (n + 1).

(** One pass of the loop over the boards; [false] is the [break]. *)
Definition putBoard (brd : Z) : M bool :=
  b ← getBoard brd;
  n ← gets (fun s => nDataReady (out s));
  if n >? int (MAX_DATA_OUT - int (5 + nBytes b)) then
    d6 ← gets (fun s => aread 0 (dataOut (out s)) 6);
    d10 ← gets (fun s => aread 0 (dataOut (out s)) 10);
    logError ERR_EVT_TOO_BIG d6 d10;;
    ret false
  else
    putOut brd;;
    match hitList b with
    | None =>
        putOut 5;; putOut 0xE7;; putOut brd;; putOut 0;;
        putOut 0x07;; putOut 0x30
    | Some l =>
        putOut (nBytes b);;
        forM (Z.to_nat (nBytes b)) 0 (fun i => v ← checked (aget l i); putOut v);;
        (* free(hitList): the pointer keeps its value *)
        setBoardNBytes brd 0
    end;;
    ret true.

(** [for (brd = 0; brd < nTkrBoards; ++brd)] with its [break]. *)
Fixpoint putBoards (n : nat) (brd : Z) : M unit :=
  match n with
  | O => ret tt
  | Datatypes.S n' =>
      go ← putBoard brd;
      if go : bool then putBoards n' (brd + 1) else ret tt
  end.

Definition setCmd (f : CmdRegs -> CmdRegs) : M unit :=
  modify (fun s => set_cmd (f (cmd s)) s).

(** From "Start the event with a 4-byte header" to the reset of the TOF
    buffers and of the board count.  The ADC sample arrays and the saved
    channel counters, which the source also resets or saves here, are inputs
    ([EventIn]) or peripherals and are left out. *)
Definition buildEvent (e : EventIn) (idx : list Z) (c : Corr) : M unit :=
  h ← gets (eventHeader e idx c);
  storeFrom 0 h;;
  setNDataReady 52;;
  nb ← gets (fun s => nTkrBoards (tkrData s));
  putBoards (Z.to_nat nb) 0;;
  putOut 0x46;; putOut 0x49;; putOut 0x4E;; putOut 0x49;;
  setCmd (fun r => mkCmdRegs (command r) (cmdData r) (nDataBytes r) (dCnt r)
                     (awaitingCommand r) (cmdDone r) true
                     (cmdCountGLB r) (cmdCount' r) (cmdStartTime r));;
  modify (fun s => set_tofA (tofClear (tofA s)) (set_tofB (tofClear (tofB s)) s));;
  setTkrData (fun d => mkTkrData (triggerCount d) (cmdCount d) (trgPattern d)
                         0 (boardHits d)).

(** ** The command interface *)

(** The table [code]: ASCII code translation to hex nibbles. *)
Definition code (c : Z) : Z :=
  match c with
  | 49 => 1 | 50 => 2 | 51 => 3 | 52 => 4 | 53 => 5
  | 54 => 6 | 55 => 7 | 56 => 8 | 57 => 9
  | 65 => 10 | 97 => 10
  | 66 => 11 | 98 => 11
  | 67 => 12 | 99 => 12
  | 68 => 13 | 100 => 13
  | 69 => 14 | 101 => 14
  | 70 => 15 | 102 => 15
  | _ => 0
  end.

(** [for (i = i0; i < i0 + n; ++i) if (differ i) { badCMD = true; break; }]:
    the index at which the loop breaks, if it does. *)
Fixpoint firstDiff (n : nat) (i : Z) (differ : Z -> bool) : option Z :=
  match n with
  | O => None
  | Datatypes.S n' => if differ i then Some i else firstDiff n' (i + 1) differ
  end.

(** The check of the three copies of a command.  Returns [badCMD], the
    buffer (its first copy may have been replaced) and the error log. *)
Definition voteCommand (buffer : list Z) (log : ErrorLog)
  : bool * list Z * ErrorLog :=
  let b i := aread 0 buffer i in
  match firstDiff 9 0 (fun i => negb (b i =? b (i + 9)) || negb (b i =? b (i + 18))) with
  | None => (false, buffer, log)
  | Some _ =>
    match firstDiff 9 0 (fun i => negb (b i =? b (i + 9))) with
    | None => (false, buffer, log)
    | Some _ =>
      match firstDiff 9 0 (fun i => negb (b i =? b (i + 18))) with
      | None => (false, buffer, log)
      | Some _ =>
        match firstDiff 9 0 (fun i => negb (b (i + 9) =? b (i + 18))) with
        | Some i => (true, buffer, addError ERR_BAD_CMD (code (b (i + 9))) i log)
        | None =>
            (false,
             for_loop 9 0 (fun i buf => aset buf i (aread 0 buf (i + 9))) buffer,
             log)
        end
      end
    end
  end.

Definition isTriggerEnabled (s : DAQ) : bool :=
  negb (Z.land (Control_Reg_Trg (trg s)) triggerEnable_Mask =? 0).

Definition setTrg (f : TrgRegs -> TrgRegs) : M unit :=
  modify (fun s => set_trg (f (trg s)) s).

(** Control of the trigger enable bit. *)
Definition triggerEnable (enable : bool) (t : TrgRegs) : TrgRegs :=
  let regValue := uint8 (Z.land (Control_Reg_Trg t) (Z.lnot triggerEnable_Mask)) in
  mkTrgRegs (if enable then Z.lor regValue triggerEnable_Mask else regValue)
            (triggered t) (cntGO t) (cntGO1 t).

(** Command 0x35: read most recent TOF event from channel A or B. *)
Definition recentIdx (p : Z) : Z :=
  let idx := uint8 (p - 1) in
  if idx <? 0 then uint8 (idx + TOFMAX_EVT) else idx.

Definition cmd_recentTOF : M unit :=
  setNDataReady 9;;
  sel ← gets (fun s => aread 0 (cmdData (cmd s)) 0);
  if sel =? 0 then
    t ← gets tofA;
    let idx := recentIdx (ptr t) in
    f ← checked (aget (filled t) idx);
    if f : bool then
      AT ← checked (aget (shiftReg t) idx);
      let stopA := stopOf AT in
      let refA := refOf AT in
      clk ← checked (aget (clkCnt t) idx);
      storeFrom 0 [ Z.shiftr (Z.land refA 0xFF00) 8; Z.land refA 0x00FF; 0;
                    Z.shiftr (Z.land stopA 0xFF00) 8; Z.land stopA 0x00FF; 0;
                    Z.shiftr (Z.land clk 0xFF00) 8; Z.land clk 0x00FF;
                    ptr t ];;
      modify (fun s => set_tofA (tofClear (tofA s)) s)
    else
      storeFrom 0 [0; 0; 0; 0; 0; 0; 0; 0; idx]
  else
    t ← gets tofB;
    let idx := recentIdx (ptr t) in
    f ← checked (aget (filled t) idx);
    if f : bool then
      BT ← checked (aget (shiftReg t) idx);
      let stopB := stopOf BT in
      let refB := refOf BT in
      clk ← checked (aget (clkCnt t) idx);
      storeFrom 0 [ Z.shiftr (Z.land refB 0xFF00) 8; Z.land refB 0x00FF; 0;
                    Z.shiftr (Z.land stopB 0xFF00) 8; Z.land stopB 0x00FF; 0;
                    Z.shiftr (Z.land clk 0xFF00) 8; Z.land clk 0x00FF;
                    ptr t ];;
      modify (fun s => set_tofB (tofClear (tofB s)) s)
    else
      storeFrom 0 [0; 0; 0; 0; 0; 0; 0; 0; idx];;
      modify (fun s => set_tofA (tofClear (tofA s)) (set_tofB (tofClear (tofB s)) s)).

Section Commands.

Variable env : Env.

(** The handlers of the command codes that are not modelled here: they
    drive the DACs, the I2C and SPI busses, the tracker UART, the counters
    and the real-time clock.  Nothing is assumed about them. *)
Variable otherCommand : Z -> M unit.

(** Command 0x03, on the globals. *)
Definition cmd03 : M unit :=
  modify (fun s => let '(l, o) := cmd_readErrors (log s) (out s) in
                   set_log l (set_out o s)).

(** Command 0x07: return the version number. *)
Definition cmd07 : M unit :=
  setNDataReady 1;; setDataOut 0 VERSION.

(** Command 0x32 and 0x3F: TOF debugging output on and off. *)
Definition cmd32 : M unit := modify (set_outputTOF true).
Definition cmd3F : M unit := modify (set_outputTOF false).

(** Command 0x34: get the number of TOF events stored. *)
Definition cmd34 : M unit :=
  setNDataReady 2;;
  a ← gets (fun s => ptr (tofA s));
  b ← gets (fun s => ptr (tofB s));
  setDataOut 0 a;; setDataOut 1 b.

(** Command 0x3B: enable or disable the trigger. *)
Definition cmd3B : M unit :=
  d0 ← gets (fun s => aread 0 (cmdData (cmd s)) 0);
  if d0 =? 1 then setTrg (triggerEnable true)
  else if d0 =? 0 then setTrg (triggerEnable false)
  else ret tt.

(** Command 0x3D: return trigger enable status. *)
Definition cmd3D : M unit :=
  setNDataReady 1;;
  en ← gets isTriggerEnabled;
  setDataOut 0 (if en : bool then 1 else 0).

(** Command 0x44: end a run and send out the run summary. *)
Definition cmd44 : M unit :=
  setTrg (fun t => mkTrgRegs (Control_Reg_Trg t) false (cntGO t) (cntGO1 t));;
  setTrg (triggerEnable false);;
  t ← gets trg;
  storeFrom 0 [ byte32 (cntGO1 t) 0; byte32 (cntGO1 t) 1;
                byte32 (cntGO1 t) 2; byte32 (cntGO1 t) 3;
                byte32 (cntGO t) 0; byte32 (cntGO t) 1;
                byte32 (cntGO t) 2; byte32 (cntGO t) 3 ];;
  setNDataReady 8.

(** [switch (command)]. *)
Definition commandSwitch (c : Z) : M unit :=
  match c with
  | 0x03 => cmd03
  | 0x07 => cmd07
  | 0x32 => cmd32
  | 0x3F => cmd3F
  | 0x34 => cmd34
  | 0x35 => cmd_recentTOF
  | 0x3B => cmd3B
  | 0x3D => cmd3D
  | 0x44 => cmd44
  | _ => otherCommand c
  end.

(** What is done with a command that has been fully received:
    "If the trigger is enabled, ignore all commands besides disable trigger,
    so that nothing can interrupt the readout." *)
Definition dispatch : M unit :=
  c ← gets (fun s => command (cmd s));
  en ← gets isTriggerEnabled;
  if (c =? 0x3D) || (c =? 0x44) || negb en then commandSwitch c
  else logError ERR_CMD_IGNORE c 0.

(** The 4-bit count in bits 7:6 and 1:0 of the address byte. *)
Definition byteCount (addressByte : Z) : Z :=
  uint8 (Z.lor (Z.shiftr (Z.land addressByte 0xC0) 4) (Z.land addressByte 0x03)).

(** What the main loop does with the [CMD_LENGTH] bytes of one command. *)
Definition commandFrame (buffer : list Z) : M unit :=
  l ← gets log;
  let '(badCMD, buffer, l) := voteCommand buffer l in
  modify (set_log l);;
  if negb badCMD && (aread 0 buffer 0 =? 83) && (aread 0 buffer 8 =? 87) then
    r ← gets cmd;
    when (awaitingCommand r)
      (setCmd (fun r => mkCmdRegs (command r) (cmdData r) (nDataBytes r) (dCnt r)
                      (awaitingCommand r) (cmdDone r) (eventDataReady r)
                      (int (cmdCountGLB r + 1)) (cmdCount' r) (cmdStartTime r)));;
    let nib3 := code (aread 0 buffer 3) in
    let nib4 := code (aread 0 buffer 4) in
    let addressByte := uint8 (Z.lor (Z.shiftl nib3 4) nib4) in
    let PSOCaddress := uint8 (Z.shiftr (Z.land addressByte 0x3C) 2) in
    badCMD ←
      (if PSOCaddress =? 0x08 then
         let nib1 := code (aread 0 buffer 1) in
         let nib2 := code (aread 0 buffer 2) in
         let dataByte := uint8 (Z.lor (Z.shiftl nib1 4) nib2) in
         r ← gets cmd;
         if awaitingCommand r then
           t ← time env;
           let n := byteCount addressByte in
           setCmd (fun r => mkCmdRegs dataByte (cmdData r) n 0
                           false (if n =? 0 then true else cmdDone r)
                           (eventDataReady r)
                           (cmdCountGLB r) (int (cmdCount' r + 1)) t);;
           ret badCMD
         else
           let byteCnt := byteCount addressByte in
           if negb (byteCnt =? 0) then
             d ← checked (astore (cmdData r) (byteCnt - 1) dataByte);
             let dCnt' := int (dCnt r + 1) in
             setCmd (fun r => mkCmdRegs (command r) d (nDataBytes r) dCnt'
                             (awaitingCommand r)
                             (if dCnt' =? nDataBytes r then true else cmdDone r)
                             (eventDataReady r)
                             (cmdCountGLB r) (cmdCount' r) (cmdStartTime r));;
             ret badCMD
           else
             logError ERR_BAD_BYTE (command r) (nDataBytes r);;
             ret true
       else ret badCMD);
    r ← gets cmd;
    when (cmdDone r && badCMD)
      (setCmd (fun r => mkCmdRegs (command r) (cmdData r) 0 (dCnt r)
                      true false (eventDataReady r)
                      (cmdCountGLB r) (cmdCount' r) (cmdStartTime r)));;
    r ← gets cmd;
    when (cmdDone r && negb badCMD) dispatch
  else ret tt.

(** ** The output stage of the main loop

    Returns the bytes handed to the selected link (USB-UART or SPI). *)
Definition VAR_HEAD : Z := 0xDC.

Definition outputStage (s : DAQ) : list Z * DAQ :=
  let r := cmd s in
  let o := out s in
  if (nDataReady o >? 0) || cmdDone r then
    if nDataReady o >? 0 then
      let len := uint8 (nDataReady o + nDataBytes r) in
      let nPadding := uint16 (3 - (nDataBytes r + nDataReady o) mod 3) in
      let nPadding := if nPadding =? 3 then 0 else nPadding in
      let echo := if negb (cmdDone r) then 0xDD else command r in
      let sent :=
        [VAR_HEAD; 0x00; 0xFF; len; echo; nDataBytes r]
        ++ take (Z.to_nat (nDataBytes r)) (cmdData r)
        ++ take (Z.to_nat (nDataReady o)) (dataOut o)
        ++ take (Z.to_nat nPadding) [0x01; 0x02]
        ++ [0xFF; 0x00; 0xFF] in
      let s := set_out (mkOut (dataOut o) 0) s in
      let s := if eventDataReady r then set_trg (triggerEnable true (trg s)) s
               else s in
      let s := set_cmd (mkCmdRegs (command r) (cmdData r)
                          (if cmdDone r then 0 else nDataBytes r) (dCnt r)
                          (if cmdDone r then true else awaitingCommand r)
                          false false
                          (cmdCountGLB r) (cmdCount' r) (cmdStartTime r)) s in
      (sent, s)
    else
      ([], set_cmd (mkCmdRegs (command r) (cmdData r) (nDataBytes r) (dCnt r)
                      true false (eventDataReady r)
                      (cmdCountGLB r) (cmdCount' r) (cmdStartTime r)) s)
  else ([], s).

End Commands.

(** ** The circular buffer for commands from the Main PSOC
       ([cmd_buffer], [ptrNext], [isrUART], and the read in the main loop) *)

Definition MX_CMDS : Z := 32.
Definition BUFFER_LEN : Z := 32.
Definition ERR_CMD_BUF_OVERFLOW : Z := 29.

(** [struct MainPSOCcmds]; its field [nBytes] is [nBytes'] here. *)
Record MainPSOCcmds := mkCmds { buf : list Z; nBytes' : Z }.

Record CmdRing := mkRing {
  cmd_buffer : list MainPSOCcmds;
  cmdWritePtr : Z;
  cmdReadPtr : Z
}.

Definition ptrNext (ptr : Z) : Z :=
  if ptr <? MX_CMDS - 1 then uint8 (ptr + 1) else 0.

(** One pass of the body of the [while] loop of [isrUART], for the value
    [b] returned by [UART_CMD_GetByte()]. *)
Definition isrUART_body (b : Z) (r : CmdRing) (l : ErrorLog)
  : option (CmdRing * ErrorLog) :=
  let w := cmdWritePtr r in
  c ← aget (cmd_buffer r) w;
  bf ← astore (buf c) (nBytes' c) (uint8 b);
  let n := uint8 (nBytes' c + 1) in
  let cb := aset (cmd_buffer r) w (mkCmds bf n) in
  if n =? CMD_LENGTH then
    let rd := if cmdReadPtr r >=? MX_CMDS then w else cmdReadPtr r in
    let w' := ptrNext w in
    if w' =? rd then
      Some (mkRing cb w' rd, addError ERR_CMD_BUF_OVERFLOW w' 0 l)
    else
      c' ← aget cb w';
      Some (mkRing (aset cb w' (mkCmds (buf c') 0)) w' rd, l)
  else Some (mkRing cb w (cmdReadPtr r), l).

(** [isrUART] with the bytes [rx] waiting in the UART; returns the bytes
    that it leaves there. *)
Fixpoint isrUART (rx : list Z) (r : CmdRing) (l : ErrorLog)
  : option (list Z * CmdRing * ErrorLog) :=
  match rx with
  | [] => Some ([], r, l)
  | b :: rx' =>
      if cmdWritePtr r =? cmdReadPtr r then Some (rx, r, l)
      else
        match isrUART_body b r l with
        | Some (r', l') => isrUART rx' r' l'
        | None => None
        end
  end.

(** [for (i = i0; i < i0 + n; ++i) buffer[i] = src[i];] *)
Fixpoint copyBytes (n : nat) (i : Z) (src buffer : list Z) : option (list Z) :=
  match n with
  | O => Some buffer
  | Datatypes.S n' =>
      v ← aget src i;
      buffer' ← astore buffer i v;
      copyBytes n' (i + 1) src buffer'
  end.

(** "Command from UART", in the main loop, when the USB-UART had none:
    returns [count] and [buffer]. *)
Definition fetchCommand (buffer : list Z) (r : CmdRing)
  : option (Z * list Z * CmdRing) :=
  let rd := cmdReadPtr r in
  if rd <? MX_CMDS then
    c ← aget (cmd_buffer r) rd;
    buffer' ← copyBytes (Z.to_nat CMD_LENGTH) 0 (buf c) buffer;
    let cb := aset (cmd_buffer r) rd (mkCmds (buf c) 0) in
    let rd' := if negb (ptrNext rd =? cmdWritePtr r) then ptrNext rd else 255 in
    Some (CMD_LENGTH, buffer', mkRing cb (cmdWritePtr r) rd')
  else Some (0, buffer, r).

(** ** The GO interrupt ([isrGO1])

    [status] is what [Status_Reg_Trg_Read()] returns and [now] what
    [time()] returns; the globals [trgStatus] and [timeStamp] are the pair
    [latch]. *)
Definition isrGO1 (status now : Z) (s : DAQ) (latch : Z * Z) : DAQ * (Z * Z) :=
  let '(s, latch) :=
    if isTriggerEnabled s then
      let t := triggerEnable false (trg s) in
      (set_trg (mkTrgRegs (Control_Reg_Trg t) true (uint32 (cntGO t + 1)) (cntGO1 t)) s,
       (uint8 status, uint32 now))
    else (s, latch) in
  let t := trg s in
  (set_trg (mkTrgRegs (Control_Reg_Trg t) (triggered t) (cntGO t)
                      (uint32 (cntGO1 t + 1))) s,
   latch).

(** ** The time-out of a command (main loop, before the next command is
       taken from the ring) *)

Definition TIMEOUT : Z := 200.

(** "Time-out protection in case the expected data for a command are never
    sent."  [cmdStartTime] is a [time_t], a type of the C library: [wide]
    tells whether it is wider than 32 bits, in which case
    [time() - cmdStartTime > TIMEOUT] is a signed comparison, or not, in
    which case it is one of [uint32].  The value returned is the local
    counter [nCmdTimeOut] of [main]. *)
Definition cmdTimeout (wide : bool) (env : Env) (nCmdTimeOut : Z) : M Z :=
  r ← gets cmd;
  if negb (awaitingCommand r) then
    t ← time env;
    let late := if wide then t - cmdStartTime r >? TIMEOUT
                else uint32 (t - cmdStartTime r) >? TIMEOUT in
    if late then
      setCmd (fun r => mkCmdRegs (command r) (cmdData r) 0 (dCnt r) true false
                         (eventDataReady r) (cmdCountGLB r) (cmdCount' r)
                         (cmdStartTime r));;
      ret (int (nCmdTimeOut + 1))
    else ret nCmdTimeOut
  else ret nCmdTimeOut.

(* ===================================================================== *)
(** * Vocabulary of the statements                                        *)
(* ===================================================================== *)

(** The invariant of a TOF buffer: three arrays of [TOFMAX_EVT] entries,
    a cursor inside them, and 16-bit clock tags. *)
Definition TOFwfb (t : TOF) : bool :=
  (Z.of_nat (length (shiftReg t)) =? TOFMAX_EVT)
  && (Z.of_nat (length (clkCnt t)) =? TOFMAX_EVT)
  && (Z.of_nat (length (filled t)) =? TOFMAX_EVT)
  && (0 <=? ptr t) && (ptr t <? TOFMAX_EVT)
  && forallb (fun c => (0 <=? c) && (c <? 65536)) (clkCnt t).

Definition TOFwf (t : TOF) : Prop := TOFwfb t = true.

(** Entry [i] of buffer [t] is filled and was stored during the 5 ms tick
    [T] or during the tick before it. *)
Definition inWindow (t : TOF) (T i : Z) : Prop :=
  0 <= i < TOFMAX_EVT
  /\ aget (filled t) i = Some true
  /\ (aread 0 (clkCnt t) i = T \/ aread 0 (clkCnt t) i = T - 1).

(** The window as the specification words it for channel A: tick [T] or
    the tick after it. *)
Definition inWindowAfter (t : TOF) (T i : Z) : Prop :=
  0 <= i < TOFMAX_EVT
  /\ aget (filled t) i = Some true
  /\ (aread 0 (clkCnt t) i = T \/ aread 0 (clkCnt t) i = uint16 (T + 1)).

(** The time difference of entry [i] of channel A and entry [j] of B. *)
Definition dtOf (tA tB : TOF) (i j : Z) : Z :=
  pairDt (aread 0 (shiftReg tA) i) (aread 0 (shiftReg tB) j).

(** A pair the correlator looks at. *)
Definition consideredPair (tA tB : TOF) (T i j : Z) : Prop :=
  inWindow tA T i /\ inWindow tB T j
  /\ Z.abs (aread 0 (clkCnt tA) i - aread 0 (clkCnt tB) j) <= 1.

(** "Keep the smallest time difference of all combinations." *)
Definition minStep (r d : Z) : Z := if Z.abs d <? Z.abs r then int16 d else r.

(** The entries met by passes [k .. k+n) of a backward scan from cursor
    [p] that satisfy [test], in the order met. *)
Fixpoint scanList (test : Z -> bool) (p : Z) (n : nat) (k : Z) : list Z :=
  match n with
  | O => []
  | Datatypes.S n' =>
      let ip := backIdx p k in
      (if test ip then [ip] else []) ++ scanList test p n' (k + 1)
  end.

(** The two guards of the scan of channel A, and of channel B. *)
Definition testA (tA : TOF) (T ip : Z) : bool :=
  aread false (filled tA) ip
  && ((T =? aread 0 (clkCnt tA) ip) || (T =? int (aread 0 (clkCnt tA) ip + 1))).

Definition testB (tB : TOF) (T jp : Z) : bool :=
  aread false (filled tB) jp
  && ((aread 0 (clkCnt tB) jp =? T) || (aread 0 (clkCnt tB) jp =? int (T - 1))).

(** The time differences met by the inner loop for entry [j] of B. *)
Definition dtsOf (tA tB : TOF) (idx : list Z) (j : Z) : list Z :=
  map (fun i => dtOf tA tB i j)
      (filter (fun i => Z.abs (int (aread 0 (clkCnt tA) i - aread 0 (clkCnt tB) j)) <= 1)
              idx).

(** The five bytes of a default hit list of board [brd]; [tag] tells which
    check made it. *)
Definition placeholder (brd tag : Z) : list Z := [0xE7; brd; 0; tag; 0x30].

(** A TOF buffer right after a reset, and buffers filled by the interrupt
    routine, used as concrete inputs. *)
Definition tofZero : TOF :=
  mkTOF (replicate (Z.to_nat TOFMAX_EVT) 0) (replicate (Z.to_nat TOFMAX_EVT) 0)
        (replicate (Z.to_nat TOFMAX_EVT) false) 0.

(** Channel A: a stop with reference count 100 and stop count 10, then one
    with reference count 7 and stop count 0, both during tick 1000;
    channel B: reference count 100 and stop count 250, during tick 1000. *)
Definition tofA_two : TOF :=
  tofStore (7 * 65536) 1000 (tofStore (100 * 65536 + 10) 1000 tofZero).
Definition tofB_one : TOF := tofStore (100 * 65536 + 250) 1000 tofZero.

(** Channel A: reference count 4, stop count 0; channel B: reference count
    0, stop count 565; both during tick 1000. *)
Definition tofA_far : TOF := tofStore (4 * 65536) 1000 tofZero.
Definition tofB_far : TOF := tofStore 565 1000 tofZero.

(** Channel A: a stop during tick 1001, then one during tick 999. *)
Definition tofA_ticks : TOF := tofStore 0 999 (tofStore 0 1001 tofZero).

(** Logging the faults [es] one after the other; what [addError] records
    of a fault is its three values as bytes. *)
Definition logAll (es : list Error) (l : ErrorLog) : ErrorLog :=
  foldl (fun l e => addError (errorCode e) (value0 e) (value1 e) l) l es.

Definition recorded (e : Error) : Error :=
  mkError (uint8 (errorCode e)) (uint8 (value0 e)) (uint8 (value1 e)).

(** The invariant of the error log. *)
Definition logWf (l : ErrorLog) : Prop :=
  Z.of_nat (length (errors l)) = MXERR /\ 0 <= nErrors l <= MXERR.

(** The three copies of a command in the receive buffer. *)
Definition copy1 (buffer : list Z) : list Z := take 9 buffer.
Definition copy2 (buffer : list Z) : list Z := take 9 (drop 9 buffer).
Definition copy3 (buffer : list Z) : list Z := take 9 (drop 18 buffer).

(** How many of the three pairwise comparisons of the copies match. *)
Definition matchingPairs (buffer : list Z) : nat :=
  (if decide (copy1 buffer = copy2 buffer) then 1 else 0)
  + (if decide (copy1 buffer = copy3 buffer) then 1 else 0)
  + (if decide (copy2 buffer = copy3 buffer) then 1 else 0).

(** "S0720 xyW": command 0x07 for the event PSOC, no data bytes. *)
Definition frame07 : list Z := [83; 48; 55; 50; 48; 32; 120; 121; 87].
(** The same with its command byte damaged in transit. *)
Definition frame0F : list Z := [83; 48; 70; 50; 48; 32; 120; 121; 87].
(** "S3D20 xyW": command 0x3D, return trigger enable status. *)
Definition frame3D : list Z := [83; 51; 68; 50; 48; 32; 120; 121; 87].
(** "S3B21 xyW": command 0x3B with one data byte, and "S0021 xyW": its
    data byte 0x00 (disable the trigger). *)
Definition frame3B : list Z := [83; 51; 66; 50; 49; 32; 120; 121; 87].
Definition frame00_1 : list Z := [83; 48; 48; 50; 49; 32; 120; 121; 87].

(** The globals when the main loop starts, and the same with the trigger
    enabled (as run start leaves it). *)
Definition daqReset : DAQ :=
  mkDAQ 0 0
        (emptyLog (replicate 64 (mkError 0 0 0)))
        (mkOut (replicate 256 0) 0)
        tofZero tofZero false
        (mkTkrData 0 0 0 0 (replicate 8 (mkBoard 0 None)))
        (mkTkrRegs 1 0 0 0 0 (replicate 70 0))
        (mkTrgRegs 0 false 0 0)
        (mkCmdRegs 0 (replicate 16 0) 0 0 true false false 0 0 0).

Definition daqArmed : DAQ := set_trg (triggerEnable true (trg daqReset)) daqReset.

(** Hardware that sends nothing, with a clock that stands at 0; and a
    stand-in for the handlers that are not modelled. *)
Definition envQuiet : Env := mkEnv (fun _ => mkPoll None 0) (fun _ => true).
Definition noOther : Z -> M unit := fun _ => ret tt.

(** The 29 bytes of a command: three copies and CR LF. *)
Definition tripled (frame : list Z) : list Z := frame ++ frame ++ frame ++ [13; 10].

(** The globals with command [c] fully received. *)
Definition withCommand (c : Z) (s : DAQ) : DAQ :=
  set_cmd (mkCmdRegs c (cmdData (cmd s)) 0 0 false true (eventDataReady (cmd s))
                     (cmdCountGLB (cmd s)) (cmdCount' (cmd s)) (cmdStartTime (cmd s))) s.

(** The elapsed time that [tkr_getByte] computes at poll [k]. *)
Definition elapsedAt (env : Env) (startTime : Z) (k : nat) : Z :=
  uint32 (uint32 (now (poll env k)) - startTime).

(** At poll [k] no byte is there and the time is not up. *)
Definition quietAt (env : Env) (startTime : Z) (k : nat) : Prop :=
  rxByte (poll env k) = None /\ elapsedAt env startTime k <= TKR_READ_TIMEOUT.

(** At poll [k] a byte is there or the time is up. *)
Definition overAt (env : Env) (startTime : Z) (k : nat) : Prop :=
  rxByte (poll env k) <> None \/ TKR_READ_TIMEOUT < elapsedAt env startTime k.

(** Byte [b] arrives at poll [k + n], after [n] quiet polls. *)
Definition receives (env : Env) (startTime : Z) (k n : nat) (b : Z) : Prop :=
  (forall m, (m < n)%nat -> quietAt env startTime (k + m))
  /\ rxByte (poll env (k + n)) = Some b.

(** A tracker that stays silent while the clock advances by 10 ticks from
    one poll to the next. *)
Definition envSilent : Env :=
  mkEnv (fun k => mkPoll None (Z.of_nat k * 10)) (fun _ => true).

(** The board array after default hit lists were made for boards
    [i .. i+n). *)
Definition defaultBoards (tag : Z) (n : nat) (i : Z) (bh : list BoardHits)
  : list BoardHits :=
  for_loop n i
    (fun brd bh => aset bh brd (mkBoard 5 (Some (placeholder (uint8 brd) tag))))
    bh.

(** A tracker that answers the poll after the clock read with the bytes
    [len] and [id], one per poll. *)
Definition envPacket (len id : Z) : Env :=
  mkEnv (fun k => match k with
                  | 1%nat => mkPoll (Some len) 0
                  | 2%nat => mkPoll (Some id) 0
                  | _ => mkPoll None 0
                  end)
        (fun _ => true).

(** [m] started in globals that satisfy [P] returns, without leaving an
    array, a value and globals that satisfy [Q]. *)
Definition total {A} (P : DAQ -> Prop) (m : M A) (Q : A -> DAQ -> Prop) : Prop :=
  forall s, P s -> exists a s', m s = Ok (a, s') /\ Q a s'.

(** The tracker event is well formed: a board array of [MAX_TKR_BOARDS]
    entries, at most that many boards, and no hit list shorter than its
    byte count says. *)
Definition boardOk (b : BoardHits) : Prop :=
  0 <= nBytes b
  /\ match hitList b with
     | Some l => nBytes b <= Z.of_nat (length l)
     | None => True
     end.

Definition tkrDataOk (d : TkrData) : Prop :=
  Z.of_nat (length (boardHits d)) = MAX_TKR_BOARDS
  /\ 0 <= nTkrBoards d <= MAX_TKR_BOARDS
  /\ Forall boardOk (boardHits d).

(** The output buffer has [MAX_DATA_OUT] bytes; and its running length is
    an index into it. *)
Definition bufOk (s : DAQ) : Prop :=
  Z.of_nat (length (dataOut (out s))) = MAX_DATA_OUT /\ tkrDataOk (tkrData s).

Definition evInv (s : DAQ) : Prop :=
  bufOk s /\ 0 <= nDataReady (out s) < MAX_DATA_OUT.

(** A tracker event of one board with a hit list of 199 bytes. *)
Definition daqBoard199 : DAQ :=
  set_tkrData (mkTkrData 0 0 0 1
                 (mkBoard 199 (Some (replicate 199 0xAA))
                  :: replicate 7 (mkBoard 0 None)))
              daqReset.

Definition eventIn0 : EventIn := mkEventIn 0 0 0 0 [0; 0; 0] [0; 0; 0].

(** "S3521 xyW": command 0x35 with one data byte; its data byte 0x00
    ("S0021 xyW", [frame00_1]) selects channel A. *)
Definition frame35 : list Z := [83; 51; 53; 50; 49; 32; 120; 121; 87].

(** The command ring when [main] has set it up: [cmdReadPtr = 255],
    [cmdWritePtr = 0], every [nBytes] zero; the contents of the byte arrays
    are whatever they were ([garbage], one array of [CMD_LENGTH] bytes per
    entry). *)
Definition ringInit (garbage : list (list Z)) : CmdRing :=
  mkRing ((fun g => mkCmds g 0) <$> garbage) 0 255.

(** What is done to the ring: the interrupt routine runs with some bytes
    waiting in the UART, or the main loop asks for a command. *)
Inductive RingOp :=
| Rx (bytes : list Z)
| Fetch.

(** The commands that the main loop gets, in the order it gets them, when
    the operations [ops] are done on the ring. *)
Fixpoint ringRun (ops : list RingOp) (r : CmdRing) (l : ErrorLog)
    (buffer : list Z) : option (list (list Z)) :=
  match ops with
  | [] => Some []
  | Rx bytes :: ops' =>
      match isrUART bytes r l with
      | Some (_, r', l') => ringRun ops' r' l' buffer
      | None => None
      end
  | Fetch :: ops' =>
      match fetchCommand buffer r with
      | Some (count, buffer', r') =>
          outs ← ringRun ops' r' l buffer';
          Some (if count =? CMD_LENGTH
                then take (Z.to_nat CMD_LENGTH) buffer' :: outs else outs)
      | None => None
      end
  end.

(** A queue of at most [MX_CMDS] commands of [CMD_LENGTH] bytes: [q] holds
    the complete commands, oldest first, and [part] the bytes of the one
    being received.  A byte that arrives while the queue is full is not
    taken. *)
Definition queuePush (st : list (list Z) * list Z) (b : Z)
  : list (list Z) * list Z :=
  let '(q, part) := st in
  if (length q <? Z.to_nat MX_CMDS)%nat then
    let p := part ++ [uint8 b] in
    if (length p =? Z.to_nat CMD_LENGTH)%nat then (q ++ [p], []) else (q, p)
  else (q, part).

Fixpoint queueRun (ops : list RingOp) (q : list (list Z)) (part : list Z)
  : list (list Z) :=
  match ops with
  | [] => []
  | Rx bytes :: ops' =>
      let '(q', part') := foldl queuePush (q, part) bytes in
      queueRun ops' q' part'
  | Fetch :: ops' =>
      match q with
      | [] => queueRun ops' [] part
      | c :: q' => c :: queueRun ops' q' part
      end
  end.

(** The ring [r] holds the queue ([q], [part]); [h] is the entry of the
    oldest command. *)
Definition ringInv (h : Z) (r : CmdRing) (q : list (list Z)) (part : list Z)
  : Prop :=
    0 <= h < MX_CMDS
    /\ Z.of_nat (length (cmd_buffer r)) = MX_CMDS
    /\ Forall (fun c => Z.of_nat (length (buf c)) = CMD_LENGTH) (cmd_buffer r)
    /\ Z.of_nat (length q) <= MX_CMDS
    /\ cmdWritePtr r = (h + Z.of_nat (length q)) mod MX_CMDS
    /\ cmdReadPtr r = (if decide (q = []) then 255 else h)
    /\ (forall k c, q !! k = Some c ->
          exists e, aget (cmd_buffer r) ((h + Z.of_nat k) mod MX_CMDS) = Some e
                    /\ buf e = c)
    /\ Z.of_nat (length part) < CMD_LENGTH
    /\ (Z.of_nat (length q) = MX_CMDS -> part = [])
    /\ (Z.of_nat (length q) < MX_CMDS ->
          exists e, aget (cmd_buffer r) (cmdWritePtr r) = Some e
                    /\ nBytes' e = Z.of_nat (length part)
                    /\ take (length part) (buf e) = part).

(** The format of a command, as the header of the source gives it:
    "S1234<sp>xyW" where "12" are the two hexadecimal digits of the data
    byte and "34" those of the address byte.  [hexChar] is the ASCII code of
    a hexadecimal digit, [frameOf] the nine bytes of one copy, [addressOf]
    the address byte of the event PSOC (address 8 in bits 5:2) that carries
    the number [n] in bits 7:6 and 1:0. *)
Definition hexChar (x : Z) : Z := if x <? 10 then 48 + x else 55 + x.

Definition frameOf (dataByte addressByte : Z) : list Z :=
  [83; hexChar (dataByte / 16); hexChar (dataByte mod 16);
   hexChar (addressByte / 16); hexChar (addressByte mod 16);
   32; 120; 121; 87].

Definition addressOf (n : Z) : Z := 64 * (n / 4) + 32 + n mod 4.

(** Passes of the main loop, as far as commands go: the time-out check,
    and then the command when the ring has one for this pass ([None]: it
    has none).  The value carried along is the counter [nCmdTimeOut]. *)
Fixpoint runPasses (wide : bool) (env : Env) (other : Z -> M unit)
    (ps : list (option (list Z))) (nCmdTimeOut : Z) : M Z :=
  match ps with
  | [] => ret nCmdTimeOut
  | p :: ps =>
      n ← cmdTimeout wide env nCmdTimeOut;
      match p with
      | Some b => commandFrame env other b
      | None => ret tt
      end;;
      runPasses wide env other ps n
  end.

(** The passes in which the commands [bufs] are taken from the ring, the
    first after [hd 0 gs] passes without a command, the second after a
    further [hd 0 (tl gs)], and so on. *)
Fixpoint withGaps (gs : list nat) (bufs : list (list Z)) : list (option (list Z)) :=
  match bufs with
  | [] => []
  | b :: bs => replicate (hd 0%nat gs) None ++ Some b :: withGaps (tl gs) bs
  end.

(** The clock reading at poll [k] is at most [TIMEOUT] ticks after the
    start of the command, [start]. *)
Definition inTime (env : Env) (start : Z) (k : nat) : Prop :=
  start <= uint32 (now (poll env k)) <= start + TIMEOUT.

(** The commands that carry the data bytes [ds], numbered from [i] on. *)
Fixpoint dataFrames (i : Z) (ds : list Z) : list (list Z) :=
  match ds with
  | [] => []
  | d :: ds' => tripled (frameOf d (addressOf i)) :: dataFrames (i + 1) ds'
  end.

(** The GO signals [gos] (each with the status register and the time read
    by the interrupt routine), one interrupt after the other. *)
Definition runGO (gos : list (Z * Z)) (s : DAQ) (latch : Z * Z) : DAQ * (Z * Z) :=
  foldl (fun st g => isrGO1 g.1 g.2 st.1 st.2) (s, latch) gos.

(** The bytes that board [brd] contributes to an event record: its number,
    the length of its hit list and the hit list; or, when the list is
    [NULL], a default hit list with the tag 0x07. *)
Definition boardBytes (brd : Z) (b : BoardHits) : list Z :=
  uint8 brd ::
  match hitList b with
  | Some l => uint8 (nBytes b) :: (uint8 <$> take (Z.to_nat (nBytes b)) l)
  | None => [5; 0xE7; uint8 brd; 0; 0x07; 0x30]
  end.

(** The same for the boards [brd .. brd+n). *)
Fixpoint boardsBytes (n : nat) (brd : Z) (bh : list BoardHits) : list Z :=
  match n with
  | O => []
  | Datatypes.S n' =>
      boardBytes brd (aread (mkBoard 0 None) bh brd) ++ boardsBytes n' (brd + 1) bh
  end.

(** The board array once the hit lists of boards [brd .. brd+n) have been
    copied out: where there was a list, the byte count is 0. *)
Definition sentBoards (n : nat) (brd : Z) (bh : list BoardHits) : list BoardHits :=
  for_loop n brd
    (fun i bh => match aget bh i with
                 | Some (mkBoard _ (Some l)) => aset bh i (mkBoard 0 (Some l))
                 | _ => bh
                 end)
    bh.

(** A board as [getTrackerData] leaves it: a byte count that is a byte, a
    hit list that is at least that long, and the count of a default hit
    list where [malloc] gave [NULL]. *)
Definition boardReady (b : BoardHits) : Prop :=
  0 <= nBytes b < 256
  /\ match hitList b with
     | Some l => nBytes b <= Z.of_nat (length l)
     | None => nBytes b <= 5
     end.

(** The output buffer of [s] starts with the bytes [acc], and everything
    but the output buffer is as in [s0]. *)
Definition bufHolds (acc : list Z) (s0 s : DAQ) : Prop :=
  Z.of_nat (length (dataOut (out s))) = MAX_DATA_OUT
  /\ Z.of_nat (length acc) <= MAX_DATA_OUT
  /\ take (length acc) (dataOut (out s)) = acc
  /\ set_out (out s0) s = s0.

(** The same when [nDataReady] counts these bytes. *)
Definition outHolds (acc : list Z) (s0 s : DAQ) : Prop :=
  bufHolds acc s0 s /\ nDataReady (out s) = uint8 (Z.of_nat (length acc)).

(** The trailer of an event record, "FINI". *)
Definition trailer : list Z := [0x46; 0x49; 0x4E; 0x49].

(** The globals [s] with the board array [bh]. *)
Definition withBoards (bh : list BoardHits) (s : DAQ) : DAQ :=
  set_tkrData (mkTkrData (triggerCount (tkrData s)) (cmdCount (tkrData s))
                 (trgPattern (tkrData s)) (nTkrBoards (tkrData s)) bh) s.

(** What [buildEvent] does to the globals besides filling the output
    buffer and marking the hit lists that were copied: event data are
    ready, the TOF buffers are reset and the board count is 0. *)
Definition eventDone (s : DAQ) : DAQ :=
  let s := set_cmd (mkCmdRegs (command (cmd s)) (cmdData (cmd s)) (nDataBytes (cmd s))
                      (dCnt (cmd s)) (awaitingCommand (cmd s)) (cmdDone (cmd s)) true
                      (cmdCountGLB (cmd s)) (cmdCount' (cmd s)) (cmdStartTime (cmd s))) s in
  let s := set_tofA (tofClear (tofA s)) (set_tofB (tofClear (tofB s)) s) in
  set_tkrData (mkTkrData (triggerCount (tkrData s)) (cmdCount (tkrData s))
                 (trgPattern (tkrData s)) 0 (boardHits (tkrData s))) s.

(** The bytes [bs] come in from the tracker, starting at poll [k]: each is
    there after fewer than [fuel] quiet polls, and [k'] is the poll that
    follows the last of them. *)
Fixpoint arrives (env : Env) (startTime : Z) (fuel k : nat) (bs : list Z) (k' : nat)
  : Prop :=
  match bs with
  | [] => k' = k
  | b :: bs => exists n, (n < fuel)%nat /\ receives env startTime k n b
                         /\ arrives env startTime fuel (Datatypes.S (k + n)) bs k'
  end.

(** A tracker that has the bytes [bs] ready, the first at poll 1 (poll 0
    is the clock read that starts the call); the clock stands at 0. *)
Definition envBytes (bs : list Z) : Env :=
  mkEnv (fun k => mkPoll (match k with O => None | Datatypes.S i => bs !! i end) 0)
        (fun _ => true).

(** The part of an event packet for one board: the length of the hit list
    and the hit list. *)
Definition boardPacket (h : list Z) : list Z := Z.of_nat (length h) :: h.

(** An event packet: length byte, identifier, trigger count (two bytes),
    command count, trigger pattern and number of boards in one byte, and
    the hit lists [hs]. *)
Definition eventPacket (hi lo cc nb : Z) (hs : list (list Z)) : list Z :=
  [5; TKR_EVT_DATA; hi; lo; cc; nb] ++ mjoin (boardPacket <$> hs).

(** A hit list as board [brd] sends it: 4 to [MAX_TKR_BOARD_BYTES] bytes,
    the first is the identifier 0xE7, the second the board address, which
    is the layer number or 8 for the master board (layer 0). *)
Definition hitListOk (brd : Z) (h : list Z) : Prop :=
  4 <= Z.of_nat (length h) <= MAX_TKR_BOARD_BYTES
  /\ h !! 0%nat = Some 0xE7
  /\ (exists a, h !! 1%nat = Some a /\ a <= 8 /\ Z.land 0x7 a = brd)
  /\ Forall (fun b => 0 <= b < 256) h.

Fixpoint hitListsOk (brd : Z) (hs : list (list Z)) : Prop :=
  match hs with
  | [] => True
  | h :: hs => hitListOk brd h /\ hitListsOk (brd + 1) hs
  end.

(** The board array with the hit lists [hs] in the entries [brd],
    [brd + 1], ... *)
Fixpoint storeBoards (brd : Z) (hs : list (list Z)) (bh : list BoardHits)
  : list BoardHits :=
  match hs with
  | [] => bh
  | h :: hs => storeBoards (brd + 1) hs
                 (aset bh brd (mkBoard (Z.of_nat (length h)) (Some h)))
  end.

(** The globals after start-up with nine tracker boards configured, one
    more than the board array holds (command 0x10 with the tracker command
    0x0F copies its data byte to [numTkrBrds] as it is). *)
Definition daqNineBoards : DAQ :=
  set_tkr (mkTkrRegs 9 (tkrCmdCode (tkr daqReset)) (tkrCmdCount (tkr daqReset))
             (nTkrHouseKeeping (tkr daqReset)) (tkrHouseKeepingFPGA (tkr daqReset))
             (tkrHouseKeeping (tkr daqReset))) daqReset.

(** The 5 ms clock keeps running: from one poll to the next its reading
    goes up by fewer than 2^32 - 32 ticks (it may also stay, or read lower),
    and the readings grow beyond every bound. *)
Definition clockRuns (env : Env) : Prop :=
  (forall k, now (poll env (S k)) - now (poll env k) < 4294967296 - 32)
  /\ (forall k T, exists n, T <= now (poll env (k + n))).


(* ===================================================================== *)
(** * Part II: properties                                                 *)
(* ===================================================================== *)

Example backIdx_wraps : backIdx 0 0 = 63.
Proof. reflexivity. Qed.

(** ** Machine integers *)

Lemma uint8_range x : 0 <= uint8 x < 256.
Proof. unfold uint8. apply Z.mod_pos_bound. lia. Qed.

Lemma uint16_range x : 0 <= uint16 x < 65536.
Proof. unfold uint16. apply Z.mod_pos_bound. lia. Qed.

Lemma uint32_range x : 0 <= uint32 x < 4294967296.
Proof. unfold uint32. apply Z.mod_pos_bound. lia. Qed.

Lemma uint8_id x : 0 <= x < 256 -> uint8 x = x.
Proof. intros. unfold uint8. by apply Z.mod_small. Qed.

Lemma uint16_id x : 0 <= x < 65536 -> uint16 x = x.
Proof. intros. unfold uint16. by apply Z.mod_small. Qed.

Lemma uint32_id x : 0 <= x < 4294967296 -> uint32 x = x.
Proof. intros. unfold uint32. by apply Z.mod_small. Qed.

Lemma int_id x : -2147483648 <= x < 2147483648 -> int x = x.
Proof. intros. unfold int. rewrite Z.mod_small; lia. Qed.

Lemma int16_id x : -32768 <= x < 32768 -> int16 x = x.
Proof. intros. unfold int16. rewrite Z.mod_small; lia. Qed.

(** ** The time difference of a pair *)





(** ** Arrays *)

Lemma aget_lookup {A} (l : list A) (i : Z) :
  0 <= i -> aget l i = l !! Z.to_nat i.
Proof. intros. unfold aget. by rewrite bool_decide_eq_true_2. Qed.

Lemma aget_neg {A} (l : list A) (i : Z) : i < 0 -> aget l i = None.
Proof. intros. unfold aget. rewrite bool_decide_eq_false_2; [done | lia]. Qed.

Lemma aget_Some_lt {A} (l : list A) (i : Z) (x : A) :
  aget l i = Some x -> 0 <= i < Z.of_nat (length l).
Proof.
  unfold aget. case_bool_decide; [|done].
  intros H1%lookup_lt_Some. lia.
Qed.

Lemma aget_is_Some {A} (l : list A) (i : Z) :
  0 <= i < Z.of_nat (length l) -> is_Some (aget l i).
Proof.
  intros. rewrite aget_lookup by lia. apply lookup_lt_is_Some. lia.
Qed.

Lemma aget_ge {A} (l : list A) (i : Z) :
  Z.of_nat (length l) <= i -> aget l i = None.
Proof.
  intros. unfold aget. case_bool_decide; [|done].
  apply lookup_ge_None. lia.
Qed.

Lemma aread_aget {A} (d : A) (l : list A) (i : Z) (x : A) :
  aget l i = Some x -> aread d l i = x.
Proof. unfold aread. by intros ->. Qed.

Lemma length_aset {A} (l : list A) (i : Z) (v : A) :
  length (aset l i v) = length l.
Proof. unfold aset. case_bool_decide; [apply length_insert | done]. Qed.

Lemma aget_aset_eq {A} (l : list A) (i : Z) (v : A) :
  0 <= i < Z.of_nat (length l) -> aget (aset l i v) i = Some v.
Proof.
  intros. rewrite aget_lookup by lia. unfold aset.
  rewrite bool_decide_eq_true_2 by lia.
  apply list_lookup_insert_eq. lia.
Qed.

Lemma aget_aset_ne {A} (l : list A) (i j : Z) (v : A) :
  i <> j -> aget (aset l i v) j = aget l j.
Proof.
  intros. unfold aget, aset.
  case_bool_decide; [|done]. case_bool_decide; [|done].
  apply list_lookup_insert_ne. lia.
Qed.

(** ** The backward scan of a circular buffer *)

Lemma backIdx_eq p k :
  0 <= p < TOFMAX_EVT -> 0 <= k < TOFMAX_EVT ->
  backIdx p k = (p - k - 1) mod TOFMAX_EVT.
Proof.
  unfold backIdx, TOFMAX_EVT. intros Hp Hk.
  rewrite (int_id (p - k - 1)) by lia.
  destruct (Z.ltb_spec (p - k - 1) 0).
  - rewrite int_id by lia.
    apply (Z.mod_unique _ _ (-1)); lia.
  - symmetry. apply Z.mod_small. lia.
Qed.

Lemma backIdx_range p k :
  0 <= p < TOFMAX_EVT -> 0 <= k < TOFMAX_EVT ->
  0 <= backIdx p k < TOFMAX_EVT.
Proof.
  intros. rewrite backIdx_eq by done. apply Z.mod_pos_bound. done.
Qed.

Lemma backIdx_onto p i :
  0 <= p < TOFMAX_EVT -> 0 <= i < TOFMAX_EVT ->
  exists k, 0 <= k < TOFMAX_EVT /\ backIdx p k = i.
Proof.
  intros Hp Hi. exists ((p - 1 - i) mod TOFMAX_EVT).
  pose proof (Z.mod_pos_bound (p - 1 - i) TOFMAX_EVT) as Hb.
  split; [apply Hb; done|].
  rewrite backIdx_eq by (try apply Hb; done).
  unfold TOFMAX_EVT in *.
  destruct (Z.ltb_spec (p - 1 - i) 0).
  - rewrite <- (Z.mod_unique (p - 1 - i) 64 (-1) (p - 1 - i + 64)) by lia.
    rewrite <- (Z.mod_unique (p - (p - 1 - i + 64) - 1) 64 (-1) i) by lia.
    done.
  - rewrite (Z.mod_small (p - 1 - i)) by lia.
    rewrite Z.mod_small by lia. lia.
Qed.

Lemma elem_of_scanList test p n k x :
  x ∈ scanList test p n k <->
  exists k', k <= k' < k + Z.of_nat n /\ x = backIdx p k' /\ test x = true.
Proof.
  revert k. induction n as [|n IH]; intros k; simpl.
  - split; [by intros ?%elem_of_nil | intros (k' & ? & _); lia].
  - rewrite elem_of_app, IH. split.
    + intros [H | (k' & ? & ? & ?)].
      * destruct (test (backIdx p k)) eqn:E; [|by apply elem_of_nil in H].
        apply list_elem_of_singleton in H as ->.
        exists k. split; [lia | done].
      * exists k'. split; [lia | done].
    + intros (k' & Hk & -> & Ht).
      destruct (decide (k' = k)) as [-> | Hne].
      * left. rewrite Ht. by apply list_elem_of_singleton.
      * right. exists k'. split; [lia | done].
Qed.

Lemma elem_of_scanList_full test p x :
  0 <= p < TOFMAX_EVT ->
  x ∈ scanList test p (Z.to_nat TOFMAX_EVT) 0 <->
  0 <= x < TOFMAX_EVT /\ test x = true.
Proof.
  intros Hp. rewrite elem_of_scanList. split.
  - intros (k & Hk & -> & Ht). split; [|done].
    apply backIdx_range; [done | unfold TOFMAX_EVT in *; lia].
  - intros [Hx Ht]. destruct (backIdx_onto p x Hp Hx) as (k & Hk & <-).
    exists k. split; [unfold TOFMAX_EVT in *; lia | done].
Qed.

(** ** The invariant of the TOF buffers *)

Lemma TOFwf_elim t :
  TOFwf t ->
  Z.of_nat (length (shiftReg t)) = TOFMAX_EVT
  /\ Z.of_nat (length (clkCnt t)) = TOFMAX_EVT
  /\ Z.of_nat (length (filled t)) = TOFMAX_EVT
  /\ 0 <= ptr t < TOFMAX_EVT
  /\ (forall i c, aget (clkCnt t) i = Some c -> 0 <= c < 65536).
Proof.
  unfold TOFwf, TOFwfb. rewrite !andb_true_iff, forallb_forall.
  intros [[[[[H1 H2] H3] H4] H5] H6].
  split; [lia|]. split; [lia|]. split; [lia|]. split; [lia|].
  intros i c Hc. unfold aget in Hc. case_bool_decide; [|done].
  apply list_elem_of_lookup_2, list_elem_of_In, H6 in Hc. lia.
Qed.

Lemma TOFwf_clk_range t i :
  TOFwf t -> 0 <= aread 0 (clkCnt t) i < 65536.
Proof.
  intros (_ & _ & _ & _ & H)%TOFwf_elim. unfold aread.
  destruct (aget (clkCnt t) i) as [c|] eqn:E; simpl; [by eapply H | lia].
Qed.

Lemma TOFwf_filled t i :
  TOFwf t -> 0 <= i < TOFMAX_EVT ->
  aget (filled t) i = Some (aread false (filled t) i).
Proof.
  intros (_ & _ & H & _)%TOFwf_elim Hi. unfold aread.
  destruct (aget_is_Some (filled t) i) as [b ->]; [lia | done].
Qed.

(** The interrupt routines keep the invariant. *)
Lemma tofStore_wf AT now t : TOFwf t -> TOFwf (tofStore AT now t).
Proof.
  intros Hwf. pose proof Hwf as (H1 & H2 & H3 & H4 & H5)%TOFwf_elim.
  unfold TOFwf, TOFwfb, tofStore. cbn [shiftReg clkCnt filled ptr].
  rewrite !length_aset, !andb_true_iff, forallb_forall.
  repeat split; try (apply Z.eqb_eq; done).
  - destruct (uint8 (ptr t + 1) >=? TOFMAX_EVT); [done|].
    apply Z.leb_le. apply uint8_range.
  - destruct (Z.geb_spec (uint8 (ptr t + 1)) TOFMAX_EVT); [done|].
    apply Z.ltb_lt. lia.
  - intros c Hc%list_elem_of_In%list_elem_of_lookup_1. destruct Hc as [n Hn].
    assert (Hg : aget (aset (clkCnt t) (ptr t) (uint16 now)) (Z.of_nat n) = Some c).
    { rewrite aget_lookup by lia. by rewrite Nat2Z.id. }
    destruct (decide (ptr t = Z.of_nat n)) as [E | E].
    + rewrite <- E, aget_aset_eq in Hg by lia. injection Hg as <-.
      pose proof (uint16_range now). lia.
    + rewrite aget_aset_ne in Hg by done. apply H5 in Hg. lia.
Qed.

Lemma length_clear_loop n k (f : list bool) :
  length (for_loop n k (fun j f => aset f j false) f) = length f.
Proof.
  revert k f. induction n as [|n IH]; intros k f; simpl; [done|].
  by rewrite IH, length_aset.
Qed.

Lemma tofClear_wf t : TOFwf t -> TOFwf (tofClear t).
Proof.
  intros Hwf. unfold TOFwf, TOFwfb in *. unfold tofClear.
  cbn [shiftReg clkCnt filled ptr].
  rewrite length_clear_loop.
  rewrite !andb_true_iff in *. destruct Hwf as [[[[[? ?] ?] ?] ?] ?].
  repeat split; done.
Qed.

(** ** The candidates of the correlator *)

Lemma scanA_loop t T n k acc :
  for_loop n k (scanA_body t T) acc
  = acc ++ (uint8 <$> scanList (testA t T) (ptr t) n k).
Proof.
  revert k acc. induction n as [|n IH]; intros k acc; simpl.
  - by rewrite app_nil_r.
  - rewrite IH. unfold scanA_body, testA.
    destruct (aread false (filled t) (backIdx (ptr t) k)); simpl; [|done].
    destruct ((T =? _) || (T =? _)); simpl; [|done].
    by rewrite <- app_assoc.
Qed.

Lemma testA_inWindow t T i :
  TOFwf t -> 0 <= T < 65536 -> 0 <= i < TOFMAX_EVT ->
  testA t T i = true <-> inWindow t T i.
Proof.
  intros Hwf HT Hi. unfold testA, inWindow.
  pose proof (TOFwf_clk_range t i Hwf) as Hc.
  rewrite (TOFwf_filled t i Hwf Hi).
  rewrite andb_true_iff, orb_true_iff, !Z.eqb_eq.
  rewrite (int_id (aread 0 (clkCnt t) i + 1)) by lia.
  split.
  - intros [-> [? | ?]]; (split; [done|]); (split; [done|]); lia.
  - intros (_ & [= ->] & [? | ?]); (split; [done|]); lia.
Qed.

Lemma testB_inWindow t T j :
  TOFwf t -> 0 <= T < 65536 -> 0 <= j < TOFMAX_EVT ->
  testB t T j = true <-> inWindow t T j.
Proof.
  intros Hwf HT Hj. unfold testB, inWindow.
  pose proof (TOFwf_clk_range t j Hwf) as Hc.
  rewrite (TOFwf_filled t j Hwf Hj).
  rewrite andb_true_iff, orb_true_iff, !Z.eqb_eq.
  rewrite (int_id (T - 1)) by lia.
  split.
  - intros [-> [? | ?]]; (split; [done|]); (split; [done|]); lia.
  - intros (_ & [= ->] & [? | ?]); (split; [done|]); lia.
Qed.

Lemma elem_of_scanA t T i :
  TOFwf t -> 0 <= T < 65536 ->
  i ∈ scanA t T <-> inWindow t T i.
Proof.
  intros Hwf HT. pose proof Hwf as (_ & _ & _ & Hp & _)%TOFwf_elim.
  unfold scanA. rewrite scanA_loop, app_nil_l, list_elem_of_fmap.
  split.
  - intros (x & -> & [Hx Ht]%elem_of_scanList_full); [|done].
    rewrite uint8_id by (unfold TOFMAX_EVT in *; lia).
    by apply testA_inWindow.
  - intros Hw. pose proof Hw as (Hi & _).
    exists i. split; [symmetry; apply uint8_id; unfold TOFMAX_EVT in *; lia|].
    apply elem_of_scanList_full; [done|]. split; [done|].
    by apply testA_inWindow.
Qed.

(** ** The search for the smallest time difference *)

Lemma pair_body_spec tA tB j c i :
  bCand (pair_body tA tB j c i) = bCand c
  /\ nJ (pair_body tA tB j c i) = nJ c
  /\ dtmin (pair_body tA tB j c i)
     = if decide (Z.abs (int (aread 0 (clkCnt tA) i - aread 0 (clkCnt tB) j)) <= 1)
       then minStep (dtmin c) (dtOf tA tB i j) else dtmin c.
Proof.
  unfold pair_body, minStep, dtOf.
  destruct (Z.gtb_spec (Z.abs (int (aread 0 (clkCnt tA) i - aread 0 (clkCnt tB) j))) 1).
  - rewrite decide_False by lia. done.
  - rewrite decide_True by lia.
    destruct (Z.abs (pairDt _ _) <? Z.abs (dtmin c)); done.
Qed.

Lemma inner_loop_spec tA tB j idx c :
  bCand (foldl (pair_body tA tB j) c idx) = bCand c
  /\ nJ (foldl (pair_body tA tB j) c idx) = nJ c
  /\ dtmin (foldl (pair_body tA tB j) c idx)
     = foldl minStep (dtmin c) (dtsOf tA tB idx j).
Proof.
  revert c. induction idx as [|i idx IH]; intros c; [done|].
  simpl. destruct (IH (pair_body tA tB j c i)) as (-> & -> & ->).
  destruct (pair_body_spec tA tB j c i) as (-> & -> & ->).
  split; [done|]. split; [done|].
  unfold dtsOf. rewrite filter_cons. case_decide; done.
Qed.

Lemma scanB_body_skip tA tB T idx k c :
  testB tB T (backIdx (ptr tB) k) = false ->
  scanB_body tA tB T idx k c = c.
Proof.
  unfold testB, scanB_body. intros H.
  destruct (aread false (filled tB) (backIdx (ptr tB) k)); [|done].
  simpl in *. by rewrite H.
Qed.

Lemma scanB_body_take tA tB T idx k c :
  testB tB T (backIdx (ptr tB) k) = true ->
  scanB_body tA tB T idx k c
  = foldl (pair_body tA tB (backIdx (ptr tB) k))
          (mkCorr (dtmin c) (aCLK c) (bCLK c) (aTOF c) (bTOF c)
                  (int (nJ c + 1)) (bCand c ++ [backIdx (ptr tB) k]))
          idx.
Proof.
  unfold testB, scanB_body. intros H.
  destruct (aread false (filled tB) (backIdx (ptr tB) k)); [|done].
  simpl in *. by rewrite H.
Qed.

Lemma outer_loop_spec tA tB T idx n k c :
  0 <= nJ c -> nJ c + Z.of_nat n < 2147483648 ->
  let c' := for_loop n k (scanB_body tA tB T idx) c in
  let js := scanList (testB tB T) (ptr tB) n k in
  bCand c' = bCand c ++ js
  /\ nJ c' = nJ c + Z.of_nat (length js)
  /\ dtmin c' = foldl minStep (dtmin c) (mjoin (dtsOf tA tB idx <$> js)).
Proof.
  revert k c. induction n as [|n IH]; intros k c H0 Hn; cbn zeta.
  - cbn [for_loop scanList]. rewrite app_nil_r.
    split; [done|]. split; [simpl; lia | done].
  - cbn [for_loop scanList].
    destruct (testB tB T (backIdx (ptr tB) k)) eqn:E.
    + rewrite scanB_body_take by done.
      set (jptr := backIdx (ptr tB) k).
      set (c1 := mkCorr _ _ _ _ _ _ _).
      destruct (inner_loop_spec tA tB jptr idx c1) as (Hb & Hj & Hd).
      assert (HnJ : nJ c1 = nJ c + 1) by (apply int_id; lia).
      destruct (IH (k + 1) (foldl (pair_body tA tB jptr) c1 idx)) as (-> & -> & ->).
      { rewrite Hj, HnJ. lia. }
      { rewrite Hj, HnJ. lia. }
      rewrite Hb, Hj, Hd, HnJ. unfold c1 at 1 2. cbn [bCand dtmin].
      rewrite <- app_assoc. cbn [app fmap list_fmap mjoin list_join length].
      rewrite foldl_app.
      split; [done|]. split; [lia | done].
    + rewrite scanB_body_skip by done. rewrite app_nil_l.
      apply IH; lia.
Qed.

Lemma minStep_fold ds r0 :
  Z.abs r0 <= 32767 ->
  let r := foldl minStep r0 ds in
  Z.abs r <= Z.abs r0
  /\ (forall d, d ∈ ds -> Z.abs r <= Z.abs d)
  /\ (r = r0 \/ (r ∈ ds /\ Z.abs r < Z.abs r0)).
Proof.
  revert r0. induction ds as [|d ds IH]; intros r0 Hr0; cbn zeta; cbn [foldl].
  - split; [lia|]. split; [by intros d ?%elem_of_nil | by left].
  - assert (Hr1 : (minStep r0 d = d /\ Z.abs d < Z.abs r0)
                  \/ (minStep r0 d = r0 /\ Z.abs r0 <= Z.abs d)).
    { unfold minStep. destruct (Z.ltb_spec (Z.abs d) (Z.abs r0)).
      - left. split; [apply int16_id; lia | done].
      - right. done. }
    destruct Hr1 as [[-> Hlt] | [-> Hge]].
    + destruct (IH d) as (H1 & H2 & H3); [lia|].
      split; [lia|]. split.
      * intros d' [-> | Hd']%elem_of_cons; [done | by apply H2].
      * right. destruct H3 as [H3 | [? ?]].
        -- rewrite H3. split; [apply list_elem_of_here | lia].
        -- split; [by apply list_elem_of_further | lia].
    + destruct (IH r0 Hr0) as (H1 & H2 & H3).
      split; [lia|]. split.
      * intros d' [-> | Hd']%elem_of_cons; [lia | by apply H2].
      * destruct H3 as [H3 | [? ?]]; [by left|].
        right. split; [by apply list_elem_of_further | done].
Qed.

Lemma elem_of_dts tA tB idx js d :
  d ∈ mjoin (dtsOf tA tB idx <$> js) <->
  exists i j, i ∈ idx /\ j ∈ js
    /\ Z.abs (int (aread 0 (clkCnt tA) i - aread 0 (clkCnt tB) j)) <= 1
    /\ d = dtOf tA tB i j.
Proof.
  rewrite list_elem_of_join. split.
  - intros (l & Hd & (j & -> & Hj)%list_elem_of_fmap).
    unfold dtsOf in Hd.
    apply list_elem_of_fmap in Hd as (i & -> & [Hc Hi]%list_elem_of_filter).
    by exists i, j.
  - intros (i & j & Hi & Hj & Hc & ->).
    exists (dtsOf tA tB idx j). split.
    + unfold dtsOf. apply list_elem_of_fmap. exists i. split; [done|].
      by apply list_elem_of_filter.
    + apply list_elem_of_fmap. by exists j.
Qed.

Lemma timeStamp16_range x : 0 <= uint16 (Z.land x 0x0000FFFF) < 65536.
Proof. apply uint16_range. Qed.

(** What the two loops of [correlate] compute. *)
Lemma correlate_spec tA tB timeStampSave :
  TOFwf tA -> TOFwf tB ->
  let T := uint16 (Z.land timeStampSave 0x0000FFFF) in
  let idx := (correlate tA tB timeStampSave).1 in
  let c := (correlate tA tB timeStampSave).2 in
  (forall i, i ∈ idx <-> inWindow tA T i)
  /\ (forall j, j ∈ bCand c <-> inWindow tB T j)
  /\ nJ c = Z.of_nat (length (bCand c))
  /\ dtmin c = foldl minStep 32767 (mjoin (dtsOf tA tB idx <$> bCand c)).
Proof.
  intros HA HB T idx c.
  pose proof (timeStamp16_range timeStampSave) as HT. fold T in HT.
  pose proof HB as (_ & _ & _ & Hp & _)%TOFwf_elim.
  assert (Hidx : idx = scanA tA T) by done.
  assert (Hc : c = for_loop (Z.to_nat TOFMAX_EVT) 0
                     (scanB_body tA tB T (scanA tA T)) corrInit) by done.
  pose proof (outer_loop_spec tA tB T (scanA tA T) (Z.to_nat TOFMAX_EVT) 0 corrInit)
    as Hloop.
  cbv zeta in Hloop. rewrite <- Hc, <- Hidx in Hloop.
  change (bCand corrInit) with (@nil Z) in Hloop.
  change (nJ corrInit) with 0 in Hloop.
  change (dtmin corrInit) with 32767 in Hloop.
  rewrite app_nil_l in Hloop.
  destruct Hloop as (Hb & Hj & Hd); [done | done |].
  clearbody c idx.
  split; [intros i; subst idx; by apply elem_of_scanA|].
  split; [|split].
  - intros j. rewrite Hb.
    rewrite elem_of_scanList_full by done. split.
    + intros [Hj' Ht]. by apply testB_inWindow.
    + intros Hw. pose proof Hw as (Hj' & _). split; [done|].
      by apply testB_inWindow.
  - rewrite Hj, Hb. lia.
  - by rewrite Hd, Hb.
Qed.

Lemma considered_close tA tB i j :
  TOFwf tA -> TOFwf tB ->
  int (aread 0 (clkCnt tA) i - aread 0 (clkCnt tB) j)
  = aread 0 (clkCnt tA) i - aread 0 (clkCnt tB) j.
Proof.
  intros HA HB.
  pose proof (TOFwf_clk_range tA i HA). pose proof (TOFwf_clk_range tB j HB).
  apply int_id. lia.
Qed.

Lemma elem_of_correlate_dts tA tB timeStampSave d :
  TOFwf tA -> TOFwf tB ->
  let T := uint16 (Z.land timeStampSave 0x0000FFFF) in
  let idx := (correlate tA tB timeStampSave).1 in
  let c := (correlate tA tB timeStampSave).2 in
  d ∈ mjoin (dtsOf tA tB idx <$> bCand c) <->
  exists i j, consideredPair tA tB T i j /\ d = dtOf tA tB i j.
Proof.
  intros HA HB T idx c.
  destruct (correlate_spec tA tB timeStampSave HA HB) as (Hi & Hj & _).
  fold T idx c in Hi, Hj.
  rewrite elem_of_dts. unfold consideredPair. split.
  - intros (i & j & Hi' & Hj' & Hc & ->). exists i, j.
    rewrite considered_close in Hc by done.
    apply Hi in Hi'. apply Hj in Hj'. done.
  - intros (i & j & (Hi' & Hj' & Hc) & ->). exists i, j.
    rewrite considered_close by done.
    apply Hi in Hi'. apply Hj in Hj'. done.
Qed.

(** C2, as the code has it.  For the 16-bit tag [T] of the trigger, the
    entries of channel A that the scan collects are exactly the filled entries
    whose clock tag is [T] or [T - 1], and the entries of channel B that pass
    its guards (those counted by [nJ]) are exactly the filled entries whose
    clock tag is [T] or [T - 1]; every other entry is ignored. *)
Theorem candidate_sets tA tB timeStampSave :
  TOFwf tA -> TOFwf tB ->
  let T := uint16 (Z.land timeStampSave 0x0000FFFF) in
  let idx := (correlate tA tB timeStampSave).1 in
  let c := (correlate tA tB timeStampSave).2 in
  (forall i, i ∈ idx <-> inWindow tA T i)
  /\ (forall j, j ∈ bCand c <-> inWindow tB T j)
  /\ nJ c = Z.of_nat (length (bCand c)).
Proof.
  intros HA HB T idx c.
  destruct (correlate_spec tA tB timeStampSave HA HB) as (Hi & Hj & Hn & _).
  done.
Qed.

Lemma candidate_sets_witness :
  (0 ∈ (correlate tofA_two tofB_one 1000).1 <-> inWindow tofA_two 1000 0)
  /\ (0 ∈ bCand (correlate tofA_two tofB_one 1000).2 <-> inWindow tofB_one 1000 0).
Proof.
  pose proof (candidate_sets tofA_two tofB_one 1000 eq_refl eq_refl) as H.
  cbv zeta in H. destruct H as (HA & HB & _).
  split; [exact (HA 0) | exact (HB 0)].
Defined.

(** C2 as stated fails for channel A: an entry stored during tick [T + 1]
    is not collected, and an entry stored during tick [T - 1] is. *)
Lemma candidate_sets_counterexample :
  inWindowAfter tofA_ticks 1000 0
  /\ aread 0 (clkCnt tofA_ticks) 1 = 999
  /\ (correlate tofA_ticks tofZero 1000).1 = [1].
Proof.
  split; [|split]; [|reflexivity|vm_compute; reflexivity].
  unfold inWindowAfter. split; [unfold TOFMAX_EVT; lia|].
  split; [reflexivity | right; reflexivity].
Qed.

(** C1, as the code has it.  Among the pairs of a collected entry of
    channel A and a collected entry of channel B whose clock tags differ by
    at most one tick: when some pair has a time difference below 32767 in
    absolute value, the reported time of flight is the signed difference of
    a pair whose absolute difference is the smallest of all pairs; when no
    pair has (in particular when there is no pair), it is 32767. *)
Theorem correlator_minimum tA tB timeStampSave :
  TOFwf tA -> TOFwf tB ->
  let T := uint16 (Z.land timeStampSave 0x0000FFFF) in
  let r := dtmin (correlate tA tB timeStampSave).2 in
  ((exists i j, consideredPair tA tB T i j /\ Z.abs (dtOf tA tB i j) < 32767) ->
   exists i j, consideredPair tA tB T i j /\ r = dtOf tA tB i j
     /\ forall i' j', consideredPair tA tB T i' j' ->
                      Z.abs r <= Z.abs (dtOf tA tB i' j'))
  /\ ((forall i j, consideredPair tA tB T i j -> 32767 <= Z.abs (dtOf tA tB i j)) ->
      r = 32767).
Proof.
  intros HA HB T r.
  destruct (correlate_spec tA tB timeStampSave HA HB) as (_ & _ & _ & Hd).
  pose proof (fun d => elem_of_correlate_dts tA tB timeStampSave d HA HB) as Hin.
  cbv zeta in Hin. fold T in Hin. fold r in Hd.
  set (ds := mjoin _) in *.
  destruct (minStep_fold ds 32767) as (H1 & H2 & H3); [lia|].
  rewrite <- Hd in H1, H2, H3. clear Hd. split.
  - intros (i & j & Hp & Hlt).
    assert (Hr : Z.abs r < 32767).
    { assert (dtOf tA tB i j ∈ ds) as Hm%H2 by (apply Hin; eauto). lia. }
    destruct H3 as [-> | [Hm _]]; [simpl in Hr; lia|].
    apply Hin in Hm as (i0 & j0 & Hp0 & Hr0).
    exists i0, j0. split; [done|]. split; [done|].
    intros i' j' Hp'. apply H2, Hin. eauto.
  - intros Hall. destruct H3 as [-> | [Hm Hlt]]; [done|].
    apply Hin in Hm as (i0 & j0 & Hp0 & Hr0).
    specialize (Hall i0 j0 Hp0). rewrite <- Hr0 in Hall. simpl in Hlt. lia.
Qed.

Lemma considered_two_one : consideredPair tofA_two tofB_one 1000 0 0.
Proof.
  unfold consideredPair, inWindow, TOFMAX_EVT.
  repeat split; try lia; try reflexivity; try (left; reflexivity).
  vm_compute. discriminate.
Qed.

Lemma correlator_minimum_witness :
  exists i j, consideredPair tofA_two tofB_one 1000 i j
    /\ dtmin (correlate tofA_two tofB_one 1000).2 = dtOf tofA_two tofB_one i j
    /\ forall i' j', consideredPair tofA_two tofB_one 1000 i' j' ->
         Z.abs (dtmin (correlate tofA_two tofB_one 1000).2)
         <= Z.abs (dtOf tofA_two tofB_one i' j').
Proof.
  apply (proj1 (correlator_minimum tofA_two tofB_one 1000 eq_refl eq_refl)).
  exists 0, 0. split; [exact considered_two_one|].
  vm_compute. reflexivity.
Defined.

Example correlate_two_one :
  (correlate tofA_two tofB_one 1000).1 = [1; 0]
  /\ bCand (correlate tofA_two tofB_one 1000).2 = [0]
  /\ dtOf tofA_two tofB_one 0 0 = 240
  /\ dtOf tofA_two tofB_one 1 0 = 775219
  /\ dtmin (correlate tofA_two tofB_one 1000).2 = 240.
Proof. vm_compute. done. Qed.

(** ** The time difference of a pair *)





(** C1 as stated fails: the only pair has the time difference -32767, which
    fits the 16-bit field, and the reported time of flight is 32767. *)
Lemma correlator_minimum_counterexample :
  consideredPair tofA_far tofB_far 1000 0 0
  /\ (correlate tofA_far tofB_far 1000).1 = [0]
  /\ bCand (correlate tofA_far tofB_far 1000).2 = [0]
  /\ dtOf tofA_far tofB_far 0 0 = -32767
  /\ dtmin (correlate tofA_far tofB_far 1000).2 = 32767.
Proof.
  split.
  - unfold consideredPair, inWindow, TOFMAX_EVT.
    repeat split; try lia; try reflexivity; try (left; reflexivity).
    vm_compute. discriminate.
  - vm_compute. done.
Qed.

(** ** The time-of-flight field of the event record *)

Lemma byte16_hi w : byte16 w 0 = uint16 w / 256.
Proof.
  unfold byte16. pose proof (uint16_range w) as Hw. cbn [Z.eqb].
  rewrite Z.shiftr_land. change (Z.shiftr 0xFF00 8) with (Z.ones 8).
  rewrite Z.land_ones, Z.shiftr_div_pow2 by lia.
  change (2 ^ 8) with 256.
  assert (0 <= uint16 w / 256 < 256).
  { split; [apply Z.div_pos; lia | apply Z.div_lt_upper_bound; lia]. }
  rewrite Z.mod_small by lia. apply uint8_id. lia.
Qed.

Lemma byte16_lo w : byte16 w 1 = uint16 w mod 256.
Proof.
  unfold byte16. cbn [Z.eqb Pos.eqb].
  change 0x00FF with (Z.ones 8). rewrite Z.land_ones by lia.
  change (2 ^ 8) with 256. apply uint8_id. apply Z.mod_pos_bound. lia.
Qed.

Lemma int16_uint16 r : -32768 <= r < 32768 -> int16 (uint16 r) = r.
Proof.
  intros Hr. unfold int16, uint16.
  destruct (Z.ltb_spec r 0).
  - rewrite <- (Z.mod_unique r 65536 (-1) (r + 65536)) by lia.
    rewrite <- (Z.mod_unique (r + 65536 + 32768) 65536 1 (r + 32768)) by lia.
    lia.
  - rewrite (Z.mod_small r) by lia. rewrite Z.mod_small by lia. lia.
Qed.

(** The two bytes stored at [dataOut[35]] and [dataOut[36]] are [dtmin],
    high byte first, in two's complement. *)
Lemma eventHeader_tof e idx c s :
  eventHeader e idx c s !! 35%nat = Some (byte16 (dtmin c) 0)
  /\ eventHeader e idx c s !! 36%nat = Some (byte16 (dtmin c) 1)
  /\ (-32768 <= dtmin c < 32768 ->
      int16 (256 * byte16 (dtmin c) 0 + byte16 (dtmin c) 1) = dtmin c).
Proof.
  split; [reflexivity|]. split; [reflexivity|]. intros Hr.
  rewrite byte16_hi, byte16_lo.
  rewrite <- (Z.div_mod (uint16 (dtmin c)) 256) by lia.
  by apply int16_uint16.
Qed.

(** The reported time of flight always fits the field. *)
Lemma correlate_dtmin_range tA tB timeStampSave :
  TOFwf tA -> TOFwf tB ->
  Z.abs (dtmin (correlate tA tB timeStampSave).2) <= 32767.
Proof.
  intros HA HB.
  destruct (correlate_spec tA tB timeStampSave HA HB) as (_ & _ & _ & ->).
  destruct (minStep_fold
              (mjoin (dtsOf tA tB (correlate tA tB timeStampSave).1
                        <$> bCand (correlate tA tB timeStampSave).2)) 32767)
    as (H & _); [lia|]. simpl Z.abs in H at 2. done.
Qed.

(** ** The error log *)

Lemma addError_wf code v1 v2 l : logWf l -> logWf (addError code v1 v2 l).
Proof.
  unfold logWf, addError, MXERR. intros [HL Hn].
  destruct (Z.ltb_spec (nErrors l) 64); [|done]. simpl.
  rewrite length_aset, uint8_id by lia. lia.
Qed.

Lemma addError_full code v1 v2 l :
  MXERR <= nErrors l -> addError code v1 v2 l = l.
Proof.
  unfold addError. intros H. destruct (Z.ltb_spec (nErrors l) MXERR); [lia | done].
Qed.

(** A fault logged while there is room adds exactly one entry. *)
Lemma addError_room code v1 v2 l :
  logWf l -> nErrors l < MXERR ->
  nErrors (addError code v1 v2 l) = nErrors l + 1
  /\ aget (errors (addError code v1 v2 l)) (nErrors l)
     = Some (mkError (uint8 code) (uint8 v1) (uint8 v2))
  /\ forall i, i <> nErrors l ->
       aget (errors (addError code v1 v2 l)) i = aget (errors l) i.
Proof.
  unfold logWf, addError, MXERR. intros [HL Hn] Hlt.
  destruct (Z.ltb_spec (nErrors l) 64); [|lia]. simpl.
  split; [apply uint8_id; lia|]. split.
  - apply aget_aset_eq. lia.
  - intros i Hi. by apply aget_aset_ne.
Qed.

Lemma take_aset_snoc {A} (l : list A) (n : Z) (x : A) :
  0 <= n < Z.of_nat (length l) ->
  take (Z.to_nat (n + 1)) (aset l n x) = take (Z.to_nat n) l ++ [x].
Proof.
  intros Hn. unfold aset. rewrite bool_decide_eq_true_2 by lia.
  replace (Z.to_nat (n + 1)) with (S (Z.to_nat n)) by lia.
  rewrite (take_S_r _ _ x) by (apply list_lookup_insert_eq; lia).
  by rewrite take_insert_ge.
Qed.

Lemma logAll_spec es l :
  logWf l -> nErrors l + Z.of_nat (length es) <= MXERR ->
  logWf (logAll es l)
  /\ nErrors (logAll es l) = nErrors l + Z.of_nat (length es)
  /\ take (Z.to_nat (nErrors (logAll es l))) (errors (logAll es l))
     = take (Z.to_nat (nErrors l)) (errors l) ++ (recorded <$> es).
Proof.
  revert l. induction es as [|e es IH]; intros l Hwf Hn.
  - simpl. split; [done|]. split; [lia|]. by rewrite app_nil_r.
  - cbn [logAll foldl]. fold (logAll es (addError (errorCode e) (value0 e) (value1 e) l)).
    cbn [length] in Hn.
    pose proof (addError_wf (errorCode e) (value0 e) (value1 e) l Hwf) as Hwf'.
    destruct (addError_room (errorCode e) (value0 e) (value1 e) l Hwf) as (Hn' & _ & _);
      [lia|].
    destruct (IH _ Hwf') as (H1 & H2 & H3); [lia|].
    split; [done|]. split; [rewrite H2, Hn'; cbn [length]; lia|].
    rewrite H3, Hn'. destruct Hwf as [HL Hr].
    unfold addError. destruct (Z.ltb_spec (nErrors l) MXERR); [|lia].
    cbn [errors]. rewrite take_aset_snoc by lia.
    rewrite <- app_assoc. done.
Qed.

(** ** Draining the error log *)

Lemma length_readErrors_body errs i d :
  length (readErrors_body errs i d) = length d.
Proof. unfold readErrors_body. by rewrite !length_aset. Qed.

Lemma take_readErrors_body errs i d :
  0 <= i -> i * 3 + 3 <= Z.of_nat (length d) ->
  take (Z.to_nat (i * 3 + 3)) (readErrors_body errs i d)
  = take (Z.to_nat (i * 3)) d ++ errorBytes (aread (mkError 0 0 0) errs i).
Proof.
  intros Hi Hlen. unfold readErrors_body, errorBytes.
  set (e := aread _ errs i).
  replace (i * 3 + 3) with (i * 3 + 2 + 1) by lia.
  rewrite take_aset_snoc by (rewrite !length_aset; lia).
  replace (i * 3 + 2) with (i * 3 + 1 + 1) by lia.
  rewrite take_aset_snoc by (rewrite !length_aset; lia).
  rewrite take_aset_snoc by lia.
  by rewrite <- !app_assoc.
Qed.

Lemma readErrors_loop errs n i d :
  0 <= i -> (i + Z.of_nat n) * 3 <= Z.of_nat (length d) ->
  take (Z.to_nat ((i + Z.of_nat n) * 3))
       (for_loop n i (readErrors_body errs) d)
  = take (Z.to_nat (i * 3)) d
    ++ mjoin ((fun k => errorBytes (aread (mkError 0 0 0) errs k))
              <$> seqZ i (Z.of_nat n)).
Proof.
  revert i d. induction n as [|n IH]; intros i d Hi Hlen.
  - cbn [for_loop]. rewrite Z.add_0_r. simpl. by rewrite app_nil_r.
  - cbn [for_loop]. rewrite seqZ_cons by lia. cbn [fmap list_fmap mjoin list_join].
    replace (i + Z.of_nat (S n)) with (i + 1 + Z.of_nat n) in * by lia.
    rewrite IH by (rewrite ?length_readErrors_body; lia).
    replace ((i + 1) * 3) with (i * 3 + 3) by lia.
    rewrite take_readErrors_body by lia.
    rewrite <- app_assoc. cbn [app]. do 5 f_equal. lia.
Qed.

Lemma fmap_aread_seqZ {A} (d : A) (l : list A) (n : nat) :
  (n <= length l)%nat ->
  aread d l <$> seqZ 0 (Z.of_nat n) = take n l.
Proof.
  intros Hn. apply list_eq. intros i. rewrite list_lookup_fmap.
  destruct (decide (i < n)%nat).
  - rewrite lookup_seqZ_lt by lia. simpl. rewrite lookup_take_lt by lia.
    unfold aread. rewrite aget_lookup by lia. rewrite Z.add_0_l, Nat2Z.id.
    destruct (lookup_lt_is_Some_2 l i) as [x ->]; [lia | done].
  - rewrite lookup_seqZ_ge by lia. rewrite lookup_take_ge by lia. done.
Qed.

Lemma length_errorBytes (es : list Error) :
  length (mjoin (errorBytes <$> es)) = (3 * length es)%nat.
Proof.
  induction es as [|e es IH]; [done|].
  change (mjoin (errorBytes <$> e :: es))
    with (errorBytes e ++ mjoin (errorBytes <$> es)).
  rewrite length_app, IH. simpl. lia.
Qed.

(** The drain of a log that holds [n > 0] faults. *)
Lemma cmd_readErrors_some l o :
  logWf l -> 0 < nErrors l ->
  Z.of_nat (length (dataOut o)) = MAX_DATA_OUT ->
  nErrors (cmd_readErrors l o).1 = 0
  /\ errors (cmd_readErrors l o).1 = errors l
  /\ Z.of_nat (length (dataOut (cmd_readErrors l o).2)) = MAX_DATA_OUT
  /\ nDataReady (cmd_readErrors l o).2 = 3 * nErrors l
  /\ payload (cmd_readErrors l o).2
     = mjoin (errorBytes <$> take (Z.to_nat (nErrors l)) (errors l)).
Proof.
  unfold logWf. intros [HL Hn] Hpos Hd.
  unfold cmd_readErrors, MXERR, MAX_DATA_OUT in *.
  destruct (Z.eqb_spec (nErrors l) 0) as [|_]; [lia|].
  cbn [fst snd errors nErrors dataOut nDataReady].
  split; [done|]. split; [done|].
  assert (Hlen : forall n k d, length (for_loop n k (readErrors_body (errors l)) d) = length d).
  { intros m. induction m as [|m IH]; intros k d; cbn [for_loop]; [done|].
    by rewrite IH, length_readErrors_body. }
  split; [by rewrite Hlen|].
  rewrite uint8_id by lia. split; [lia|].
  unfold payload. cbn [dataOut nDataReady].
  pose proof (readErrors_loop (errors l) (Z.to_nat (nErrors l)) 0 (dataOut o)) as H.
  rewrite Z2Nat.id, Z.add_0_l in H by lia.
  replace (nErrors l * 3) with (3 * nErrors l) in * by lia.
  rewrite H by lia. simpl (take (Z.to_nat (0 * 3)) _). rewrite app_nil_l.
  rewrite <- (fmap_aread_seqZ (mkError 0 0 0)) by lia.
  rewrite Z2Nat.id by lia. by rewrite <- list_fmap_compose.
Qed.

(** The drain of an empty log. *)
Lemma cmd_readErrors_none l o :
  nErrors l = 0 -> 3 <= Z.of_nat (length (dataOut o)) ->
  (cmd_readErrors l o).1 = l
  /\ payload (cmd_readErrors l o).2 = [0x00; 0xEE; 0xFF].
Proof.
  intros Hn Hd. unfold cmd_readErrors. rewrite Hn. cbn [Z.eqb fst snd].
  split; [done|]. unfold payload. cbn [dataOut nDataReady].
  change 3 with (2 + 1) at 1.
  rewrite take_aset_snoc by (rewrite !length_aset; lia).
  change 2 with (1 + 1) at 1.
  rewrite take_aset_snoc by (rewrite !length_aset; lia).
  change 1 with (0 + 1) at 1.
  rewrite take_aset_snoc by lia. done.
Qed.

Lemma logAll_full es l : MXERR <= nErrors l -> logAll es l = l.
Proof.
  intros Hfull. induction es as [|e es IH]; [done|].
  cbn [logAll foldl]. rewrite addError_full by done. apply IH.
Qed.

(** Faults that arrive when the log is full are dropped. *)
Lemma logAll_take es garbage :
  Z.of_nat (length garbage) = MXERR ->
  logAll es (emptyLog garbage)
  = logAll (take (Z.to_nat MXERR) es) (emptyLog garbage).
Proof.
  intros Hg. rewrite <- (take_drop (Z.to_nat MXERR) es) at 1.
  unfold logAll at 1. rewrite foldl_app.
  fold (logAll (take (Z.to_nat MXERR) es) (emptyLog garbage)).
  destruct (decide (length es <= Z.to_nat MXERR)%nat) as [Hle | Hgt].
  - by rewrite drop_ge.
  - apply logAll_full.
    destruct (logAll_spec (take (Z.to_nat MXERR) es) (emptyLog garbage))
      as (_ & -> & _).
    + split; [done | unfold MXERR; simpl; lia].
    + rewrite length_take. unfold MXERR. simpl nErrors. lia.
    + rewrite length_take. unfold MXERR in *. simpl nErrors. lia.
Qed.

(** C8.  After [n > 0] faults were logged, of which the log has recorded
    the first [MXERR] at most, a first drain returns the three bytes of each
    recorded triple, in order, and sets the count to zero; a second drain
    right after it returns the three bytes 0x00 0xEE 0xFF. *)
Theorem drain_twice (es garbage : list Error) (o : OutBuf) :
  Z.of_nat (length garbage) = MXERR ->
  Z.of_nat (length (dataOut o)) = MAX_DATA_OUT ->
  (0 < length es)%nat ->
  let kept := take (Z.to_nat MXERR) es in
  let first := cmd_readErrors (logAll es (emptyLog garbage)) o in
  let second := cmd_readErrors first.1 first.2 in
  payload first.2 = mjoin (errorBytes <$> (recorded <$> kept))
  /\ length (payload first.2) = (3 * length kept)%nat
  /\ nErrors first.1 = 0
  /\ payload second.2 = [0x00; 0xEE; 0xFF]
  /\ nErrors second.1 = 0.
Proof.
  intros Hg Hd Hpos kept. cbv zeta.
  assert (Hk : (0 < length kept)%nat /\ Z.of_nat (length kept) <= MXERR).
  { unfold kept. rewrite length_take. unfold MXERR. lia. }
  rewrite logAll_take by done. fold kept.
  set (first := cmd_readErrors (logAll kept (emptyLog garbage)) o).
  set (second := cmd_readErrors first.1 first.2).
  assert (Hwf0 : logWf (emptyLog garbage)).
  { split; [done | unfold MXERR; simpl; lia]. }
  destruct (logAll_spec kept (emptyLog garbage) Hwf0) as (Hwf & Hn & Htake);
    [simpl; lia|].
  simpl (nErrors (emptyLog garbage)) in Hn, Htake.
  simpl (take (Z.to_nat 0) _) in Htake. rewrite app_nil_l in Htake.
  destruct (cmd_readErrors_some (logAll kept (emptyLog garbage)) o Hwf)
    as (H1 & H2 & H3 & H4 & H5); [lia | done |].
  fold first in H1, H2, H3, H4, H5. rewrite Htake in H5.
  destruct (cmd_readErrors_none first.1 first.2 H1) as (H6 & H7).
  { unfold MAX_DATA_OUT in H3. lia. }
  fold second in H6, H7.
  split; [done|]. split; [by rewrite H5, length_errorBytes, length_fmap|].
  split; [done|]. split; [done|]. by rewrite H6.
Qed.

Lemma drain_twice_witness :
  let es := [mkError ERR_TKR_READ_TIMEOUT 40 1; mkError ERR_CMD_IGNORE 7 0] in
  let o := mkOut (replicate 256 0x55) 0 in
  let first := cmd_readErrors (logAll es (emptyLog (replicate 64 (mkError 0 0 0)))) o in
  payload first.2 = [6; 40; 1; 5; 7; 0]
  /\ payload (cmd_readErrors first.1 first.2).2 = [0x00; 0xEE; 0xFF].
Proof.
  intros es o first.
  pose proof (drain_twice es (replicate 64 (mkError 0 0 0)) o
                eq_refl eq_refl (le_S _ _ (le_n _))) as H.
  cbv zeta in H. destruct H as (H1 & _ & _ & H4 & _).
  split; [exact H1 | exact H4].
Defined.

(** ** The vote over the three copies of a command *)

Lemma firstDiff_None n i f :
  firstDiff n i f = None <-> forall k, i <= k < i + Z.of_nat n -> f k = false.
Proof.
  revert i. induction n as [|n IH]; intros i; cbn [firstDiff].
  - split; [intros _ k ?; lia | done].
  - destruct (f i) eqn:E.
    + split; [done|]. intros H. rewrite H in E by lia. done.
    + rewrite IH. split; intros H k Hk.
      * destruct (decide (k = i)) as [-> | ?]; [done | apply H; lia].
      * apply H. lia.
Qed.

Lemma firstDiff_Some n i f k :
  firstDiff n i f = Some k -> i <= k < i + Z.of_nat n /\ f k = true.
Proof.
  revert i. induction n as [|n IH]; intros i; cbn [firstDiff]; [done|].
  destruct (f i) eqn:E.
  - intros [= <-]. split; [lia | done].
  - intros H%IH. split; [lia | apply H].
Qed.

Lemma lookup_copy (buffer : list Z) (m : nat) (k : nat) :
  (k < 9)%nat -> take 9 (drop m buffer) !! k = buffer !! (m + k)%nat.
Proof. intros. rewrite lookup_take_lt by done. by rewrite lookup_drop. Qed.

(** Two copies are equal when the bytes compared by the loop are. *)
Lemma copies_equal (buffer : list Z) (m n : nat) :
  (m + 9 <= length buffer)%nat -> (n + 9 <= length buffer)%nat ->
  take 9 (drop m buffer) = take 9 (drop n buffer)
  <-> forall k, 0 <= k < 9 ->
        aread 0 buffer (k + Z.of_nat m) = aread 0 buffer (k + Z.of_nat n).
Proof.
  intros Hm Hn. split.
  - intros H k Hk. unfold aread. rewrite !aget_lookup by lia.
    replace (Z.to_nat (k + Z.of_nat m)) with (m + Z.to_nat k)%nat by lia.
    replace (Z.to_nat (k + Z.of_nat n)) with (n + Z.to_nat k)%nat by lia.
    rewrite <- !lookup_copy by lia. by rewrite H.
  - intros H. apply list_eq. intros k.
    destruct (decide (k < 9)%nat) as [Hk | Hk].
    + rewrite !lookup_copy by done.
      specialize (H (Z.of_nat k) ltac:(lia)). unfold aread in H.
      rewrite !aget_lookup in H by lia.
      replace (Z.to_nat (Z.of_nat k + Z.of_nat m)) with (m + k)%nat in H by lia.
      replace (Z.to_nat (Z.of_nat k + Z.of_nat n)) with (n + k)%nat in H by lia.
      destruct (lookup_lt_is_Some_2 buffer (m + k)) as [x Hx]; [lia|].
      destruct (lookup_lt_is_Some_2 buffer (n + k)) as [y Hy]; [lia|].
      rewrite Hx, Hy in *. simpl in H. by subst.
    + rewrite !lookup_take_ge by lia. done.
Qed.

Lemma firstDiff_copies (buffer : list Z) (m n : Z) :
  0 <= m -> 0 <= n ->
  (Z.to_nat m + 9 <= length buffer)%nat ->
  (Z.to_nat n + 9 <= length buffer)%nat ->
  firstDiff 9 0 (fun i => negb (aread 0 buffer (i + m) =? aread 0 buffer (i + n))) = None
  <-> take 9 (drop (Z.to_nat m) buffer) = take 9 (drop (Z.to_nat n) buffer).
Proof.
  intros Hm Hn Hlm Hln. rewrite firstDiff_None, copies_equal by lia.
  rewrite !Z2Nat.id by lia.
  split; intros H k Hk.
  - specialize (H k ltac:(lia)). apply negb_false_iff, Z.eqb_eq in H. done.
  - apply negb_false_iff, Z.eqb_eq, H. lia.
Qed.

(** The loop that replaces the first copy by the second. *)
Lemma copy_loop (n : nat) (i : Z) (buf : list Z) :
  0 <= i -> i + Z.of_nat n <= 9 -> 18 <= Z.of_nat (length buf) ->
  let r := for_loop n i (fun i buf => aset buf i (aread 0 buf (i + 9))) buf in
  length r = length buf
  /\ forall k, aget r k = if decide (i <= k < i + Z.of_nat n)
                          then aget buf (k + 9) else aget buf k.
Proof.
  revert i buf. induction n as [|n IH]; intros i buf Hi Hn Hlen; cbn zeta; cbn [for_loop].
  - split; [done|]. intros k. rewrite decide_False by lia. done.
  - destruct (IH (i + 1) (aset buf i (aread 0 buf (i + 9)))) as [HL Hk];
      [lia | lia | rewrite length_aset; lia |].
    rewrite length_aset in HL. split; [done|].
    intros k. rewrite Hk. destruct (decide (i + 1 <= k < i + 1 + Z.of_nat n)).
    + rewrite decide_True by lia. apply aget_aset_ne. lia.
    + destruct (decide (k = i)) as [-> | Hne].
      * rewrite decide_True by lia. rewrite aget_aset_eq by lia.
        destruct (aget_is_Some buf (i + 9)) as [x Hx]; [lia|].
        by rewrite Hx, (aread_aget _ _ _ _ Hx).
      * rewrite decide_False by lia. by apply aget_aset_ne.
Qed.

Lemma copy_loop_copy1 (buffer : list Z) :
  27 <= Z.of_nat (length buffer) ->
  copy1 (for_loop 9 0 (fun i buf => aset buf i (aread 0 buf (i + 9))) buffer)
  = copy2 buffer.
Proof.
  intros Hlen. destruct (copy_loop 9 0 buffer) as [HL Hk]; [lia..|].
  unfold copy1, copy2. apply list_eq. intros k.
  destruct (decide (k < 9)%nat) as [Hlt | Hge].
  - rewrite lookup_take_lt by done. rewrite lookup_copy by done.
    specialize (Hk (Z.of_nat k)). rewrite decide_True in Hk by lia.
    rewrite !aget_lookup in Hk by lia.
    rewrite Nat2Z.id in Hk. rewrite Hk. f_equal. lia.
  - rewrite !lookup_take_ge by lia. done.
Qed.

Lemma firstDiff_ext n i f g :
  (forall k, f k = g k) -> firstDiff n i f = firstDiff n i g.
Proof.
  intros H. revert i. induction n as [|n IH]; intros i; cbn [firstDiff]; [done|].
  by rewrite H, IH.
Qed.

Lemma vote_test12 (buffer : list Z) :
  27 <= Z.of_nat (length buffer) ->
  firstDiff 9 0 (fun i => negb (aread 0 buffer i =? aread 0 buffer (i + 9))) = None
  <-> copy1 buffer = copy2 buffer.
Proof.
  intros Hlen.
  rewrite (firstDiff_ext _ _ _
             (fun i => negb (aread 0 buffer (i + 0) =? aread 0 buffer (i + 9))))
    by (intros k; by rewrite Z.add_0_r).
  rewrite firstDiff_copies by (simpl; lia). done.
Qed.

Lemma vote_test13 (buffer : list Z) :
  27 <= Z.of_nat (length buffer) ->
  firstDiff 9 0 (fun i => negb (aread 0 buffer i =? aread 0 buffer (i + 18))) = None
  <-> copy1 buffer = copy3 buffer.
Proof.
  intros Hlen.
  rewrite (firstDiff_ext _ _ _
             (fun i => negb (aread 0 buffer (i + 0) =? aread 0 buffer (i + 18))))
    by (intros k; by rewrite Z.add_0_r).
  rewrite firstDiff_copies by (simpl; lia). done.
Qed.

Lemma vote_test23 (buffer : list Z) :
  27 <= Z.of_nat (length buffer) ->
  firstDiff 9 0 (fun i => negb (aread 0 buffer (i + 9) =? aread 0 buffer (i + 18))) = None
  <-> copy2 buffer = copy3 buffer.
Proof. intros Hlen. rewrite firstDiff_copies by (simpl; lia). done. Qed.

Lemma vote_test123 (buffer : list Z) :
  27 <= Z.of_nat (length buffer) ->
  firstDiff 9 0 (fun i => negb (aread 0 buffer i =? aread 0 buffer (i + 9))
                          || negb (aread 0 buffer i =? aread 0 buffer (i + 18))) = None
  -> copy1 buffer = copy2 buffer /\ copy1 buffer = copy3 buffer.
Proof.
  intros Hlen H. rewrite firstDiff_None in H. split.
  - apply vote_test12; [done|]. apply firstDiff_None. intros k Hk.
    by apply H, orb_false_iff in Hk as [? _].
  - apply vote_test13; [done|]. apply firstDiff_None. intros k Hk.
    by apply H, orb_false_iff in Hk as [_ ?].
Qed.

(** C4.  A frame of three 9-byte copies is accepted exactly when at least
    two of the three copies agree (all three, or the two of one of the
    three pairwise comparisons); the first 9 bytes of the buffer then hold
    a copy that agrees with another one, and nothing is logged.  When the
    three copies are pairwise distinct the frame is refused, the buffer is
    left as it is, and one [ERR_BAD_CMD] fault is logged: with room in the
    log the count goes up by one and the new entry holds the code, the
    decoded character of the second copy at the first position where the
    second and the third copy differ, and that position. *)
Theorem vote_two_of_three (buffer : list Z) (log : ErrorLog) :
  27 <= Z.of_nat (length buffer) ->
  let bad := (voteCommand buffer log).1.1 in
  let buf' := (voteCommand buffer log).1.2 in
  let log' := (voteCommand buffer log).2 in
  (bad = false <->
     copy1 buffer = copy2 buffer \/ copy1 buffer = copy3 buffer
     \/ copy2 buffer = copy3 buffer)
  /\ (bad = false ->
      log' = log
      /\ (copy1 buffer = copy2 buffer \/ copy1 buffer = copy3 buffer ->
          copy1 buf' = copy1 buffer)
      /\ (copy2 buffer = copy3 buffer -> copy1 buf' = copy2 buffer))
  /\ (bad = true ->
      buf' = buffer
      /\ exists i, 0 <= i < 9
           /\ aread 0 buffer (i + 9) <> aread 0 buffer (i + 18)
           /\ log' = addError ERR_BAD_CMD (code (aread 0 buffer (i + 9))) i log
           /\ (logWf log -> nErrors log < MXERR ->
               nErrors log' = nErrors log + 1
               /\ aget (errors log') (nErrors log)
                  = Some (mkError ERR_BAD_CMD
                            (uint8 (code (aread 0 buffer (i + 9)))) i))).
Proof.
  intros Hlen. cbv zeta. unfold voteCommand.
  pose proof (vote_test123 buffer Hlen) as H123.
  pose proof (vote_test12 buffer Hlen) as H12.
  pose proof (vote_test13 buffer Hlen) as H13.
  pose proof (vote_test23 buffer Hlen) as H23.
  destruct (firstDiff 9 0 (fun i => _ || _)) as [i0|].
  2:{ destruct H123 as [E12 E13]; [done|]. cbn [fst snd].
      split; [split; [by left | done]|].
      split; [|done]. intros _. split; [done|].
      split; [done | intros E23; congruence]. }
  clear H123.
  destruct (firstDiff 9 0 (fun i => negb (aread 0 buffer i =? aread 0 buffer (i + 9))))
    as [i1|].
  2:{ assert (E12 : copy1 buffer = copy2 buffer) by by apply H12.
      cbn [fst snd]. split; [split; [by left | done]|].
      split; [|done]. intros _. split; [done|].
      split; [done | intros E23; congruence]. }
  assert (N12 : copy1 buffer <> copy2 buffer) by (intros E; by apply H12 in E).
  destruct (firstDiff 9 0 (fun i => negb (aread 0 buffer i =? aread 0 buffer (i + 18))))
    as [i2|].
  2:{ assert (E13 : copy1 buffer = copy3 buffer) by by apply H13.
      cbn [fst snd]. split; [split; [by (right; left) | done]|].
      split; [|done]. intros _. split; [done|].
      split; [done | intros E23; congruence]. }
  assert (N13 : copy1 buffer <> copy3 buffer) by (intros E; by apply H13 in E).
  destruct (firstDiff 9 0 (fun i => negb (aread 0 buffer (i + 9) =? aread 0 buffer (i + 18))))
    as [i3|] eqn:E3.
  - assert (N23 : copy2 buffer <> copy3 buffer) by (intros E; by apply H23 in E).
    cbn [fst snd]. split; [split; [done | intros [?|[?|?]]; done]|].
    split; [done|]. intros _. split; [done|].
    apply firstDiff_Some in E3 as (Hi & Hd). exists i3. split; [lia|].
    split.
    { apply negb_true_iff, Z.eqb_neq in Hd. exact Hd. }
    split; [done|]. intros Hwf Hroom.
    destruct (addError_room ERR_BAD_CMD (code (aread 0 buffer (i3 + 9))) i3 log
                Hwf Hroom) as (Hn & Hg & _).
    split; [exact Hn|]. rewrite Hg. rewrite (uint8_id i3) by lia. reflexivity.
  - assert (E23 : copy2 buffer = copy3 buffer) by by apply H23.
    cbn [fst snd]. split; [split; [by (right; right) | done]|].
    split; [|done]. intros _. split; [done|].
    split; [intros [?|?]; done|]. intros _. by apply copy_loop_copy1.
Qed.

Lemma vote_two_of_three_witness :
  let log := emptyLog (replicate 64 (mkError 0 0 0)) in
  let good := frame07 ++ frame0F ++ frame07 ++ [13; 10] in
  let bad := frame07 ++ frame0F ++ frame3D ++ [13; 10] in
  ((voteCommand good log).1.1 = false
   /\ copy1 (voteCommand good log).1.2 = frame07
   /\ (voteCommand good log).2 = log)
  /\ ((voteCommand bad log).1.1 = true
      /\ nErrors (voteCommand bad log).2 = 1).
Proof.
  intros log good bad.
  pose proof (vote_two_of_three good log ltac:(vm_compute; discriminate)) as H.
  pose proof (vote_two_of_three bad log ltac:(vm_compute; discriminate)) as H'.
  cbv zeta in H, H'. destruct H as (H1 & H2 & _). destruct H' as (H1' & _ & H3').
  split.
  - assert (Hb : (voteCommand good log).1.1 = false).
    { apply H1. right. left. reflexivity. }
    split; [exact Hb|].
    destruct (H2 Hb) as (Hl & H3 & _). split; [|exact Hl].
    apply H3. right. reflexivity.
  - assert (Hb : (voteCommand bad log).1.1 = true).
    { vm_compute. reflexivity. }
    split; [exact Hb|].
    destruct (H3' Hb) as (_ & i & _ & _ & _ & Hrec).
    destruct Hrec as [Hn _].
    + split; [reflexivity | simpl; unfold MXERR; lia].
    + simpl. unfold MXERR. lia.
    + exact Hn.
Defined.

(** One matching comparison out of the three is enough: with the first two
    copies equal and the third different the frame is accepted and nothing
    is logged. *)
Example vote_one_pair_suffices :
  let buffer := frame07 ++ frame07 ++ frame0F ++ [13; 10] in
  let log := emptyLog (replicate 64 (mkError 0 0 0)) in
  matchingPairs buffer = 1%nat
  /\ copy1 buffer <> copy3 buffer
  /\ (voteCommand buffer log).1.1 = false
  /\ copy1 (voteCommand buffer log).1.2 = frame07
  /\ (voteCommand buffer log).2 = log.
Proof.
  cbv zeta. split; [reflexivity|]. split; [|vm_compute; done].
  vm_compute. discriminate.
Qed.

(** ** The gate on commands while the trigger is enabled *)

Lemma dispatch_unfold other s :
  dispatch other s
  = if (command (cmd s) =? 0x3D) || (command (cmd s) =? 0x44)
       || negb (isTriggerEnabled s)
    then commandSwitch other (command (cmd s)) s
    else Ok (tt, set_log (addError ERR_CMD_IGNORE (command (cmd s)) 0 (log s)) s).
Proof.
  unfold dispatch, mbind, M_bind, gets.
  by destruct ((command (cmd s) =? 0x3D) || (command (cmd s) =? 0x44)
               || negb (isTriggerEnabled s)).
Qed.

Lemma outputStage_idle s :
  nDataReady (out s) = 0 -> (outputStage s).1 = [].
Proof.
  intros H. unfold outputStage. rewrite H. simpl.
  by destruct (cmdDone (cmd s)).
Qed.

(** C3.  The command that disables the trigger is not honored while the
    trigger is enabled.  Command 0x3B (enable or disable the trigger),
    fully received with whatever data byte while the trigger is enabled, is
    dropped by the gate: its handler does not run, the trigger stays
    enabled, and the globals change by one [ERR_CMD_IGNORE] fault with the
    code 0x3B only, which is recorded when the log has room.  With the
    trigger disabled the same command goes to its handler. *)
Theorem disable_trigger_dropped (other : Z -> M unit) (s : DAQ) :
  command (cmd s) = 0x3B ->
  (isTriggerEnabled s = true ->
   let s' := set_log (addError ERR_CMD_IGNORE 0x3B 0 (log s)) s in
   dispatch other s = Ok (tt, s')
   /\ isTriggerEnabled s' = true
   /\ (logWf (log s) -> nErrors (log s) < MXERR ->
       nErrors (log s') = nErrors (log s) + 1
       /\ aget (errors (log s')) (nErrors (log s))
          = Some (mkError ERR_CMD_IGNORE 0x3B 0)))
  /\ (isTriggerEnabled s = false -> dispatch other s = cmd3B s).
Proof.
  intros Hc. split.
  - intros Hen s'. split; [|split].
    + rewrite dispatch_unfold, Hc, Hen. reflexivity.
    + subst s'. by destruct s.
    + intros Hwf Hroom.
      destruct (addError_room ERR_CMD_IGNORE 0x3B 0 (log s) Hwf Hroom) as (H1 & H2 & _).
      split; [by destruct s | by destruct s].
  - intros Hen. rewrite dispatch_unfold, Hc, Hen. reflexivity.
Qed.

Lemma disable_trigger_dropped_witness :
  let s := withCommand 0x3B daqArmed in
  exists s',
    dispatch noOther s = Ok (tt, s')
    /\ isTriggerEnabled s' = true
    /\ nErrors (log s') = 1
    /\ aget (errors (log s')) 0 = Some (mkError ERR_CMD_IGNORE 0x3B 0).
Proof.
  intros s.
  destruct (disable_trigger_dropped noOther s eq_refl) as [H _].
  destruct (H eq_refl) as (H1 & H2 & H3).
  destruct H3 as (H4 & H5).
  - split; [reflexivity | simpl; unfold MXERR; lia].
  - simpl. unfold MXERR. lia.
  - eexists. split; [exact H1|]. split; [exact H2|]. split; [exact H4 | exact H5].
Defined.

(** The same from the wire: the three copies of "S0720 xyW" arriving while
    the trigger is enabled leave one entry (5, 7, 0) in the log and nothing
    to send. *)
Example version_ignored_while_armed :
  match commandFrame envQuiet noOther (tripled frame07) daqArmed with
  | Ok (_, s') =>
      nErrors (log s') = 1
      /\ aget (errors (log s')) 0 = Some (mkError ERR_CMD_IGNORE 0x07 0)
      /\ out s' = out daqArmed
      /\ (outputStage s').1 = []
  | _ => False
  end.
Proof. vm_compute. done. Qed.

(** Command 0x3D, the status query that the gate names, is honored while
    the trigger is enabled: no fault is logged and a response is sent. *)
Example status_query_honored_while_armed :
  isTriggerEnabled daqArmed = true
  /\ match commandFrame envQuiet noOther (tripled frame3D) daqArmed with
     | Ok (_, s') =>
         nErrors (log s') = 0
         /\ payload (out s') = [1]
         /\ (outputStage s').1
            = [0xDC; 0x00; 0xFF; 1; 0x3D; 0; 1; 0x01; 0x02; 0xFF; 0x00; 0xFF]
     | _ => False
     end.
Proof. vm_compute. done. Qed.

(** The command that disables the trigger is itself dropped while the
    trigger is enabled: after "S3B21 xyW" and its data byte 0x00 the trigger
    is still enabled and the log holds (5, 0x3B, 0). *)
Example disable_trigger_ignored_while_armed :
  match commandFrame envQuiet noOther (tripled frame3B) daqArmed with
  | Ok (_, s1) =>
      match commandFrame envQuiet noOther (tripled frame00_1) s1 with
      | Ok (_, s2) =>
          isTriggerEnabled s2 = true
          /\ nErrors (log s2) = 1
          /\ aget (errors (log s2)) 0 = Some (mkError ERR_CMD_IGNORE 0x3B 0)
      | _ => False
      end
  | _ => False
  end.
Proof. vm_compute. done. Qed.

(** ** Waiting for a byte of the tracker *)

Lemma quiet_or_over env startTime k :
  quietAt env startTime k \/ overAt env startTime k.
Proof.
  unfold quietAt, overAt.
  destruct (rxByte (poll env k)); [right; by left|].
  destruct (Z.le_gt_cases (elapsedAt env startTime k) TKR_READ_TIMEOUT);
    [left; done | right; right; lia].
Qed.

Lemma first_over env startTime n k :
  overAt env startTime (k + n) ->
  exists n0, overAt env startTime (k + n0)
             /\ forall m, (m < n0)%nat -> quietAt env startTime (k + m).
Proof.
  revert k. induction n as [|n IH]; intros k Hover.
  - exists 0%nat. split; [done | lia].
  - destruct (quiet_or_over env startTime k) as [Hq | Ho].
    + destruct (IH (S k)) as (n0 & H1 & H2).
      { by replace (S k + n)%nat with (k + S n)%nat by lia. }
      exists (S n0). split.
      * by replace (k + S n0)%nat with (S k + n0)%nat by lia.
      * intros m Hm. destruct m as [|m].
        -- by rewrite Nat.add_0_r.
        -- replace (k + S m)%nat with (S k + m)%nat by lia. apply H2. lia.
    + exists 0%nat. split; [by rewrite Nat.add_0_r | lia].
Qed.

(** While the polls are quiet the loop goes round. *)
Lemma tkr_getByte_loop_quiet env startTime flag n fuel s :
  (forall m, (m < n)%nat -> quietAt env startTime (hwk s + m)) ->
  tkr_getByte_loop env (n + fuel) startTime flag s
  = tkr_getByte_loop env fuel startTime flag (set_hwk (hwk s + n) s).
Proof.
  revert s. induction n as [|n IH]; intros s Hq.
  - rewrite Nat.add_0_r. by destruct s.
  - cbn [Nat.add tkr_getByte_loop].
    destruct (Hq 0%nat) as [Hrx Hel]; [lia|]. rewrite Nat.add_0_r in Hrx, Hel.
    rewrite Hrx. unfold elapsedAt in Hel.
    destruct (Z.gtb_spec (uint32 (uint32 (now (poll env (hwk s))) - startTime))
                TKR_READ_TIMEOUT); [lia|].
    rewrite IH.
    + cbn [hwk set_hwk]. by replace (S (hwk s) + n)%nat with (hwk s + S n)%nat by lia.
    + intros m Hm. cbn [hwk set_hwk].
      replace (S (hwk s) + m)%nat with (hwk s + S m)%nat by lia. apply Hq. lia.
Qed.

(** A byte that arrives before the time is up is returned. *)
Lemma tkr_getByte_receives env startTime flag n b fuel s :
  receives env startTime (hwk s) n b -> (n < fuel)%nat ->
  tkr_getByte env fuel startTime flag s
  = Ok (uint8 b, set_hwk (S (hwk s + n)) s).
Proof.
  intros [Hq Hb] Hfuel. unfold tkr_getByte.
  replace fuel with (n + S (fuel - S n))%nat by lia.
  rewrite tkr_getByte_loop_quiet by done.
  cbn [tkr_getByte_loop hwk set_hwk]. rewrite Hb. by destruct s.
Qed.

(** A clock reading that has gone up by [d] ticks has an elapsed time that
    differs by [d], modulo 2^32. *)
Lemma elapsedAt_later env startTime k m :
  elapsedAt env startTime m
  = (elapsedAt env startTime k + (now (poll env m) - now (poll env k))) mod 4294967296.
Proof.
  unfold elapsedAt, uint32.
  rewrite !Zminus_mod_idemp_l, Zplus_mod_idemp_l. f_equal. lia.
Qed.

(** Readings that pass a bound [B] in steps below [J] hit the window
    from [B] to [B + J]. *)
Lemma clock_hits_window env k B J :
  (forall k, now (poll env (S k)) - now (poll env k) < J) ->
  now (poll env k) < B ->
  forall n, B <= now (poll env (k + n)) ->
  exists m, B <= now (poll env (k + m)) < B + J.
Proof.
  intros Hstep H0. induction n as [|n IH]; intros Hn.
  - rewrite Nat.add_0_r in Hn. lia.
  - destruct (Z.le_gt_cases B (now (poll env (k + n)))) as [Hle | Hgt].
    + by apply IH.
    + exists (S n). split; [done|].
      specialize (Hstep (k + n)%nat).
      replace (S (k + n)) with (k + S n)%nat in Hstep by lia. lia.
Qed.

(** While the clock runs, the time is up at some later poll. *)
Lemma clockRuns_over env startTime k :
  clockRuns env -> exists n, overAt env startTime (k + n).
Proof.
  intros [Hstep Hgrow].
  pose proof (Z.mod_pos_bound (uint32 (now (poll env k)) - startTime) 4294967296
                ltac:(lia)) as He0.
  fold (uint32 (uint32 (now (poll env k)) - startTime)) in He0.
  fold (elapsedAt env startTime k) in He0.
  destruct (Z.le_gt_cases (elapsedAt env startTime k) TKR_READ_TIMEOUT) as [Hle | Hgt].
  2:{ exists 0%nat. right. by rewrite Nat.add_0_r. }
  unfold TKR_READ_TIMEOUT in *.
  set (B := now (poll env k) + (32 - elapsedAt env startTime k)).
  destruct (Hgrow k B) as [n Hn].
  destruct (clock_hits_window env k B (4294967296 - 32) Hstep ltac:(subst B; lia) n Hn)
    as [m Hm].
  exists m. right. rewrite (elapsedAt_later env startTime k (k + m)).
  unfold B in Hm.
  assert (0 <= elapsedAt env startTime k
               + (now (poll env (k + m)) - now (poll env k)) < 4294967296) by lia.
  rewrite Z.mod_small by done. unfold TKR_READ_TIMEOUT. lia.
Qed.

(** C7.  While the 5 ms clock keeps running, every call of [tkr_getByte]
    returns, whatever the start time handed in: it goes round only while no
    byte is there and the elapsed time is at most [TKR_READ_TIMEOUT], and
    it returns at the first poll where that is no longer so, which exists.
    It returns the byte when there is one; otherwise the time is up, it
    logs one [ERR_TKR_READ_TIMEOUT] fault (with the low byte of the elapsed
    time and the flag of the caller, recorded when the log has room) and
    returns 0x00.  Nothing else changes. *)
Theorem tkr_getByte_terminates env startTime flag s :
  clockRuns env ->
  exists (n : nat) (v : Z) (s' : DAQ),
    (forall fuel, (n < fuel)%nat ->
       tkr_getByte env fuel startTime flag s = Ok (v, s'))
    /\ (forall m, (m < n)%nat -> quietAt env startTime (hwk s + m))
    /\ s' = set_log (log s') (set_hwk (S (hwk s + n)) s)
    /\ match rxByte (poll env (hwk s + n)) with
       | Some b => v = uint8 b /\ log s' = log s
       | None =>
           let el := elapsedAt env startTime (hwk s + n) in
           TKR_READ_TIMEOUT < el
           /\ v = 0x00
           /\ log s' = addError ERR_TKR_READ_TIMEOUT (uint8 (Z.land el 0xff)) flag (log s)
           /\ (logWf (log s) -> nErrors (log s) < MXERR ->
               nErrors (log s') = nErrors (log s) + 1
               /\ aget (errors (log s')) (nErrors (log s))
                  = Some (mkError ERR_TKR_READ_TIMEOUT (uint8 (Z.land el 0xff))
                                  (uint8 flag)))
       end.
Proof.
  intros Hclock.
  destruct (clockRuns_over env startTime (hwk s) Hclock) as [n Hover].
  apply first_over in Hover as (n0 & Hover & Hq). clear n.
  destruct (rxByte (poll env (hwk s + n0))) as [b|] eqn:Hrx.
  - exists n0, (uint8 b), (set_hwk (S (hwk s + n0)) s). rewrite Hrx.
    split; [|split; [done|split; [by destruct s | done]]].
    intros fuel Hfuel. by apply tkr_getByte_receives.
  - destruct Hover as [? | Hup]; [done|].
    set (el := elapsedAt env startTime (hwk s + n0)) in *.
    exists n0, 0x00,
      (set_log (addError ERR_TKR_READ_TIMEOUT (uint8 (Z.land el 0xff)) flag (log s))
               (set_hwk (S (hwk s + n0)) s)).
    rewrite Hrx.
    split; [|split; [done|split; [by destruct s |]]].
    + intros fuel Hfuel. unfold tkr_getByte.
      replace fuel with (n0 + S (fuel - S n0))%nat by lia.
      rewrite tkr_getByte_loop_quiet by done.
      cbn [tkr_getByte_loop hwk set_hwk]. rewrite Hrx.
      fold (elapsedAt env startTime (hwk s + n0)). fold el.
      destruct (Z.gtb_spec el TKR_READ_TIMEOUT); [|lia].
      by destruct s.
    + cbv zeta. fold el. split; [done|]. split; [done|].
      split; [by destruct s|]. intros Hwf Hroom.
      destruct (addError_room ERR_TKR_READ_TIMEOUT (uint8 (Z.land el 0xff)) flag
                  (log s) Hwf Hroom) as (H1 & H2 & _).
      rewrite (uint8_id (uint8 (Z.land el 255))) in H2 by apply uint8_range.
      split; [by destruct s | by destruct s].
Qed.

Lemma clockRuns_envSilent : clockRuns envSilent.
Proof.
  split.
  - intros k. cbn [envSilent poll now]. lia.
  - intros k T. exists (Z.to_nat T). cbn [envSilent poll now]. lia.
Qed.

Lemma tkr_getByte_terminates_witness :
  exists (n : nat) (v : Z) (s' : DAQ),
    (forall fuel, (n < fuel)%nat ->
       tkr_getByte envSilent fuel 0 1 daqReset = Ok (v, s'))
    /\ v = 0 /\ nErrors (log s') = 1
    /\ aget (errors (log s')) 0 = Some (mkError ERR_TKR_READ_TIMEOUT 40 1).
Proof.
  destruct (tkr_getByte_terminates envSilent 0 1 daqReset clockRuns_envSilent)
    as (n & v & s' & Hret & Hq & Hs' & Hend).
  exists n, v, s'. split; [exact Hret|].
  assert (Hn : n = 4%nat).
  { pose proof (Hret (S n) ltac:(lia)) as E.
    destruct n as [|[|[|[|[|n]]]]]; [vm_compute in E; discriminate..|reflexivity|].
    destruct (Hq 4%nat ltac:(lia)) as [_ Hel]. vm_compute in Hel. by destruct Hel. }
  subst n. pose proof (Hret 5%nat ltac:(lia)) as E. vm_compute in E.
  injection E as <- <-. split; [reflexivity|]. split; reflexivity.
Defined.

(** With that hardware the call gives up at the fifth poll, 40 ticks after
    the start, and the log holds (6, 40, 1). *)
Example tkr_getByte_silent :
  match tkr_getByte envSilent 10 0 1 daqReset with
  | Ok (v, s') =>
      v = 0 /\ hwk s' = 5%nat /\ nErrors (log s') = 1
      /\ aget (errors (log s')) 0 = Some (mkError ERR_TKR_READ_TIMEOUT 40 1)
  | _ => False
  end.
Proof. vm_compute. done. Qed.

(** When no byte ever comes and the clock stands still the model never
    returns, whatever the number of polls allowed. *)
Example tkr_getByte_clock_stopped fuel :
  tkr_getByte envQuiet fuel 0 1 daqReset = Waiting.
Proof.
  unfold tkr_getByte. generalize daqReset.
  induction fuel as [|fuel IH]; intros s; [done|].
  cbn [tkr_getByte_loop]. simpl. apply IH.
Qed.

(** ** The monad *)

Arguments aget : simpl never.
Arguments aset : simpl never.
Arguments astore : simpl never.
Arguments aread : simpl never.
Arguments uint8 : simpl never.
Arguments uint16 : simpl never.
Arguments uint32 : simpl never.
Arguments addError : simpl never.

Lemma bind_Ok {A B} (m : M A) (f : A -> M B) s a s' :
  m s = Ok (a, s') -> (m ≫= f) s = f a s'.
Proof. unfold mbind, M_bind. by intros ->. Qed.

Lemma checked_Some {A} (o : option A) (a : A) s :
  o = Some a -> checked o s = Ok (a, s).
Proof. by intros ->. Qed.

Lemma astore_Some {A} (l : list A) (i : Z) (v : A) :
  0 <= i < Z.of_nat (length l) -> astore l i v = Some (aset l i v).
Proof. intros. unfold astore. by rewrite bool_decide_eq_true_2. Qed.

Lemma aset_aset {A} (l : list A) (i : Z) (v w : A) :
  aset (aset l i v) i w = aset l i w.
Proof.
  unfold aset. case_bool_decide; [|done]. apply list_insert_insert_eq.
Qed.

(** ** Default hit lists *)

Ltac munfold :=
  unfold mbind, M_bind, mret, M_ret, ret, gets, modify, checked, when,
    setTkrData, setTkr, setOut, setCmd, setTrg, logError.

Ltac proj :=
  cbn [hwk hwm log out tofA tofB outputTOF tkrData tkr trg cmd
       set_hwk set_hwm set_log set_out set_tofA set_tofB set_outputTOF
       set_tkrData set_tkr set_trg set_cmd
       triggerCount cmdCount trgPattern nTkrBoards boardHits nBytes hitList
       dataOut nDataReady fst snd].

Lemma getBoard_Ok brd b s :
  aget (boardHits (tkrData s)) brd = Some b -> getBoard brd s = Ok (b, s).
Proof. intros H. unfold getBoard. munfold. by rewrite H. Qed.

(** The globals with entry [brd] of the board array replaced. *)
Lemma setBoard_Ok brd b s :
  0 <= brd < Z.of_nat (length (boardHits (tkrData s))) ->
  setBoard brd b s
  = Ok (tt, set_tkrData (mkTkrData (triggerCount (tkrData s)) (cmdCount (tkrData s))
                           (trgPattern (tkrData s)) (nTkrBoards (tkrData s))
                           (aset (boardHits (tkrData s)) brd b)) s).
Proof. intros H. unfold setBoard. munfold. by rewrite astore_Some. Qed.

Lemma setBoardNBytes_Ok brd n b s :
  aget (boardHits (tkrData s)) brd = Some b ->
  setBoardNBytes brd n s
  = Ok (tt, set_tkrData (mkTkrData (triggerCount (tkrData s)) (cmdCount (tkrData s))
                           (trgPattern (tkrData s)) (nTkrBoards (tkrData s))
                           (aset (boardHits (tkrData s)) brd
                                 (mkBoard (uint8 n) (hitList b)))) s).
Proof.
  intros Hb. unfold setBoardNBytes.
  rewrite (bind_Ok _ _ _ _ _ (getBoard_Ok _ _ _ Hb)).
  apply setBoard_Ok. by apply aget_Some_lt in Hb.
Qed.

Lemma setBoardHitList_Ok brd p b s :
  aget (boardHits (tkrData s)) brd = Some b ->
  setBoardHitList brd p s
  = Ok (tt, set_tkrData (mkTkrData (triggerCount (tkrData s)) (cmdCount (tkrData s))
                           (trgPattern (tkrData s)) (nTkrBoards (tkrData s))
                           (aset (boardHits (tkrData s)) brd
                                 (mkBoard (nBytes b) p))) s).
Proof.
  intros Hb. unfold setBoardHitList.
  rewrite (bind_Ok _ _ _ _ _ (getBoard_Ok _ _ _ Hb)).
  apply setBoard_Ok. by apply aget_Some_lt in Hb.
Qed.

Lemma storeHit_Ok brd i v n buf s :
  aget (boardHits (tkrData s)) brd = Some (mkBoard n (Some buf)) ->
  0 <= i < Z.of_nat (length buf) ->
  storeHit brd i v s
  = Ok (tt, set_tkrData (mkTkrData (triggerCount (tkrData s)) (cmdCount (tkrData s))
                           (trgPattern (tkrData s)) (nTkrBoards (tkrData s))
                           (aset (boardHits (tkrData s)) brd
                                 (mkBoard n (Some (aset buf i (uint8 v)))))) s).
Proof.
  intros Hb Hi. unfold storeHit.
  rewrite (bind_Ok _ _ _ _ _ (getBoard_Ok _ _ _ Hb)). 
  unfold mbind at 1, M_bind at 1, checked at 1. cbn [hitList].
  unfold mbind at 1, M_bind at 1, checked at 1.
  rewrite astore_Some by done. cbn [nBytes].
  apply aget_Some_lt in Hb. by rewrite setBoard_Ok.
Qed.

Lemma defaultHit_Ok env tag brd s :
  0 <= brd < Z.of_nat (length (boardHits (tkrData s))) ->
  mallocOK env (hwm s) = true ->
  defaultHit env tag brd s
  = Ok (tt, set_hwm (S (hwm s))
              (set_tkrData
                 (mkTkrData (triggerCount (tkrData s)) (cmdCount (tkrData s))
                    (trgPattern (tkrData s)) (nTkrBoards (tkrData s))
                    (aset (boardHits (tkrData s)) brd
                          (mkBoard 5 (Some (placeholder (uint8 brd) (uint8 tag)))))) s)).
Proof.
  intros Hbrd Hm. destruct (aget_is_Some _ _ Hbrd) as [b Hb].
  unfold defaultHit.
  rewrite (bind_Ok _ _ _ _ _ (setBoardNBytes_Ok _ _ _ _ Hb)).
  unfold malloc at 1. unfold mbind at 1, M_bind at 1. proj. rewrite Hm.
  erewrite bind_Ok; [|apply setBoardHitList_Ok; proj; by apply aget_aset_eq].
  proj. rewrite aset_aset. rewrite bool_decide_eq_true_2 by done. unfold when.
  do 4 (erewrite bind_Ok;
          [|apply storeHit_Ok; proj; [by apply aget_aset_eq | simpl; lia]];
        proj; rewrite aset_aset).
  erewrite storeHit_Ok; proj; [|by apply aget_aset_eq | simpl; lia].
  rewrite aset_aset. reflexivity.
Qed.

Lemma length_defaultBoards tag n i bh :
  length (defaultBoards tag n i bh) = length bh.
Proof.
  unfold defaultBoards. revert i bh.
  induction n as [|n IH]; intros i bh; cbn [for_loop]; [done|].
  by rewrite IH, length_aset.
Qed.

Lemma aget_defaultBoards tag n i bh brd :
  0 <= i -> i + Z.of_nat n <= Z.of_nat (length bh) ->
  aget (defaultBoards tag n i bh) brd
  = if decide (i <= brd < i + Z.of_nat n)
    then Some (mkBoard 5 (Some (placeholder (uint8 brd) tag)))
    else aget bh brd.
Proof.
  unfold defaultBoards. revert i bh.
  induction n as [|n IH]; intros i bh Hi Hn; cbn [for_loop].
  - rewrite decide_False by lia. done.
  - rewrite IH by (rewrite ?length_aset; lia).
    destruct (decide (i + 1 <= brd < i + 1 + Z.of_nat n)).
    + rewrite decide_True by lia. done.
    + destruct (decide (brd = i)) as [-> | Hne].
      * rewrite decide_True by lia. apply aget_aset_eq. lia.
      * rewrite decide_False by lia. by apply aget_aset_ne.
Qed.

(** The loop that makes default hit lists for boards [i .. i+n). *)
Lemma defaultHits_loop env tag n i s :
  0 <= i -> i + Z.of_nat n <= Z.of_nat (length (boardHits (tkrData s))) ->
  (forall m, mallocOK env m = true) ->
  forM n i (defaultHit env tag) s
  = Ok (tt, set_hwm (hwm s + n)
              (set_tkrData
                 (mkTkrData (triggerCount (tkrData s)) (cmdCount (tkrData s))
                    (trgPattern (tkrData s)) (nTkrBoards (tkrData s))
                    (defaultBoards (uint8 tag) n i (boardHits (tkrData s)))) s)).
Proof.
  intros Hi Hn Hm. revert i s Hi Hn.
  induction n as [|n IH]; intros i s Hi Hn; cbn [forM].
  - unfold defaultBoards. cbn [for_loop]. rewrite Nat.add_0_r.
    by destruct s as [? ? ? ? ? ? ? [] ? ? ?].
  - rewrite (bind_Ok _ _ _ _ _ (defaultHit_Ok env tag i s ltac:(lia) (Hm _))).
    rewrite IH by (proj; rewrite ?length_aset; lia).
    proj. unfold defaultBoards. cbn [for_loop].
    by replace (S (hwm s) + n)%nat with (hwm s + S n)%nat by lia.
Qed.
Lemma time_Ok env s :
  time env s = Ok (uint32 (now (poll env (hwk s))), set_hwk (S (hwk s)) s).
Proof. reflexivity. Qed.

Lemma logError_Ok code v1 v2 s :
  logError code v1 v2 s = Ok (tt, set_log (addError code v1 v2 (log s)) s).
Proof. reflexivity. Qed.

(** X19.  [getTrackerData] is called for event data, the length byte [len]
    and the identifier byte 0xD3 arrive (each after any number of quiet
    polls), [len] is not 5, the log has room, every [malloc] succeeds and the
    configured number of boards fits the board array.  Then the call
    returns 55; the log grows by the one entry ([ERR_TKR_BAD_LENGTH], 0xD3,
    [len]); the tracker event has zero counts and pattern, as many boards as
    are configured, and for each of them the 5-byte hit list
    0xE7, board, 0, 0x02, 0x30; and no poll is spent after the identifier
    byte, so nothing more of the packet is read. *)
Theorem bad_length_placeholder env fuel s len n1 n2 :
  let startTime := uint32 (now (poll env (hwk s))) in
  receives env startTime (S (hwk s)) n1 len ->
  receives env startTime (S (S (hwk s) + n1)) n2 TKR_EVT_DATA ->
  (n1 < fuel)%nat -> (n2 < fuel)%nat ->
  0 <= len < 256 -> len <> 5 ->
  logWf (log s) -> nErrors (log s) < MXERR ->
  (forall m, mallocOK env m = true) ->
  0 <= numTkrBrds (tkr s) <= MAX_TKR_BOARDS ->
  Z.of_nat (length (boardHits (tkrData s))) = MAX_TKR_BOARDS ->
  exists s',
    getTrackerData env fuel TKR_EVT_DATA s = Ok (55, s')
    /\ log s' = addError ERR_TKR_BAD_LENGTH TKR_EVT_DATA len (log s)
    /\ nErrors (log s') = nErrors (log s) + 1
    /\ aget (errors (log s')) (nErrors (log s))
       = Some (mkError ERR_TKR_BAD_LENGTH TKR_EVT_DATA len)
    /\ triggerCount (tkrData s') = 0
    /\ cmdCount (tkrData s') = 0
    /\ trgPattern (tkrData s') = 0
    /\ nTkrBoards (tkrData s') = numTkrBrds (tkr s)
    /\ (forall brd, 0 <= brd < numTkrBrds (tkr s) ->
          aget (boardHits (tkrData s')) brd
          = Some (mkBoard 5 (Some (placeholder brd 0x02))))
    /\ (forall brd, numTkrBrds (tkr s) <= brd ->
          aget (boardHits (tkrData s')) brd = aget (boardHits (tkrData s)) brd)
    /\ hwk s' = S (S (S (hwk s) + n1) + n2)
    /\ out s' = out s /\ tkr s' = tkr s.
Proof.
  intros startTime R1 R2 Hf1 Hf2 Hlen Hne Hwf Hroom Hm Hnb Hbh.
  unfold getTrackerData.
  rewrite (bind_Ok _ _ _ _ _ (time_Ok env s)). fold startTime.
  erewrite bind_Ok; [|by apply (tkr_getByte_receives env startTime 1 n1 len)].
  erewrite bind_Ok;
    [|apply (tkr_getByte_receives env startTime 2 n2 TKR_EVT_DATA); [proj; done | done]].
  rewrite (uint8_id len) by done.
  change (uint8 TKR_EVT_DATA) with TKR_EVT_DATA.
  change (negb (TKR_EVT_DATA =? TKR_EVT_DATA)) with false. cbn iota.
  unfold mbind at 1, M_bind at 1, ret at 1, mret at 1, M_ret at 1.
  cbn iota. change (TKR_EVT_DATA =? TKR_EVT_DATA) with true. cbn iota.
  destruct (Z.eqb_spec len 5) as [|_]; [done|]. cbn [negb].
  rewrite (bind_Ok _ _ _ _ _ (logError_Ok _ _ _ _)). proj.
  unfold defaultEvent.
  unfold mbind at 2, M_bind at 2, gets at 1. proj.
  unfold mbind at 2, M_bind at 2, setTkrData at 1, modify at 1. proj.
  unfold defaultHits.
  erewrite bind_Ok;
    [|apply defaultHits_loop; [lia | proj; unfold MAX_TKR_BOARDS in *; lia | done]].
  proj. change (uint8 2) with 2.
  eexists. split; [reflexivity|]. proj.
  destruct (addError_room ERR_TKR_BAD_LENGTH TKR_EVT_DATA len (log s) Hwf Hroom)
    as (Hn & Hg & _).
  change (uint8 ERR_TKR_BAD_LENGTH) with ERR_TKR_BAD_LENGTH in Hg.
  change (uint8 TKR_EVT_DATA) with TKR_EVT_DATA in Hg.
  rewrite (uint8_id len) in Hg by done.
  split; [done|]. split; [done|]. split; [done|].
  split; [done|]. split; [done|]. split; [done|].
  split; [done|].
  split; [|split; [|split; [lia | by split]]].
  - intros brd Hbrd.
    rewrite aget_defaultBoards by (unfold MAX_TKR_BOARDS in *; lia).
    rewrite decide_True by lia.
    rewrite uint8_id by (unfold MAX_TKR_BOARDS in *; lia). done.
  - intros brd Hbrd.
    rewrite aget_defaultBoards by (unfold MAX_TKR_BOARDS in *; lia).
    rewrite decide_False by lia. done.
Qed.

Lemma bad_length_placeholder_witness :
  exists s',
    getTrackerData (envPacket 9 TKR_EVT_DATA) 1 TKR_EVT_DATA daqReset = Ok (55, s')
    /\ nErrors (log s') = 1
    /\ aget (errors (log s')) 0 = Some (mkError ERR_TKR_BAD_LENGTH TKR_EVT_DATA 9)
    /\ nTkrBoards (tkrData s') = 1
    /\ aget (boardHits (tkrData s')) 0
       = Some (mkBoard 5 (Some [0xE7; 0; 0; 0x02; 0x30])).
Proof.
  destruct (bad_length_placeholder (envPacket 9 TKR_EVT_DATA) 1 daqReset 9 0 0)
    as (s' & H1 & _ & H3 & H4 & _ & _ & _ & H8 & H9 & _).
  - split; [intros m Hm; lia | reflexivity].
  - split; [intros m Hm; lia | reflexivity].
  - lia.
  - lia.
  - lia.
  - lia.
  - split; [reflexivity | simpl; unfold MXERR; lia].
  - simpl. unfold MXERR. lia.
  - reflexivity.
  - simpl. unfold MAX_TKR_BOARDS. lia.
  - reflexivity.
  - exists s'. split; [exact H1|]. split; [exact H3|]. split; [exact H4|].
    split; [exact H8|]. apply (H9 0). simpl. lia.
Defined.

(** With the same length byte and the identifier of a housekeeping packet
    the call logs [ERR_TRK_WRONG_DATA_TYPE] instead and returns 54. *)
Example wrong_identifier_placeholder :
  match getTrackerData (envPacket 9 TKR_HOUSE_DATA) 1 TKR_EVT_DATA daqReset with
  | Ok (rc, s') =>
      rc = 54
      /\ nErrors (log s') = 1
      /\ aget (errors (log s')) 0
         = Some (mkError ERR_TRK_WRONG_DATA_TYPE TKR_HOUSE_DATA TKR_EVT_DATA)
      /\ aget (boardHits (tkrData s')) 0
         = Some (mkBoard 5 (Some [0xE7; 0; 0; 0x01; 0x30]))
  | _ => False
  end.
Proof. vm_compute. done. Qed.

(** ** More boards configured than the board array holds *)

Lemma bind_Undefined {A B} (m : M A) (f : A -> M B) s :
  m s = Undefined -> (m ≫= f) s = Undefined.
Proof. unfold mbind, M_bind. by intros ->. Qed.

Lemma forM_add a b i (body : Z -> M unit) s :
  forM (a + b) i body s = (forM a i body;; forM b (i + Z.of_nat a) body) s.
Proof.
  revert i s. induction a as [|a IH]; intros i s.
  - cbn [Nat.add forM]. by rewrite Z.add_0_r.
  - cbn [Nat.add forM]. unfold mbind, M_bind in *.
    destruct (body i s) as [[[] s1]| |]; [|done|done].
    rewrite IH. by replace (i + 1 + Z.of_nat a) with (i + Z.of_nat (S a)) by lia.
Qed.

(** C6.  With more than [MAX_TKR_BOARDS] boards configured the placeholder
    cannot be made: called for event data with a length byte other than 5
    and the identifier 0xD3, [getTrackerData] logs the fault, makes the
    default hit lists of boards 0 to 7 and then accesses [boardHits[8]],
    outside the array of [MAX_TKR_BOARDS] entries. *)
Theorem bad_length_too_many_boards env fuel s len n1 n2 :
  let startTime := uint32 (now (poll env (hwk s))) in
  receives env startTime (S (hwk s)) n1 len ->
  receives env startTime (S (S (hwk s) + n1)) n2 TKR_EVT_DATA ->
  (n1 < fuel)%nat -> (n2 < fuel)%nat ->
  0 <= len < 256 -> len <> 5 ->
  (forall m, mallocOK env m = true) ->
  MAX_TKR_BOARDS < numTkrBrds (tkr s) ->
  Z.of_nat (length (boardHits (tkrData s))) = MAX_TKR_BOARDS ->
  getTrackerData env fuel TKR_EVT_DATA s = Undefined.
Proof.
  intros startTime R1 R2 Hf1 Hf2 Hlen Hne Hm Hnb Hbh.
  unfold MAX_TKR_BOARDS in *.
  unfold getTrackerData.
  rewrite (bind_Ok _ _ _ _ _ (time_Ok env s)). fold startTime.
  erewrite bind_Ok; [|by apply (tkr_getByte_receives env startTime 1 n1 len)].
  erewrite bind_Ok;
    [|apply (tkr_getByte_receives env startTime 2 n2 TKR_EVT_DATA); [proj; done | done]].
  rewrite (uint8_id len) by done.
  change (uint8 TKR_EVT_DATA) with TKR_EVT_DATA.
  change (negb (TKR_EVT_DATA =? TKR_EVT_DATA)) with false. cbn iota.
  unfold mbind at 1, M_bind at 1, ret at 1, mret at 1, M_ret at 1.
  cbn iota. change (TKR_EVT_DATA =? TKR_EVT_DATA) with true. cbn iota.
  destruct (Z.eqb_spec len 5) as [|_]; [done|]. cbn [negb].
  rewrite (bind_Ok _ _ _ _ _ (logError_Ok _ _ _ _)). proj.
  apply bind_Undefined.
  unfold defaultEvent.
  unfold mbind at 1, M_bind at 1, gets at 1. proj.
  unfold mbind at 1, M_bind at 1, setTkrData at 1, modify at 1. proj.
  unfold defaultHits.
  replace (Z.to_nat (numTkrBrds (tkr s)))
    with (8 + S (Z.to_nat (numTkrBrds (tkr s)) - 9))%nat by lia.
  rewrite forM_add.
  erewrite bind_Ok; [|apply defaultHits_loop; [lia | proj; lia | done]].
  cbn [forM]. apply bind_Undefined.
  unfold defaultHit. apply bind_Undefined.
  unfold setBoardNBytes. apply bind_Undefined.
  unfold getBoard. munfold. proj.
  rewrite aget_ge; [done|].
  rewrite length_defaultBoards. cbn [Z.of_nat Z.add]. lia.
Qed.

Lemma bad_length_too_many_boards_witness :
  numTkrBrds (tkr daqNineBoards) = 9
  /\ getTrackerData (envPacket 9 TKR_EVT_DATA) 1 TKR_EVT_DATA daqNineBoards = Undefined.
Proof.
  split; [reflexivity|].
  apply (bad_length_too_many_boards (envPacket 9 TKR_EVT_DATA) 1 daqNineBoards 9 0 0).
  - split; [intros m Hm; lia | reflexivity].
  - split; [intros m Hm; lia | reflexivity].
  - lia.
  - lia.
  - lia.
  - lia.
  - reflexivity.
  - simpl. unfold MAX_TKR_BOARDS. lia.
  - reflexivity.
Defined.

(** ** Rules for [total] *)

Lemma total_bind {A B} P (m : M A) Q (f : A -> M B) R :
  total P m Q -> (forall a, total (Q a) (f a) R) -> total P (m ≫= f) R.
Proof.
  intros Hm Hf s HP. destruct (Hm s HP) as (a & s1 & E1 & HQ).
  destruct (Hf a s1 HQ) as (b & s2 & E2 & HR).
  exists b, s2. split; [|done]. by rewrite (bind_Ok _ _ _ _ _ E1).
Qed.

Lemma total_weaken {A} (P P' : DAQ -> Prop) (m : M A) (Q Q' : A -> DAQ -> Prop) :
  total P' m Q' -> (forall s, P s -> P' s) -> (forall a s, Q' a s -> Q a s) ->
  total P m Q.
Proof.
  intros Hm HP HQ s Hs. destruct (Hm s (HP s Hs)) as (a & s' & E & H).
  exists a, s'. auto.
Qed.

Lemma total_assume {A} (phi : Prop) (P : DAQ -> Prop) (m : M A) Q :
  (phi -> total P m Q) -> total (fun s => phi /\ P s) m Q.
Proof. intros H s [Hphi Hs]. by apply H. Qed.

Lemma total_ret {A} (P : DAQ -> Prop) (a : A) (Q : A -> DAQ -> Prop) :
  (forall s, P s -> Q a s) -> total P (ret a) Q.
Proof. intros H s Hs. exists a, s. auto. Qed.

Lemma total_gets {A} (P : DAQ -> Prop) (f : DAQ -> A) (Q : A -> DAQ -> Prop) :
  (forall s, P s -> Q (f s) s) -> total P (gets f) Q.
Proof. intros H s Hs. exists (f s), s. auto. Qed.

Lemma total_modify (P : DAQ -> Prop) (f : DAQ -> DAQ) (Q : unit -> DAQ -> Prop) :
  (forall s, P s -> Q tt (f s)) -> total P (modify f) Q.
Proof. intros H s Hs. exists tt, (f s). auto. Qed.

Lemma total_checked {A} (P : DAQ -> Prop) (o : option A) (Q : A -> DAQ -> Prop) :
  (forall s, P s -> exists a, o = Some a /\ Q a s) -> total P (checked o) Q.
Proof.
  intros H s Hs. destruct (H s Hs) as (a & -> & HQ). exists a, s. auto.
Qed.

Lemma total_forM (I : DAQ -> Prop) n lo (body : Z -> M unit) :
  (forall i, lo <= i < lo + Z.of_nat n -> total I (body i) (fun _ => I)) ->
  total I (forM n lo body) (fun _ => I).
Proof.
  revert lo. induction n as [|n IH]; intros lo Hbody; cbn [forM].
  - by apply total_ret.
  - eapply total_bind; [apply Hbody; lia|]. intros []. apply IH.
    intros i Hi. apply Hbody. lia.
Qed.

(** ** The event builder stays inside the output buffer *)

Lemma setDataOut_total (I : DAQ -> Prop) i v :
  (forall s, I s -> 0 <= i < Z.of_nat (length (dataOut (out s)))) ->
  (forall s d, I s -> length d = length (dataOut (out s)) ->
               I (set_out (mkOut d (nDataReady (out s))) s)) ->
  total I (setDataOut i v) (fun _ => I).
Proof.
  intros Hi Hpres s Hs. unfold setDataOut. munfold.
  rewrite astore_Some by (by apply Hi).
  eexists _, _. split; [reflexivity|]. proj.
  apply Hpres; [done | apply length_aset].
Qed.

Lemma bufOk_set_out s o :
  bufOk s -> length (dataOut o) = length (dataOut (out s)) -> bufOk (set_out o s).
Proof. unfold bufOk. proj. intros [H1 H2] ->. done. Qed.

Lemma evInv_set_out s o :
  bufOk s -> length (dataOut o) = length (dataOut (out s)) ->
  0 <= nDataReady o < MAX_DATA_OUT -> evInv (set_out o s).
Proof. intros H1 H2 H3. split; [by apply bufOk_set_out | done]. Qed.

(** [dataOut[nDataReady++] = v] stores inside the buffer and leaves the
    running length an index into it; the tracker event is not touched. *)
Lemma putOut_total d v :
  total (fun s => evInv s /\ tkrData s = d) (putOut v)
        (fun _ s => evInv s /\ tkrData s = d).
Proof.
  intros s [[Hb Hn] Hd]. unfold putOut, setNDataReady. munfold. unfold setDataOut. munfold.
  pose proof Hb as [HL _].
  rewrite astore_Some by lia.
  eexists _, _. split; [reflexivity|]. proj. split; [|done].
  apply evInv_set_out;
    [apply bufOk_set_out; [done | apply length_aset] | proj; done |].
  proj. pose proof (uint8_range (nDataReady (out s) + 1)). unfold MAX_DATA_OUT. lia.
Qed.

Lemma storeFrom_total vs i :
  0 <= i -> i + Z.of_nat (length vs) <= MAX_DATA_OUT ->
  total bufOk (storeFrom i vs) (fun _ => bufOk).
Proof.
  revert i. induction vs as [|v vs IH]; intros i Hi Hlen; cbn [storeFrom].
  - by apply total_ret.
  - cbn [length] in Hlen. eapply total_bind.
    + apply setDataOut_total.
      * intros s [HL _]. lia.
      * intros s d Hs Hd. by apply bufOk_set_out.
    + intros []. apply IH; lia.
Qed.

Lemma tkrDataOk_board d brd b :
  tkrDataOk d -> aget (boardHits d) brd = Some b -> boardOk b.
Proof.
  intros (_ & _ & HF) Hb. rewrite Forall_forall in HF. apply HF.
  unfold aget in Hb. case_bool_decide; [|done].
  by apply list_elem_of_lookup_2 in Hb.
Qed.

Lemma tkrDataOk_aset d brd b :
  tkrDataOk d -> boardOk b ->
  tkrDataOk (mkTkrData (triggerCount d) (cmdCount d) (trgPattern d) (nTkrBoards d)
                       (aset (boardHits d) brd b)).
Proof.
  intros (H1 & H2 & H3) Hb. unfold tkrDataOk. proj.
  rewrite length_aset. split; [done|]. split; [done|].
  unfold aset. case_bool_decide; [|done]. by apply Forall_insert.
Qed.

Lemma putBoard_total brd :
  0 <= brd < MAX_TKR_BOARDS -> total evInv (putBoard brd) (fun _ => evInv).
Proof.
  intros Hbrd s0 Hs0. pose proof Hs0 as [[_ Hd0] _].
  pose proof Hd0 as (HbL & _ & _).
  destruct (aget_is_Some (boardHits (tkrData s0)) brd) as [b Hb]; [lia|].
  pose proof (tkrDataOk_board _ _ _ Hd0 Hb) as [Hb0 Hbl].
  set (J := fun s => evInv s /\ tkrData s = tkrData s0).
  assert (Hput : forall v, total J (putOut v) (fun _ => J))
    by (intros v; apply putOut_total).
  assert (H : total J (putBoard brd) (fun _ => evInv));
    [|exact (H s0 (conj Hs0 eq_refl))].
  unfold putBoard.
  apply (total_bind _ _ (fun b' s => b' = b /\ J s)).
  { intros s [Hs Hd]. rewrite getBoard_Ok with (b := b) by (by rewrite Hd).
    eexists _, _. split; [reflexivity|]. done. }
  intros b'. apply total_assume. intros ->.
  apply (total_bind _ _ (fun _ => J)); [by apply total_gets|].
  intros n.
  destruct (n >? int (MAX_DATA_OUT - int (5 + nBytes b))).
  { apply (total_bind _ _ (fun _ => J)); [by apply total_gets|]. intros d6.
    apply (total_bind _ _ (fun _ => J)); [by apply total_gets|]. intros d10.
    apply (total_bind _ _ (fun _ => evInv)); [|intros []; by apply total_ret].
    apply total_modify. by intros s [Hs _]. }
  apply (total_bind _ _ (fun _ => J)); [apply Hput|]. intros [].
  apply (total_bind _ _ (fun _ => evInv)); [|intros []; by apply total_ret].
  destruct (hitList b) as [l|] eqn:Hl.
  - apply (total_bind _ _ (fun _ => J)); [apply Hput|]. intros [].
    apply (total_bind _ _ (fun _ => J)).
    + apply total_forM. intros i Hi.
      apply (total_bind _ _ (fun _ => J)); [|intros v; apply Hput].
      apply total_checked. intros s Hs.
      destruct (aget_is_Some l i) as [v Hv]; [lia|]. by exists v.
    + intros []. intros s [[[HL Hd] Hn] Hdd].
      rewrite (setBoardNBytes_Ok brd 0 b) by (by rewrite Hdd).
      eexists _, _. split; [reflexivity|].
      split; [|done]. split; [done|]. proj.
      apply tkrDataOk_aset; [done|]. split; [done|]. proj.
      rewrite Hl. change (uint8 0) with 0. lia.
  - do 5 (apply (total_bind _ _ (fun _ => J)); [apply Hput|]; intros []).
    eapply total_weaken; [apply Hput | done | by intros [] s [Hs _]].
Qed.

Lemma putBoards_total n brd :
  0 <= brd -> brd + Z.of_nat n <= MAX_TKR_BOARDS ->
  total evInv (putBoards n brd) (fun _ => evInv).
Proof.
  revert brd. induction n as [|n IH]; intros brd Hb Hn; cbn [putBoards].
  - by apply total_ret.
  - apply (total_bind _ _ (fun _ => evInv)); [apply putBoard_total; lia|].
    intros [|]; [apply IH; lia | by apply total_ret].
Qed.

Lemma putOut_evInv v : total evInv (putOut v) (fun _ => evInv).
Proof.
  intros s Hs. destruct (putOut_total (tkrData s) v s (conj Hs eq_refl))
    as (a & s' & E & Hs' & _).
  by exists a, s'.
Qed.

Lemma length_eventHeader e idx c s : length (eventHeader e idx c s) = 52%nat.
Proof. reflexivity. Qed.

(** Started with an output buffer of [MAX_DATA_OUT] bytes and a well formed
    tracker event (at most [MAX_TKR_BOARDS] boards, each hit list at least
    as long as its byte count), the event builder returns, and no store
    is outside [dataOut]: the index [nDataReady] is a [uint8]. *)
Lemma buildEvent_in_bounds (e : EventIn) (idx : list Z) (c : Corr) (s : DAQ) :
  bufOk s ->
  exists s',
    buildEvent e idx c s = Ok (tt, s')
    /\ Z.of_nat (length (dataOut (out s'))) = MAX_DATA_OUT
    /\ 0 <= nDataReady (out s') < MAX_DATA_OUT.
Proof.
  intros Hs.
  assert (H : total bufOk (buildEvent e idx c) (fun _ => evInv)).
  { unfold buildEvent.
    apply (total_bind _ _ (fun h s => length h = 52%nat /\ bufOk s)).
    { apply total_gets. intros s0 Hs0. split; [apply length_eventHeader | done]. }
    intros h. apply total_assume. intros Hh.
    apply (total_bind _ _ (fun _ => bufOk)).
    { apply storeFrom_total; [lia | rewrite Hh; unfold MAX_DATA_OUT; lia]. }
    intros [].
    apply (total_bind _ _ (fun _ => evInv)).
    { unfold setNDataReady. apply total_modify. intros s0 Hs0.
      apply evInv_set_out; [done | done |]. proj.
      change (uint8 52) with 52. unfold MAX_DATA_OUT. lia. }
    intros [].
    apply (total_bind _ _ (fun nb s => 0 <= nb <= MAX_TKR_BOARDS /\ evInv s)).
    { apply total_gets. intros s0 Hs0. split; [|done].
      destruct Hs0 as [[_ (_ & ? & _)] _]. done. }
    intros nb. apply total_assume. intros Hnb.
    apply (total_bind _ _ (fun _ => evInv)); [apply putBoards_total; lia|].
    intros [].
    do 4 (apply (total_bind _ _ (fun _ => evInv)); [apply putOut_evInv|]; intros []).
    apply (total_bind _ _ (fun _ => evInv)).
    { apply total_modify. by intros s0 Hs0. }
    intros [].
    apply (total_bind _ _ (fun _ => evInv)).
    { apply total_modify. by intros s0 Hs0. }
    intros [].
    apply total_modify. intros s0 [[HL (H1 & H2 & H3)] Hn].
    split; [|done]. split; [done|]. split; [done|].
    split; [proj; unfold MAX_TKR_BOARDS; lia | done]. }
  destruct (H s Hs) as ([] & s' & E & [[HL _] Hn]).
  exists s'. done.
Qed.

Lemma bufOk_daqBoard199 : bufOk daqBoard199.
Proof.
  split; [reflexivity|]. split; [reflexivity|].
  split; [unfold MAX_TKR_BOARDS; simpl; lia|].
  repeat constructor; simpl; lia.
Qed.

(** C9.  The size check of the loop over the boards lets an event through
    that does not fit the output buffer.  For one board with a hit list of
    199 bytes (the tracker event is well formed: one board of at most
    [MAX_TKR_BOARD_BYTES] bytes) the check [nDataReady > MAX_DATA_OUT -
    (5 + nBytes)] is 52 > 52 and does not fire, no fault is logged, and the
    event has 52 + 2 + 199 + 4 = 257 bytes: the running length passes
    [MAX_DATA_OUT], wraps as the [uint8] that it is, the last byte of the
    trailer is stored over the first byte of the header in [dataOut[0]],
    and [nDataReady] ends as 1. *)
Theorem buildEvent_wraps :
  bufOk daqBoard199
  /\ nTkrBoards (tkrData daqBoard199) = 1
  /\ nBytes (aread (mkBoard 0 None) (boardHits (tkrData daqBoard199)) 0)
     <= MAX_TKR_BOARD_BYTES
  /\ match buildEvent eventIn0 [] corrInit daqBoard199 with
     | Ok (_, s') =>
         nDataReady (out s') = 1
         /\ aget (dataOut (out s')) 0 = Some 0x49
         /\ take 3 (drop 253 (dataOut (out s'))) = [0x46; 0x49; 0x4E]
         /\ nErrors (log s') = 0
     | _ => False
     end.
Proof.
  split; [exact bufOk_daqBoard199|]. split; [reflexivity|].
  split; [vm_compute; discriminate|]. vm_compute. done.
Qed.

(** ** Command 0x35 *)

Lemma recentIdx_inside p :
  1 <= p < TOFMAX_EVT -> recentIdx p = p - 1.
Proof.
  unfold recentIdx, TOFMAX_EVT. intros Hp.
  rewrite uint8_id by lia. destruct (Z.ltb_spec (p - 1) 0); [lia | done].
Qed.

(** The test [idx < 0] is on a [uint8] and never holds. *)
Lemma recentIdx_no_wrap p : recentIdx p = uint8 (p - 1).
Proof.
  unfold recentIdx. pose proof (uint8_range (p - 1)).
  destruct (Z.ltb_spec (uint8 (p - 1)) 0); [lia | done].
Qed.

(** C10 fails on the code.  With the write cursor of channel A at 0 (as
    after every reset) the index computed by command 0x35 is 255, which is
    outside the 64 entries of [filled]; the command reads [filled[255]].
    The correlator computes the same index in an [int] and gets 63. *)
Theorem recentTOF_cursor_zero :
  ptr (tofA daqReset) = 0
  /\ recentIdx (ptr (tofA daqReset)) = 255
  /\ TOFMAX_EVT <= recentIdx (ptr (tofA daqReset))
  /\ aget (filled (tofA daqReset)) (recentIdx (ptr (tofA daqReset))) = None
  /\ cmd_recentTOF daqReset = Undefined
  /\ backIdx (ptr (tofA daqReset)) 0 = 63
  /\ match commandFrame envQuiet noOther (tripled frame35) daqReset with
     | Ok (_, s1) => commandFrame envQuiet noOther (tripled frame00_1) s1 = Undefined
     | _ => False
     end.
Proof. vm_compute. repeat split; (done || discriminate). Qed.


(* ===================================================================== *)
(** * Part III: further properties of the code                            *)
(* ===================================================================== *)

(** ** [byte16] and [byte32] *)

Lemma byte32_div w k :
  0 <= k <= 3 -> byte32 w k = (uint32 w / 2 ^ (8 * (3 - k))) mod 256.
Proof.
  intros Hk. unfold byte32. cbv zeta.
  rewrite Z.shiftr_land, Z.shiftr_shiftl_l by lia.
  rewrite Z.sub_diag. change (Z.shiftl 255 0) with (Z.ones 8).
  rewrite Z.land_ones, Z.shiftr_div_pow2 by lia.
  change (2 ^ 8) with 256. apply uint8_id. apply Z.mod_pos_bound. lia.
Qed.

(** X1.  [byte32(word, 0..3)] and [byte16(word, 0..1)] are the bytes of the
    word, most significant first: each is a byte, and the word (as the
    [uint32], resp. [uint16], that the parameter holds) is recovered from
    them. *)
Theorem bytes_big_endian w :
  (forall k, 0 <= k <= 3 -> 0 <= byte32 w k < 256)
  /\ uint32 w = 16777216 * byte32 w 0 + 65536 * byte32 w 1
                + 256 * byte32 w 2 + byte32 w 3
  /\ (forall k, 0 <= k <= 1 -> 0 <= byte16 w k < 256)
  /\ uint16 w = 256 * byte16 w 0 + byte16 w 1.
Proof.
  pose proof (uint32_range w) as H32. pose proof (uint16_range w) as H16.
  split; [|split; [|split]].
  - intros k Hk. rewrite byte32_div by done. apply Z.mod_pos_bound. lia.
  - rewrite !byte32_div by lia.
    change (2 ^ (8 * (3 - 0))) with 16777216.
    change (2 ^ (8 * (3 - 1))) with 65536.
    change (2 ^ (8 * (3 - 2))) with 256.
    change (2 ^ (8 * (3 - 3))) with 1.
    generalize dependent (uint32 w). intros x Hx.
    rewrite Z.div_1_r.
    assert (x / 16777216 < 256) by (apply Z.div_lt_upper_bound; lia).
    assert (0 <= x / 16777216) by (apply Z.div_pos; lia).
    rewrite (Z.mod_small (x / 16777216)) by lia.
    pose proof (Z.div_mod x 256 ltac:(lia)).
    pose proof (Z.div_mod (x / 256) 256 ltac:(lia)).
    pose proof (Z.div_mod (x / 256 / 256) 256 ltac:(lia)).
    rewrite !Z.div_div in * by lia.
    change (256 * 256) with 65536 in *. change (65536 * 256) with 16777216 in *.
    assert ((x / 16777216) mod 256 = x / 16777216) by (apply Z.mod_small; lia).
    lia.
  - intros k Hk. assert (k = 0 \/ k = 1) as [-> | ->] by lia.
    + rewrite byte16_hi. split; [apply Z.div_pos; lia|].
      apply Z.div_lt_upper_bound; lia.
    + rewrite byte16_lo. apply Z.mod_pos_bound. lia.
  - rewrite byte16_hi, byte16_lo. apply Z.div_mod. lia.
Qed.

(** ** The error log keeps the first 64 faults *)

Lemma logAll_app es1 es2 l : logAll (es1 ++ es2) l = logAll es2 (logAll es1 l).
Proof. unfold logAll. by rewrite foldl_app. Qed.

(** X2.  Whatever faults are handed to [addError], one after the other, the
    log stays well formed, the entries recorded before stay where they
    are, the new ones follow in order, and those for which there is no room
    left are dropped: the count stops at [MXERR]. *)
Theorem error_log_saturates (es : list Error) (l : ErrorLog) :
  logWf l ->
  let l' := logAll es l in
  let room := Z.to_nat (MXERR - nErrors l) in
  logWf l'
  /\ nErrors l' = Z.min MXERR (nErrors l + Z.of_nat (length es))
  /\ take (Z.to_nat (nErrors l')) (errors l')
     = take (Z.to_nat (nErrors l)) (errors l) ++ (recorded <$> take room es).
Proof.
  intros Hwf. cbv zeta.
  pose proof Hwf as [HL Hn].
  set (room := Z.to_nat (MXERR - nErrors l)).
  assert (Hsplit : logAll es l = logAll (drop room es) (logAll (take room es) l)).
  { by rewrite <- logAll_app, take_drop. }
  rewrite Hsplit. clear Hsplit.
  assert (Hlen : nErrors l + Z.of_nat (length (take room es)) <= MXERR).
  { rewrite length_take. subst room. lia. }
  destruct (logAll_spec (take room es) l Hwf Hlen) as (Hwf1 & Hn1 & Ht1).
  destruct (decide (length es <= room)%nat) as [Hle | Hgt].
  - rewrite drop_ge by done. change (logAll [] (logAll (take room es) l))
      with (logAll (take room es) l).
    split; [done|]. split; [|done].
    rewrite Hn1, length_take. lia.
  - assert (Hfull : MXERR <= nErrors (logAll (take room es) l)).
    { rewrite Hn1, length_take. subst room. lia. }
    rewrite logAll_full by done.
    split; [done|]. split; [|done].
    rewrite Hn1, length_take. subst room.
    pose proof (take_drop (Z.to_nat (MXERR - nErrors l)) es) as E.
    apply (f_equal length) in E. rewrite length_app, length_take in E. lia.
Qed.

Lemma error_log_saturates_witness :
  let l := logAll (replicate 63 (mkError 1 2 3)) (emptyLog (replicate 64 (mkError 0 0 0))) in
  let l' := logAll [mkError 300 4 5; mkError 6 7 8] l in
  nErrors l' = 64
  /\ take 64 (errors l') = replicate 63 (mkError 1 2 3) ++ [mkError 44 4 5].
Proof.
  intros l l'.
  assert (Hwf : logWf l) by (split; [reflexivity | vm_compute; split; discriminate]).
  pose proof (error_log_saturates [mkError 300 4 5; mkError 6 7 8] l Hwf) as H.
  cbv zeta in H. destruct H as (_ & H2 & H3).
  split; [exact H2 | exact H3].
Defined.

(** ** The TOF circular buffers *)

(** X3.  What [Store_A] / [Store_B] do with one stop event: the word, the
    16-bit time tag and the filled flag go to the entry under the cursor,
    every other entry is left alone, the cursor moves on by one and wraps
    from 63 to 0, so that the entry just written is the first one met by a
    backward scan. *)
Theorem tofStore_most_recent (AT now : Z) (t : TOF) :
  TOFwf t ->
  let t' := tofStore AT now t in
  TOFwf t'
  /\ ptr t' = (ptr t + 1) mod TOFMAX_EVT
  /\ backIdx (ptr t') 0 = ptr t
  /\ aget (shiftReg t') (ptr t) = Some AT
  /\ aget (clkCnt t') (ptr t) = Some (uint16 now)
  /\ aget (filled t') (ptr t) = Some true
  /\ (forall j, j <> ptr t ->
        aget (shiftReg t') j = aget (shiftReg t) j
        /\ aget (clkCnt t') j = aget (clkCnt t) j
        /\ aget (filled t') j = aget (filled t) j).
Proof.
  intros Hwf. cbv zeta.
  destruct (TOFwf_elim t Hwf) as (HS & HC & HF & Hp & _).
  unfold TOFMAX_EVT in *.
  assert (Hptr : ptr (tofStore AT now t) = (ptr t + 1) mod 64).
  { unfold tofStore. cbn [ptr]. rewrite uint8_id by lia. unfold TOFMAX_EVT.
    destruct (Z.geb_spec (ptr t + 1) 64).
    - replace (ptr t + 1) with 64 by lia. reflexivity.
    - by rewrite Z.mod_small by lia. }
  split; [by apply tofStore_wf|]. split; [exact Hptr|].
  split.
  { rewrite backIdx_eq; unfold TOFMAX_EVT.
    - rewrite Hptr. destruct (decide (ptr t = 63)) as [-> | Hne]; [reflexivity|].
      rewrite (Z.mod_small (ptr t + 1)) by lia.
      replace (ptr t + 1 - 0 - 1) with (ptr t) by lia. apply Z.mod_small. lia.
    - rewrite Hptr. apply Z.mod_pos_bound. lia.
    - lia. }
  unfold tofStore. cbn [shiftReg clkCnt filled].
  split; [apply aget_aset_eq; lia|].
  split; [apply aget_aset_eq; lia|].
  split; [apply aget_aset_eq; lia|].
  intros j Hj. rewrite !aget_aset_ne by done. done.
Qed.

Lemma tofStore_most_recent_witness :
  ptr (tofStore 12345 70000 tofZero) = 1
  /\ aget (clkCnt (tofStore 12345 70000 tofZero)) 0 = Some 4464.
Proof.
  assert (Hwf : TOFwf tofZero) by reflexivity.
  pose proof (tofStore_most_recent 12345 70000 tofZero Hwf) as H.
  cbv zeta in H. destruct H as (_ & H2 & _ & _ & H5 & _).
  split; [exact H2 | exact H5].
Defined.

(** X4.  A stop event stored by the interrupt routine is a candidate of the
    correlation for the trigger tag [T] exactly when its 16-bit time tag is
    [T] or [T - 1]; this holds for channel A and for channel B. *)
Theorem stored_hit_is_candidate (AT now : Z) (tA tB : TOF) (timeStampSave : Z) :
  TOFwf tA -> TOFwf tB ->
  let T := uint16 (Z.land timeStampSave 0x0000FFFF) in
  (ptr tA ∈ (correlate (tofStore AT now tA) tB timeStampSave).1
   <-> uint16 now = T \/ uint16 now = T - 1)
  /\ (ptr tB ∈ bCand (correlate tA (tofStore AT now tB) timeStampSave).2
      <-> uint16 now = T \/ uint16 now = T - 1).
Proof.
  intros HA HB T.
  assert (Hin : forall t, TOFwf t ->
            inWindow (tofStore AT now t) T (ptr t)
            <-> uint16 now = T \/ uint16 now = T - 1).
  { intros t Ht. destruct (TOFwf_elim t Ht) as (_ & HC & HF & Hp & _).
    unfold inWindow, tofStore. cbn [filled clkCnt].
    rewrite (aread_aget 0 _ _ (uint16 now)) by (apply aget_aset_eq; lia).
    rewrite aget_aset_eq by lia. intuition. }
  split.
  - destruct (correlate_spec (tofStore AT now tA) tB timeStampSave
                (tofStore_wf AT now tA HA) HB) as (H1 & _).
    rewrite (H1 (ptr tA)). by apply Hin.
  - destruct (correlate_spec tA (tofStore AT now tB) timeStampSave
                HA (tofStore_wf AT now tB HB)) as (_ & H2 & _).
    rewrite (H2 (ptr tB)). by apply Hin.
Qed.

Lemma stored_hit_is_candidate_witness :
  (ptr tofZero ∈ (correlate (tofStore 7 1000 tofZero) tofZero 1001).1
   <-> 1000 = 1001 \/ 1000 = 1001 - 1)
  /\ (ptr tofZero ∈ bCand (correlate tofZero (tofStore 7 1000 tofZero) 1001).2
      <-> 1000 = 1001 \/ 1000 = 1001 - 1).
Proof.
  exact (stored_hit_is_candidate 7 1000 tofZero tofZero 1001 eq_refl eq_refl).
Defined.

Lemma aread_cleared (f : list bool) n k i :
  k <= i < k + Z.of_nat n -> 0 <= k ->
  aread false (for_loop n k (fun j f => aset f j false) f) i = false.
Proof.
  revert k f. induction n as [|n IH]; intros k f Hi Hk; [lia|].
  cbn [for_loop].
  destruct (decide (i = k)) as [-> | Hne].
  - clear IH Hi. assert (Hkeep : forall m k' (g : list bool),
      k < k' -> aread false g k = false ->
      aread false (for_loop m k' (fun j f => aset f j false) g) k = false).
    { induction m as [|m IHm]; intros k' g Hlt Hg; [done|].
      cbn [for_loop]. apply IHm; [lia|].
      unfold aread. rewrite aget_aset_ne by lia. exact Hg. }
    apply Hkeep; [lia|].
    unfold aread.
    destruct (decide (k < Z.of_nat (length f))).
    + by rewrite aget_aset_eq by lia.
    + rewrite aget_ge; [done|]. rewrite length_aset. lia.
  - apply IH; lia.
Qed.

Lemma scanList_none test p n k :
  (forall k', k <= k' < k + Z.of_nat n -> test (backIdx p k') = false) ->
  scanList test p n k = [].
Proof.
  revert k. induction n as [|n IH]; intros k H; [done|].
  cbn [scanList]. rewrite H by lia. rewrite IH; [done|]. intros; apply H; lia.
Qed.

Lemma scanB_none tA tB T idx n k c :
  (forall k', k <= k' < k + Z.of_nat n ->
     testB tB T (backIdx (ptr tB) k') = false) ->
  for_loop n k (scanB_body tA tB T idx) c = c.
Proof.
  revert k. induction n as [|n IH]; intros k H; [done|].
  cbn [for_loop]. rewrite scanB_body_skip by (apply H; lia).
  apply IH. intros; apply H; lia.
Qed.

(** X5.  After the reset of the TOF buffers that ends every event (and
    that run start and the dump commands also do) the correlator finds no
    candidate in either channel, whatever the arrays still hold: the next
    event built without a new stop event reports [nI = nJ = 0] and the
    time of flight 32767. *)
Theorem correlate_after_clear (tA tB : TOF) (timeStampSave : Z) :
  correlate (tofClear tA) (tofClear tB) timeStampSave = ([], corrInit)
  /\ dtmin corrInit = 32767 /\ nJ corrInit = 0.
Proof.
  split; [|done].
  assert (Hclr : forall t k, 0 <= k < 64 ->
            aread false (filled (tofClear t)) (backIdx (ptr (tofClear t)) k) = false).
  { intros t k Hk. unfold tofClear. cbn [filled ptr].
    pose proof (backIdx_range 0 k) as Hr. unfold TOFMAX_EVT in *.
    apply aread_cleared; lia. }
  unfold correlate. cbv zeta. f_equal.
  - unfold scanA. rewrite scanA_loop. rewrite scanList_none; [done|].
    intros k Hk. unfold testA. rewrite Hclr; [done|]. unfold TOFMAX_EVT in Hk. lia.
  - apply scanB_none. intros k Hk. unfold testB.
    rewrite Hclr; [done|]. unfold TOFMAX_EVT in Hk. lia.
Qed.

(** ** The trigger enable bit *)

(** X6.  [triggerEnable(enable)] followed by [isTriggerEnabled()] gives
    [enable], whatever the control register held; bits 1 to 7 of the
    register, the pending-trigger flag and the GO counters are not
    touched. *)
Theorem triggerEnable_round_trip (enable : bool) (s : DAQ) :
  let t' := triggerEnable enable (trg s) in
  isTriggerEnabled (set_trg t' s) = enable
  /\ (forall n, 1 <= n < 8 ->
        Z.testbit (Control_Reg_Trg t') n = Z.testbit (Control_Reg_Trg (trg s)) n)
  /\ 0 <= Control_Reg_Trg t' < 256
  /\ triggered t' = triggered (trg s)
  /\ cntGO t' = cntGO (trg s) /\ cntGO1 t' = cntGO1 (trg s).
Proof.
  cbv zeta. unfold isTriggerEnabled, triggerEnable, triggerEnable_Mask.
  destruct s as [? ? ? ? ? ? ? ? ? [r tr g g1] ?]. cbn.
  set (v := uint8 (Z.land r (Z.lnot 1))).
  assert (Hv : 0 <= v < 256) by apply uint8_range.
  assert (Hbit0 : Z.testbit v 0 = false).
  { subst v. unfold uint8. change 256 with (2 ^ 8).
    rewrite Z.mod_pow2_bits_low by lia.
    rewrite Z.land_spec, Z.lnot_spec by lia. cbn. apply andb_false_r. }
  assert (Hbits : forall n, 1 <= n < 8 -> Z.testbit v n = Z.testbit r n).
  { intros n Hn. subst v. unfold uint8. change 256 with (2 ^ 8).
    rewrite Z.mod_pow2_bits_low by lia.
    rewrite Z.land_spec, Z.lnot_spec by lia.
    replace (Z.testbit 1 n) with false; [apply andb_true_r|].
    symmetry. apply (Z.bits_above_log2 1 n); cbn; lia. }
  assert (Hland0 : Z.land v 1 = 0).
  { apply Z.bits_inj'. intros n Hn. rewrite Z.land_spec, Z.bits_0.
    destruct (decide (n = 0)) as [-> | Hne]; [by rewrite Hbit0|].
    replace (Z.testbit 1 n) with false; [apply andb_false_r|].
    symmetry. apply (Z.bits_above_log2 1 n); cbn; lia. }
  destruct enable.
  - split.
    { rewrite Z.land_lor_distr_l, Hland0. reflexivity. }
    split.
    { intros n Hn. rewrite Z.lor_spec, Hbits by done.
      replace (Z.testbit 1 n) with false; [apply orb_false_r|].
      symmetry. apply (Z.bits_above_log2 1 n); cbn; lia. }
    split; [|done].
    assert (Z.lor v 1 = v + 1) as ->.
    { rewrite <- Z.lxor_lor by done. by rewrite Z.add_nocarry_lxor. }
    assert (v <> 255); [|lia].
    intros E. rewrite E in Hbit0. discriminate.
  - split; [by rewrite Hland0|]. split; [exact Hbits|]. done.
Qed.


(** ** The circular buffer for commands from the Main PSOC *)

Lemma mod32_add_inj h a b :
  -32 < a - b < 32 -> (h + a) mod 32 = (h + b) mod 32 -> a = b.
Proof. intros H E. Z.div_mod_to_equations. lia. Qed.

Lemma ptrNext_mod w : 0 <= w < MX_CMDS -> ptrNext w = (w + 1) mod MX_CMDS.
Proof.
  unfold ptrNext, MX_CMDS. intros Hw.
  destruct (Z.ltb_spec w (32 - 1)).
  - rewrite uint8_id by lia. by rewrite Z.mod_small by lia.
  - replace w with 31 by lia. reflexivity.
Qed.

Lemma aget_Forall {A} (P : A -> Prop) (l : list A) (i : Z) (x : A) :
  Forall P l -> aget l i = Some x -> P x.
Proof.
  intros HF Hx. pose proof (aget_Some_lt _ _ _ Hx) as Hi.
  rewrite aget_lookup in Hx by lia.
  by eapply Forall_lookup_1.
Qed.

Lemma Forall_aset {A} (P : A -> Prop) (l : list A) (i : Z) (x : A) :
  Forall P l -> P x -> Forall P (aset l i x).
Proof.
  intros HF Hx. unfold aset. case_bool_decide; [|done].
  by apply Forall_insert.
Qed.

Lemma aset_last_snoc {A} (l : list A) (n : Z) (x : A) :
  0 <= n -> Z.of_nat (length l) = n + 1 ->
  aset l n x = take (Z.to_nat n) l ++ [x].
Proof.
  intros Hn HL.
  rewrite <- (take_aset_snoc l n x) by lia.
  rewrite take_ge; [done|]. rewrite length_aset. lia.
Qed.

Lemma copyBytes_spec n i src buffer :
  0 <= i -> i + Z.of_nat n <= Z.of_nat (length src) ->
  i + Z.of_nat n <= Z.of_nat (length buffer) ->
  exists buffer',
    copyBytes n i src buffer = Some buffer'
    /\ length buffer' = length buffer
    /\ forall k, aget buffer' k
                 = if decide (i <= k < i + Z.of_nat n) then aget src k
                   else aget buffer k.
Proof.
  revert i buffer. induction n as [|n IH]; intros i buffer Hi Hs Hb.
  - exists buffer. split; [done|]. split; [done|].
    intros k. destruct (decide _); [lia | done].
  - cbn [copyBytes].
    destruct (aget_is_Some src i ltac:(lia)) as [v Hv]. rewrite Hv. cbn.
    rewrite astore_Some by lia. cbn.
    destruct (IH (i + 1) (aset buffer i v)) as (b' & E & HL & Hk);
      [lia | lia | rewrite length_aset; lia |].
    exists b'. split; [exact E|]. split; [by rewrite HL, length_aset|].
    intros k. rewrite Hk.
    destruct (decide (k = i)) as [-> | Hne].
    + destruct (decide _); [lia|]. destruct (decide _); [|lia].
      rewrite aget_aset_eq by lia. done.
    + rewrite aget_aset_ne by done.
      destruct (decide _), (decide _); try lia; done.
Qed.

Lemma copyBytes_command (src buffer : list Z) :
  Z.of_nat (length src) = CMD_LENGTH ->
  CMD_LENGTH <= Z.of_nat (length buffer) ->
  exists buffer',
    copyBytes (Z.to_nat CMD_LENGTH) 0 src buffer = Some buffer'
    /\ length buffer' = length buffer
    /\ take (Z.to_nat CMD_LENGTH) buffer' = src.
Proof.
  unfold CMD_LENGTH. intros Hs Hb.
  destruct (copyBytes_spec (Z.to_nat 29) 0 src buffer) as (b' & E & HL & Hk);
    [lia | lia | lia |].
  exists b'. split; [exact E|]. split; [exact HL|].
  apply list_eq. intros k.
  destruct (decide (k < 29)%nat) as [Hlt | Hge].
  - rewrite lookup_take_lt by lia.
    pose proof (Hk (Z.of_nat k)) as Hk'.
    destruct (decide _); [|lia].
    rewrite !aget_lookup, Nat2Z.id in Hk' by lia. done.
  - rewrite lookup_take_ge by lia. symmetry. apply lookup_ge_None. lia.
Qed.

Lemma ringInv_init (garbage : list (list Z)) :
  Z.of_nat (length garbage) = MX_CMDS ->
  Forall (fun g => Z.of_nat (length g) = CMD_LENGTH) garbage ->
  ringInv 0 (ringInit garbage) [] [].
Proof.
  intros HL HF. unfold ringInv, ringInit, MX_CMDS in *. cbn.
  split; [lia|]. split; [by rewrite length_fmap|].
  split; [by apply Forall_fmap|].
  split; [lia|]. split; [done|]. split; [done|].
  split; [intros k c Hk; by rewrite lookup_nil in Hk|].
  split; [unfold CMD_LENGTH; lia|]. split; [done|].
  intros _.
  destruct (aget_is_Some ((fun g => mkCmds g 0) <$> garbage) 0) as [e He].
  { rewrite length_fmap. lia. }
  exists e. split; [exact He|].
  rewrite aget_lookup in He by lia.
  apply list_lookup_fmap_Some in He as (g & -> & _). done.
Qed.

(** The interrupt routine takes a byte exactly when the queue is not
    full. *)
Lemma ringInv_blocked h r q part :
  ringInv h r q part ->
  (cmdWritePtr r =? cmdReadPtr r) = bool_decide (Z.of_nat (length q) = MX_CMDS).
Proof.
  intros (Hh & _ & _ & Hq & Hw & Hr & _).
  rewrite Hw, Hr. unfold MX_CMDS in *.
  destruct (decide (q = [])) as [-> | Hne].
  - cbn [length]. rewrite Z.add_0_r, Z.mod_small by lia.
    rewrite bool_decide_eq_false_2 by (cbn; lia).
    apply Z.eqb_neq. lia.
  - assert (0 < Z.of_nat (length q)) by (destruct q; [done | cbn [length]; lia]).
    case_bool_decide as Hfull.
    + apply Z.eqb_eq. rewrite Hfull.
      replace (h + 32) with (h + 1 * 32) by lia.
      rewrite Z.mod_add by lia. apply Z.mod_small. lia.
    + apply Z.eqb_neq. intros E.
      rewrite <- (Z.mod_small h 32) in E at 2 by lia.
      replace h with (h + 0) in E at 2 by lia.
      apply mod32_add_inj in E; lia.
Qed.

Lemma ring_recv_step h r q part b l :
  ringInv h r q part -> Z.of_nat (length q) < MX_CMDS ->
  exists r' l',
    isrUART_body b r l = Some (r', l')
    /\ ringInv h r' (queuePush (q, part) b).1 (queuePush (q, part) b).2
    /\ l' = if decide (Z.of_nat (length (queuePush (q, part) b).1) = MX_CMDS)
            then addError ERR_CMD_BUF_OVERFLOW h 0 l else l.
Proof.
  intros (Hh & HL & HF & Hq & Hw & Hr & Hslots & Hp & Hfull & Hpart) Hlt.
  destruct (Hpart Hlt) as (e & He & Hn & Ht).
  pose proof (aget_Forall _ _ _ _ HF He) as Hbuf. cbn beta in Hbuf.
  unfold MX_CMDS, CMD_LENGTH in *.
  assert (Hw32 : 0 <= cmdWritePtr r < 32).
  { rewrite Hw. apply Z.mod_pos_bound. lia. }
  assert (Hpush : queuePush (q, part) b
                  = if decide (Z.of_nat (length part) = 28)
                    then (q ++ [part ++ [uint8 b]], [])
                    else (q, part ++ [uint8 b])).
  { unfold queuePush, MX_CMDS, CMD_LENGTH.
    destruct (Nat.ltb_spec (length q) (Z.to_nat 32)); [|lia].
    rewrite length_app. cbn [length].
    destruct (Nat.eqb_spec (length part + 1) (Z.to_nat 29)),
             (decide (Z.of_nat (length part) = 28)); try lia; done. }
  rewrite Hpush. clear Hpush.
  assert (Hother : forall k, 0 <= k < Z.of_nat (length q) ->
            (h + k) mod 32 <> cmdWritePtr r).
  { intros k Hk E. rewrite Hw in E. apply mod32_add_inj in E; lia. }
  unfold isrUART_body. cbv zeta. unfold MX_CMDS, CMD_LENGTH.
  rewrite He. cbn [mbind option_bind].
  rewrite astore_Some by lia. cbn [mbind option_bind].
  rewrite Hn, (uint8_id (Z.of_nat (length part) + 1)) by lia.
  set (bf := aset (buf e) (Z.of_nat (length part)) (uint8 b)).
  set (cb := aset (cmd_buffer r) (cmdWritePtr r)
                  (mkCmds bf (Z.of_nat (length part) + 1))).
  assert (Hbf : Z.of_nat (length bf) = 29) by (subst bf; by rewrite length_aset).
  assert (HLcb : Z.of_nat (length cb) = 32) by (subst cb; by rewrite length_aset).
  assert (HFcb : Forall (fun c => Z.of_nat (length (buf c)) = 29) cb).
  { subst cb. by apply Forall_aset. }
  assert (Hcbw : aget cb (cmdWritePtr r)
                 = Some (mkCmds bf (Z.of_nat (length part) + 1))).
  { subst cb. apply aget_aset_eq. lia. }
  assert (Hcbo : forall k c, q !! k = Some c ->
            exists e', aget cb ((h + Z.of_nat k) mod 32) = Some e' /\ buf e' = c).
  { intros k c Hk. subst cb. rewrite aget_aset_ne.
    - by apply Hslots.
    - apply not_eq_sym, Hother. apply lookup_lt_Some in Hk. lia. }
  assert (Htake : take (S (length part)) bf = part ++ [uint8 b]).
  { subst bf.
    pose proof (take_aset_snoc (buf e) (Z.of_nat (length part)) (uint8 b)
                  ltac:(lia)) as T.
    rewrite Nat2Z.id, Ht in T.
    replace (S (length part)) with (Z.to_nat (Z.of_nat (length part) + 1)) by lia.
    exact T. }
  destruct (decide (Z.of_nat (length part) = 28)) as [H28 | Hn28].
  - (* the command is complete *)
    destruct (Z.eqb_spec (Z.of_nat (length part) + 1) 29) as [_|]; [|lia].
    assert (Hfullbuf : bf = part ++ [uint8 b]).
    { rewrite <- Htake. rewrite take_ge; [done | lia]. }
    assert (Hrd : (if cmdReadPtr r >=? 32 then cmdWritePtr r else cmdReadPtr r) = h).
    { rewrite Hr. destruct q as [|c q].
      - cbn. rewrite Hw. cbn. rewrite Z.add_0_r. apply Z.mod_small. lia.
      - destruct (decide _) as [|_]; [done|].
        destruct (Z.geb_spec h 32); [lia | done]. }
    rewrite Hrd. rewrite ptrNext_mod by (unfold MX_CMDS; lia). unfold MX_CMDS.
    set (w' := (cmdWritePtr r + 1) mod 32).
    assert (Hw' : w' = (h + (Z.of_nat (length q) + 1)) mod 32).
    { subst w'. rewrite Hw. rewrite Zplus_mod_idemp_l. f_equal. lia. }
    assert (Hw'32 : 0 <= w' < 32) by (subst w'; apply Z.mod_pos_bound; lia).
    assert (Hnew : forall k c, (q ++ [part ++ [uint8 b]]) !! k = Some c ->
              exists e', aget cb ((h + Z.of_nat k) mod 32) = Some e' /\ buf e' = c).
    { intros k c Hk. apply lookup_app_Some in Hk as [Hk | [Hge Hk]].
      - by apply Hcbo.
      - apply list_lookup_singleton_Some in Hk as [Hk0 <-].
        replace k with (length q) by lia. rewrite <- Hw, Hcbw.
        eexists. split; [done|]. done. }
    destruct (Z.eqb_spec w' h) as [Heq | Hne].
    + (* the ring is full now *)
      assert (Hq32 : Z.of_nat (length q) + 1 = 32).
      { rewrite Hw' in Heq. rewrite <- (Z.mod_small h 32) in Heq at 2 by lia.
        replace h with (h + 0) in Heq at 2 by lia.
        destruct (decide (Z.of_nat (length q) + 1 = 32)); [done|].
        apply mod32_add_inj in Heq; lia. }
      eexists _, _. split; [reflexivity|]. cbn [fst snd cmdWritePtr].
      unfold MX_CMDS, CMD_LENGTH. rewrite length_app. cbn [length].
      split; [|rewrite decide_True by lia; by rewrite Heq].
      unfold ringInv. cbn [cmd_buffer cmdWritePtr cmdReadPtr].
      unfold MX_CMDS, CMD_LENGTH. rewrite length_app. cbn [length].
      split; [lia|]. split; [done|]. split; [done|]. split; [lia|].
      split; [rewrite Hw'; f_equal; lia|].
      split; [destruct (decide (q ++ [part ++ [uint8 b]] = [])) as [E|_];
              [by destruct q | done]|].
      split; [exact Hnew|]. split; [lia|]. split; [done|]. lia.
    + assert (Hq31 : Z.of_nat (length q) + 1 < 32).
      { destruct (decide (Z.of_nat (length q) + 1 = 32)) as [E|]; [|lia].
        exfalso. apply Hne. rewrite Hw', E.
        replace (h + 32) with (h + 1 * 32) by lia.
        rewrite Z.mod_add by lia. apply Z.mod_small. lia. }
      destruct (aget_is_Some cb w' ltac:(lia)) as [c' Hc'].
      rewrite Hc'. cbn [mbind option_bind].
      eexists _, _. split; [reflexivity|]. cbn [fst snd].
      unfold MX_CMDS, CMD_LENGTH. rewrite length_app. cbn [length].
      split; [|by rewrite decide_False by lia].
      pose proof (aget_Forall _ _ _ _ HFcb Hc') as Hc'len. cbn beta in Hc'len.
      unfold ringInv. cbn [cmd_buffer cmdWritePtr cmdReadPtr].
      unfold MX_CMDS, CMD_LENGTH. rewrite length_app. cbn [length].
      split; [lia|]. split; [by rewrite length_aset|].
      split; [by apply Forall_aset|]. split; [lia|].
      split; [rewrite Hw'; f_equal; lia|].
      split; [destruct (decide (q ++ [part ++ [uint8 b]] = [])) as [E|_];
              [by destruct q | done]|].
      split.
      { intros k c Hk. rewrite aget_aset_ne; [by apply Hnew|].
        intros E. rewrite Hw' in E. apply lookup_lt_Some in Hk.
        rewrite length_app in Hk. cbn [length] in Hk.
        apply mod32_add_inj in E; lia. }
      split; [lia|]. split; [done|]. intros _.
      eexists. split; [apply aget_aset_eq; lia|]. done.
  - (* the command is not complete yet *)
    destruct (Z.eqb_spec (Z.of_nat (length part) + 1) 29) as [|_]; [lia|].
    eexists _, _. split; [reflexivity|]. cbn [fst snd].
    unfold MX_CMDS.
    split; [|by rewrite decide_False by lia].
    unfold ringInv. cbn [cmd_buffer cmdWritePtr cmdReadPtr].
    unfold MX_CMDS, CMD_LENGTH. rewrite length_app. cbn [length].
    split; [lia|]. split; [done|]. split; [done|]. split; [lia|].
    split; [done|]. split; [done|]. split; [exact Hcbo|].
    split; [lia|]. split; [lia|]. intros _.
    eexists. split; [exact Hcbw|]. cbn [nBytes' buf].
    split; [lia|]. rewrite <- Htake. f_equal. lia.
Qed.

Lemma isrUART_full h r q part rx l :
  ringInv h r q part -> Z.of_nat (length q) = MX_CMDS ->
  isrUART rx r l = Some (rx, r, l).
Proof.
  intros Hinv Hfull. destruct rx as [|b rx]; [done|].
  cbn [isrUART]. rewrite (ringInv_blocked _ _ _ _ Hinv).
  by rewrite bool_decide_eq_true_2.
Qed.

Lemma queuePush_full q part rx :
  Z.of_nat (length q) = MX_CMDS -> foldl queuePush (q, part) rx = (q, part).
Proof.
  intros Hfull. induction rx as [|b rx IH]; [done|].
  cbn [foldl]. unfold queuePush at 2.
  destruct (Nat.ltb_spec (length q) (Z.to_nat MX_CMDS)); [lia | done].
Qed.

Lemma queuePush_size q part b :
  Z.of_nat (length q) < MX_CMDS -> Z.of_nat (length part) < CMD_LENGTH ->
  CMD_LENGTH * Z.of_nat (length (queuePush (q, part) b).1)
  + Z.of_nat (length (queuePush (q, part) b).2)
  = CMD_LENGTH * Z.of_nat (length q) + Z.of_nat (length part) + 1.
Proof.
  unfold queuePush, MX_CMDS, CMD_LENGTH. intros Hq Hp.
  destruct (Nat.ltb_spec (length q) (Z.to_nat 32)); [|lia].
  rewrite length_app. cbn [length].
  destruct (Nat.eqb_spec (length part + 1) (Z.to_nat 29)); cbn [fst snd].
  - rewrite length_app. cbn [length]. lia.
  - rewrite length_app. cbn [length]. lia.
Qed.

(** The interrupt routine run on the bytes [rx]. *)
Lemma isrUART_spec rx h r q part l :
  ringInv h r q part ->
  let st := foldl queuePush (q, part) rx in
  exists rest r' l',
    isrUART rx r l = Some (rest, r', l')
    /\ ringInv h r' st.1 st.2
    /\ (CMD_LENGTH * Z.of_nat (length q) + Z.of_nat (length part)
        + Z.of_nat (length rx) <= CMD_LENGTH * MX_CMDS -> rest = [])
    /\ l' = if decide (Z.of_nat (length q) < MX_CMDS
                       /\ Z.of_nat (length st.1) = MX_CMDS)
            then addError ERR_CMD_BUF_OVERFLOW h 0 l else l.
Proof.
  revert r q part l. induction rx as [|b rx IH]; intros r q part l Hinv.
  - cbn. exists [], r, l. split; [done|]. split; [done|]. split; [done|].
    destruct (decide _) as [[? ?]|]; [lia | done].
  - cbv zeta. pose proof Hinv as (_ & _ & _ & Hq & _ & _ & _ & Hp & _).
    destruct (decide (Z.of_nat (length q) = MX_CMDS)) as [Hfull | Hroom].
    + rewrite (isrUART_full _ _ _ _ _ _ Hinv Hfull).
      rewrite queuePush_full by done. cbn [fst snd].
      eexists _, _, _. split; [done|]. split; [done|].
      split; [cbn [length]; unfold CMD_LENGTH, MX_CMDS in *; lia|].
      destruct (decide _) as [[? ?]|]; [lia | done].
    + cbn [isrUART foldl]. rewrite (ringInv_blocked _ _ _ _ Hinv).
      rewrite bool_decide_eq_false_2 by done.
      destruct (ring_recv_step h r q part b l Hinv ltac:(lia))
        as (r1 & l1 & -> & Hinv1 & Hl1).
      pose proof (queuePush_size q part b ltac:(lia) Hp) as Hsize.
      destruct (queuePush (q, part) b) as [q1 p1] eqn:E. cbn [fst snd] in *.
      destruct (decide (Z.of_nat (length q1) = MX_CMDS)) as [Hfull1 | Hroom1].
      * rewrite (isrUART_full _ _ _ _ _ _ Hinv1 Hfull1).
        rewrite queuePush_full by done. cbn [fst snd].
        eexists _, _, _. split; [done|]. split; [done|].
        split.
        { cbn [length]. pose proof Hinv1 as (_ & _ & _ & _ & _ & _ & _ & _ & Hp1 & _).
          rewrite (Hp1 Hfull1) in Hsize. cbn [length] in Hsize.
          unfold CMD_LENGTH, MX_CMDS in *. intros. destruct rx; [done|].
          cbn [length] in *. lia. }
        rewrite decide_True by lia. done.
      * destruct (IH r1 q1 p1 l1 Hinv1) as (rest & r' & l' & -> & Hinv' & Hrest & Hl').
        eexists _, _, _. split; [done|]. split; [done|].
        split; [intros; apply Hrest; cbn [length] in *; lia|].
        rewrite Hl', Hl1.
        pose proof Hinv1 as (_ & _ & _ & Hq1 & _).
        destruct (decide _) as [[? ?]|], (decide _) as [[? ?]|]; try lia; done.
Qed.

(** The read of a command in the main loop. *)
Lemma fetch_spec buffer h r q part :
  ringInv h r q part -> CMD_LENGTH <= Z.of_nat (length buffer) ->
  match q with
  | [] => fetchCommand buffer r = Some (0, buffer, r)
  | c :: q' =>
      exists buffer' r',
        fetchCommand buffer r = Some (CMD_LENGTH, buffer', r')
        /\ take (Z.to_nat CMD_LENGTH) buffer' = c
        /\ length buffer' = length buffer
        /\ ringInv ((h + 1) mod MX_CMDS) r' q' part
  end.
Proof.
  intros (Hh & HL & HF & Hq & Hw & Hr & Hslots & Hp & Hfull & Hpart) Hb.
  unfold fetchCommand. cbv zeta. rewrite Hr.
  destruct q as [|c q'].
  - cbn. done.
  - destruct (decide _) as [|_]; [done|].
    unfold MX_CMDS in *. destruct (Z.ltb_spec h 32); [|lia].
    destruct (Hslots 0%nat c eq_refl) as (e & He & Hc).
    rewrite Z.add_0_r, Z.mod_small in He by lia. rewrite He. cbn [mbind option_bind].
    pose proof (aget_Forall _ _ _ _ HF He) as Hlen. cbn beta in Hlen.
    destruct (copyBytes_command (buf e) buffer Hlen Hb) as (b' & -> & HLb & Htk).
    cbn [mbind option_bind].
    eexists _, _. split; [reflexivity|]. split; [by rewrite Htk|]. split; [done|].
    cbn [length] in *.
    rewrite ptrNext_mod by (unfold MX_CMDS; lia). unfold MX_CMDS.
    set (h' := (h + 1) mod 32).
    assert (Hh' : 0 <= h' < 32) by (subst h'; apply Z.mod_pos_bound; lia).
    assert (Hw' : cmdWritePtr r = (h' + Z.of_nat (length q')) mod 32).
    { rewrite Hw. subst h'. rewrite Zplus_mod_idemp_l. f_equal. lia. }
    unfold ringInv. cbn [cmd_buffer cmdWritePtr cmdReadPtr]. unfold MX_CMDS, CMD_LENGTH in *.
    split; [done|]. split; [by rewrite length_aset|].
    split; [by apply Forall_aset|]. split; [lia|]. split; [done|].
    split.
    { rewrite Hw'. destruct (decide (q' = [])) as [-> | Hne].
      - cbn [length]. rewrite Z.add_0_r, (Z.mod_small h') by lia.
        by rewrite Z.eqb_refl.
      - assert (0 < Z.of_nat (length q')) by (destruct q'; [done | cbn [length]; lia]).
        destruct (Z.eqb_spec h' ((h' + Z.of_nat (length q')) mod 32)) as [E|]; [|done].
        exfalso. rewrite <- (Z.mod_small h' 32) in E at 1 by lia.
        replace h' with (h' + 0) in E at 1 by lia.
        apply mod32_add_inj in E; lia. }
    split.
    { intros k c' Hk. pose proof (lookup_lt_Some _ _ _ Hk) as Hklt.
      destruct (Hslots (S k) c' Hk) as (e' & He' & Hc').
      exists e'. split; [|done].
      assert (Epos : (h' + Z.of_nat k) mod 32 = (h + Z.of_nat (S k)) mod 32).
      { subst h'. rewrite Zplus_mod_idemp_l. f_equal. lia. }
      rewrite Epos, aget_aset_ne; [done|].
      intros E. rewrite <- (Z.mod_small h 32) in E at 1 by lia.
      replace h with (h + 0) in E at 1 by lia.
      apply mod32_add_inj in E; lia. }
    split; [done|]. split; [lia|]. intros _.
    destruct (decide (Z.of_nat (length q') + 1 = 32)) as [E32 | Hn32].
    + rewrite (Hfull ltac:(lia)).
      assert (cmdWritePtr r = h) as ->.
      { rewrite Hw. replace (h + Z.of_nat (S (length q'))) with (h + 1 * 32) by lia.
        rewrite Z.mod_add by lia. apply Z.mod_small. lia. }
      eexists. split; [apply aget_aset_eq; lia|]. done.
    + destruct (Hpart ltac:(lia)) as (e' & He' & Hn' & Ht').
      exists e'. split; [|done].
      rewrite aget_aset_ne; [done|].
      intros E. rewrite Hw in E. rewrite <- (Z.mod_small h 32) in E at 1 by lia.
      replace h with (h + 0) in E at 1 by lia.
      apply mod32_add_inj in E; lia.
Qed.

Lemma ringRun_spec ops h r q part l buffer :
  ringInv h r q part -> CMD_LENGTH <= Z.of_nat (length buffer) ->
  ringRun ops r l buffer = Some (queueRun ops q part).
Proof.
  revert h r q part l buffer.
  induction ops as [|[bytes|] ops IH]; intros h r q part l buffer Hinv Hb; [done| |].
  - cbn [ringRun queueRun].
    destruct (isrUART_spec bytes h r q part l Hinv) as (rest & r' & l' & -> & Hinv' & _).
    destruct (foldl queuePush (q, part) bytes) as [q' part'].
    by eapply IH.
  - cbn [ringRun queueRun].
    pose proof (fetch_spec buffer h r q part Hinv Hb) as Hf.
    destruct q as [|c q'].
    + rewrite Hf. erewrite IH by done. cbn. done.
    + destruct Hf as (b' & r' & -> & Htk & HLb & Hinv').
      erewrite IH; [|done | lia]. cbn [mbind option_bind].
      rewrite Z.eqb_refl, Htk. done.
Qed.

(** X7.  The command ring is a first-in first-out queue of at most
    [MX_CMDS] commands: whatever the interrupt routine and the main loop do
    to it, in any order, starting from the ring as [main] sets it up, no
    access leaves an array and the main loop gets the commands that a queue
    gives: complete commands of [CMD_LENGTH] bytes, oldest first, none
    lost, repeated or overwritten; bytes that arrive while [MX_CMDS]
    commands wait are not taken from the UART. *)
Theorem command_ring_fifo (ops : list RingOp) (garbage : list (list Z))
    (l : ErrorLog) (buffer : list Z) :
  Z.of_nat (length garbage) = MX_CMDS ->
  Forall (fun g => Z.of_nat (length g) = CMD_LENGTH) garbage ->
  Z.of_nat (length buffer) = BUFFER_LEN ->
  ringRun ops (ringInit garbage) l buffer = Some (queueRun ops [] []).
Proof.
  intros HL HF Hb. eapply ringRun_spec.
  - by apply ringInv_init.
  - rewrite Hb. unfold CMD_LENGTH, BUFFER_LEN. lia.
Qed.

Lemma command_ring_fifo_witness :
  ringRun [Rx (tripled frame07 ++ take 20 (tripled frame3D)); Fetch;
           Rx (drop 20 (tripled frame3D)); Fetch; Fetch]
          (ringInit (replicate 32 (replicate 29 0xFF)))
          (emptyLog (replicate 64 (mkError 0 0 0))) (replicate 32 0)
  = Some [tripled frame07; tripled frame3D].
Proof.
  refine (command_ring_fifo _ (replicate 32 (replicate 29 0xFF)) _ (replicate 32 0)
            eq_refl _ eq_refl).
  repeat constructor.
Defined.

Lemma queuePush_part q part bs :
  Z.of_nat (length q) < MX_CMDS ->
  Z.of_nat (length part) + Z.of_nat (length bs) < CMD_LENGTH ->
  foldl queuePush (q, part) bs = (q, part ++ (uint8 <$> bs)).
Proof.
  unfold MX_CMDS, CMD_LENGTH. intros Hq.
  revert part. induction bs as [|b bs IH]; intros part Hp.
  - by rewrite app_nil_r.
  - cbn [foldl length] in *. unfold queuePush at 2. unfold MX_CMDS, CMD_LENGTH.
    destruct (Nat.ltb_spec (length q) (Z.to_nat 32)); [|lia].
    rewrite length_app. cbn [length].
    destruct (Nat.eqb_spec (length part + 1) (Z.to_nat 29)); [lia|].
    rewrite IH by (rewrite length_app; cbn [length]; lia).
    by rewrite <- app_assoc.
Qed.

Lemma queuePush_command q c :
  Z.of_nat (length q) < MX_CMDS -> Z.of_nat (length c) = CMD_LENGTH ->
  foldl queuePush (q, []) c = (q ++ [uint8 <$> c], []).
Proof.
  intros Hq Hc.
  destruct (decide (c = [])) as [-> | Hne]; [done|].
  destruct (exists_last Hne) as (bs & b & ->).
  rewrite length_app in Hc. cbn [length] in Hc.
  rewrite foldl_app, queuePush_part by (cbn [length]; unfold CMD_LENGTH in *; lia).
  cbn [foldl app]. unfold queuePush, MX_CMDS, CMD_LENGTH in *.
  destruct (Nat.ltb_spec (length q) (Z.to_nat 32)); [|lia].
  rewrite length_app, length_fmap. cbn [length].
  destruct (Nat.eqb_spec (length bs + 1) (Z.to_nat 29)); [|lia].
  by rewrite fmap_app.
Qed.

Lemma queuePush_commands (q cmds : list (list Z)) :
  Z.of_nat (length q) + Z.of_nat (length cmds) <= MX_CMDS ->
  Forall (fun c => Z.of_nat (length c) = CMD_LENGTH) cmds ->
  foldl queuePush (q, []) (mjoin (M:=list) cmds) = (q ++ ((fun c : list Z => uint8 <$> c) <$> cmds), []).
Proof.
  revert q. induction cmds as [|c cmds IH]; intros q Hq HF.
  - by rewrite app_nil_r.
  - apply Forall_cons in HF as [Hc HF]. cbn [length] in Hq.
    cbn [mjoin list_join]. rewrite foldl_app, queuePush_command by (done || lia).
    rewrite IH by (rewrite ?length_app; cbn [length]; done || lia).
    by rewrite <- app_assoc.
Qed.

Lemma isrUART_app a b r l r' l' :
  isrUART a r l = Some ([], r', l') -> isrUART (a ++ b) r l = isrUART b r' l'.
Proof.
  revert r l. induction a as [|x a IH]; intros r l H.
  - cbn in H. by injection H as <- <-.
  - cbn [isrUART app] in *.
    destruct (cmdWritePtr r =? cmdReadPtr r); [discriminate|].
    destruct (isrUART_body x r l) as [[r1 l1]|]; [|discriminate].
    by apply IH.
Qed.

Lemma queueRun_fetch_all n q part :
  (length q <= n)%nat -> queueRun (replicate n Fetch) q part = q.
Proof.
  revert q. induction n as [|n IH]; intros q Hn.
  - destruct q; [done | cbn in Hn; lia].
  - cbn [replicate queueRun]. destruct q as [|c q].
    + by rewrite IH by (cbn; lia).
    + rewrite IH by (cbn in Hn; lia). done.
Qed.

(** X8.  When [MX_CMDS] commands arrive one after the other before the main
    loop reads any, the interrupt routine stores all of them, logs
    [ERR_CMD_BUF_OVERFLOW] once (with the write pointer, which is back at 0)
    at the moment the last one is complete, and leaves every later byte in
    the UART; with room in the log the count of faults goes up by one and
    the new entry is (29, 0, 0).  The main loop then reads the [MX_CMDS]
    commands in the order of arrival, so that nothing stored is
    overwritten. *)
Theorem command_ring_overflow (garbage cmds : list (list Z)) (rx : list Z)
    (l : ErrorLog) (buffer : list Z) :
  Z.of_nat (length garbage) = MX_CMDS ->
  Forall (fun g => Z.of_nat (length g) = CMD_LENGTH) garbage ->
  Z.of_nat (length cmds) = MX_CMDS ->
  Forall (fun c => Z.of_nat (length c) = CMD_LENGTH) cmds ->
  Z.of_nat (length buffer) = BUFFER_LEN ->
  exists r' l',
    isrUART (mjoin cmds ++ rx) (ringInit garbage) l = Some (rx, r', l')
    /\ l' = addError ERR_CMD_BUF_OVERFLOW 0 0 l
    /\ (logWf l -> nErrors l < MXERR ->
        nErrors l' = nErrors l + 1
        /\ aget (errors l') (nErrors l) = Some (mkError ERR_CMD_BUF_OVERFLOW 0 0)
        /\ forall i, i <> nErrors l -> aget (errors l') i = aget (errors l) i)
    /\ cmdWritePtr r' = 0 /\ cmdReadPtr r' = 0
    /\ ringRun (replicate (Z.to_nat MX_CMDS) Fetch) r' l' buffer
       = Some ((fun c : list Z => uint8 <$> c) <$> cmds).
Proof.
  intros HL HF HLc HFc Hb.
  pose proof (ringInv_init garbage HL HF) as Hinv.
  destruct (isrUART_spec (mjoin cmds) 0 _ [] [] l Hinv)
    as (rest & r' & l' & E & Hinv' & Hrest & Hl').
  rewrite queuePush_commands in Hinv', Hl' by (cbn [length]; done || lia).
  cbn [fst snd app] in *.
  assert (Hfull : Z.of_nat (length ((fun c : list Z => uint8 <$> c) <$> cmds)) = MX_CMDS)
    by (by rewrite length_fmap).
  rewrite Hrest in E.
  2:{ cbn [length].
      assert (Z.of_nat (length (mjoin cmds)) = CMD_LENGTH * Z.of_nat (length cmds)) as ->;
        [|unfold CMD_LENGTH, MX_CMDS in *; lia].
      clear -HFc. induction HFc as [|c cmds Hc _ IH]; [done|].
      change (mjoin (c :: cmds)) with (c ++ mjoin cmds).
      rewrite length_app. cbn [length]. unfold CMD_LENGTH in *. lia. }
  rewrite decide_True in Hl' by (cbn [length]; unfold MX_CMDS in *; lia).
  exists r', (addError ERR_CMD_BUF_OVERFLOW 0 0 l). split.
  { rewrite (isrUART_app _ _ _ _ _ _ E), Hl'.
    by rewrite (isrUART_full _ _ _ _ _ _ Hinv' Hfull). }
  split; [reflexivity|].
  split; [exact (addError_room ERR_CMD_BUF_OVERFLOW 0 0 l)|].
  pose proof Hinv' as (_ & _ & _ & _ & Hw & Hr & _).
  split.
  { rewrite Hw, Hfull. reflexivity. }
  split.
  { rewrite Hr. destruct (decide _) as [E0|]; [|done].
    rewrite E0 in Hfull. done. }
  rewrite (ringRun_spec _ _ _ _ _ _ _ Hinv')
    by (rewrite Hb; unfold CMD_LENGTH, BUFFER_LEN; lia).
  rewrite queueRun_fetch_all; [done|]. lia.
Qed.

Lemma command_ring_overflow_witness :
  exists r' l',
    isrUART (mjoin (replicate 32 (tripled frame07)) ++ [83; 48])
            (ringInit (replicate 32 (replicate 29 0xFF)))
            (emptyLog (replicate 64 (mkError 0 0 0)))
    = Some ([83; 48], r', l')
    /\ nErrors l' = 1
    /\ aget (errors l') 0 = Some (mkError ERR_CMD_BUF_OVERFLOW 0 0)
    /\ cmdWritePtr r' = 0 /\ cmdReadPtr r' = 0
    /\ ringRun (replicate (Z.to_nat MX_CMDS) Fetch) r' l' (replicate 32 0)
       = Some (replicate 32 (tripled frame07)).
Proof.
  destruct (command_ring_overflow (replicate 32 (replicate 29 0xFF))
              (replicate 32 (tripled frame07)) [83; 48]
              (emptyLog (replicate 64 (mkError 0 0 0))) (replicate 32 0))
    as (r' & l' & E & _ & Hrec & Hw & Hr & Hrun);
    [reflexivity | repeat constructor | reflexivity | repeat constructor | reflexivity |].
  destruct Hrec as (Hn & Hg & _).
  - split; [reflexivity | simpl; unfold MXERR; lia].
  - simpl. unfold MXERR. lia.
  - exists r', l'. split; [exact E|]. split; [exact Hn|]. split; [exact Hg|].
    split; [exact Hw|]. split; [exact Hr | exact Hrun].
Defined.


(** ** Decoding a command *)

Lemma code_hexChar x : 0 <= x < 16 -> code (hexChar x) = x.
Proof.
  intros H.
  assert (forallb (fun x => code (hexChar x) =? x) (seqZ 0 16) = true) as Hall
    by (vm_compute; reflexivity).
  rewrite forallb_forall in Hall. apply Z.eqb_eq, Hall.
  apply list_elem_of_In, elem_of_seqZ. lia.
Qed.

Lemma nibbles_join c :
  0 <= c < 256 -> uint8 (Z.lor (Z.shiftl (c / 16) 4) (c mod 16)) = c.
Proof.
  intros H.
  assert (forallb (fun c => uint8 (Z.lor (Z.shiftl (c / 16) 4) (c mod 16)) =? c)
                  (seqZ 0 256) = true) as Hall by (vm_compute; reflexivity).
  rewrite forallb_forall in Hall. apply Z.eqb_eq, Hall.
  apply list_elem_of_In, elem_of_seqZ. lia.
Qed.

Lemma addressOf_fields n :
  0 <= n < 16 ->
  0 <= addressOf n < 256
  /\ uint8 (Z.shiftr (Z.land (addressOf n) 0x3C) 2) = 0x08
  /\ byteCount (addressOf n) = n.
Proof.
  intros H.
  assert (forallb (fun n => (0 <=? addressOf n) && (addressOf n <? 256)
                     && (uint8 (Z.shiftr (Z.land (addressOf n) 0x3C) 2) =? 0x08)
                     && (byteCount (addressOf n) =? n))
                  (seqZ 0 16) = true) as Hall by (vm_compute; reflexivity).
  rewrite forallb_forall in Hall.
  specialize (Hall n). rewrite !andb_true_iff in Hall.
  destruct Hall as [[[H1 H2] H3] H4]; [apply list_elem_of_In, elem_of_seqZ; lia|].
  lia.
Qed.

Lemma aread_tripled (frame : list Z) k j :
  length frame = 9%nat -> 0 <= k < 9 -> 0 <= j <= 2 ->
  aread 0 (tripled frame) (k + 9 * j) = aread 0 frame k.
Proof.
  intros HL Hk Hj. unfold aread. rewrite !aget_lookup by lia. unfold tripled.
  assert (j = 0 \/ j = 1 \/ j = 2) as [-> | [-> | ->]] by lia.
  - rewrite Z.add_0_r. by rewrite lookup_app_l by lia.
  - rewrite lookup_app_r by lia. rewrite lookup_app_l by lia.
    do 2 f_equal. lia.
  - rewrite lookup_app_r by lia. rewrite lookup_app_r by lia.
    rewrite lookup_app_l by lia. do 2 f_equal. lia.
Qed.

Lemma voteCommand_tripled (frame : list Z) (l : ErrorLog) :
  length frame = 9%nat -> voteCommand (tripled frame) l = (false, tripled frame, l).
Proof.
  intros HL. unfold voteCommand. cbv zeta.
  assert (firstDiff 9 0
            (fun i => negb (aread 0 (tripled frame) i =? aread 0 (tripled frame) (i + 9))
                      || negb (aread 0 (tripled frame) i =? aread 0 (tripled frame) (i + 18)))
          = None) as ->; [|done].
  apply firstDiff_None. intros k Hk.
  pose proof (aread_tripled frame k 0 HL ltac:(lia) ltac:(lia)) as E0.
  pose proof (aread_tripled frame k 1 HL ltac:(lia) ltac:(lia)) as E1.
  pose proof (aread_tripled frame k 2 HL ltac:(lia) ltac:(lia)) as E2.
  rewrite Z.add_0_r in E0. change (9 * 1) with 9 in E1. change (9 * 2) with 18 in E2.
  rewrite E0, E1, E2, Z.eqb_refl. done.
Qed.

Lemma set_log_id s : set_log (log s) s = s.
Proof. by destruct s. Qed.

(** What the main loop does with the three copies of "S<dataByte>
    <addressByte> xyW". *)
Lemma commandFrame_frameOf env other (dataByte a : Z) (s : DAQ) :
  0 <= dataByte < 256 -> 0 <= a < 256 ->
  commandFrame env other (tripled (frameOf dataByte a)) s
  = (let r := cmd s in
     let n := byteCount a in
     let s0 := if awaitingCommand r
               then set_cmd (mkCmdRegs (command r) (cmdData r) (nDataBytes r) (dCnt r)
                               (awaitingCommand r) (cmdDone r) (eventDataReady r)
                               (int (cmdCountGLB r + 1)) (cmdCount' r) (cmdStartTime r)) s
               else s in
     if negb (uint8 (Z.shiftr (Z.land a 0x3C) 2) =? 0x08) then
       if cmdDone r then dispatch other s0 else Ok (tt, s0)
     else if awaitingCommand r then
       let s1 := set_cmd (mkCmdRegs dataByte (cmdData r) n 0 false
                            (if n =? 0 then true else cmdDone r) (eventDataReady r)
                            (int (cmdCountGLB r + 1)) (int (cmdCount' r + 1))
                            (uint32 (now (poll env (hwk s)))))
                         (set_hwk (S (hwk s)) s) in
       if cmdDone (cmd s1) then dispatch other s1 else Ok (tt, s1)
     else if n =? 0 then
       let s1 := set_log (addError ERR_BAD_BYTE (command r) (nDataBytes r) (log s)) s in
       if cmdDone r
       then Ok (tt, set_cmd (mkCmdRegs (command r) (cmdData r) 0 (dCnt r) true false
                               (eventDataReady r) (cmdCountGLB r) (cmdCount' r)
                               (cmdStartTime r)) s1)
       else Ok (tt, s1)
     else
       match astore (cmdData r) (n - 1) dataByte with
       | None => Undefined
       | Some d =>
           let dCnt' := int (dCnt r + 1) in
           let s1 := set_cmd (mkCmdRegs (command r) d (nDataBytes r) dCnt'
                                (awaitingCommand r)
                                (if dCnt' =? nDataBytes r then true else cmdDone r)
                                (eventDataReady r) (cmdCountGLB r) (cmdCount' r)
                                (cmdStartTime r)) s in
           if cmdDone (cmd s1) then dispatch other s1 else Ok (tt, s1)
       end).
Proof.
  intros Hd Ha.
  assert (Hdiv : 0 <= dataByte / 16 < 16 /\ 0 <= dataByte mod 16 < 16
                 /\ 0 <= a / 16 < 16 /\ 0 <= a mod 16 < 16).
  { repeat split; try (apply Z.div_pos; lia); try (apply Z.div_lt_upper_bound; lia);
      apply Z.mod_pos_bound; lia. }
  destruct Hdiv as (Hd1 & Hd2 & Ha1 & Ha2).
  unfold commandFrame.
  unfold mbind at 1, M_bind at 1, gets at 1.
  rewrite voteCommand_tripled by reflexivity.
  change (aread 0 (tripled (frameOf dataByte a)) 0) with 83.
  change (aread 0 (tripled (frameOf dataByte a)) 8) with 87.
  change (aread 0 (tripled (frameOf dataByte a)) 1) with (hexChar (dataByte / 16)).
  change (aread 0 (tripled (frameOf dataByte a)) 2) with (hexChar (dataByte mod 16)).
  change (aread 0 (tripled (frameOf dataByte a)) 3) with (hexChar (a / 16)).
  change (aread 0 (tripled (frameOf dataByte a)) 4) with (hexChar (a mod 16)).
  rewrite !code_hexChar by done.
  rewrite !(nibbles_join dataByte), !(nibbles_join a) by done.
  change (negb false && (83 =? 83) && (87 =? 87)) with true. cbv iota.
  destruct s as [k m lg o tA tB oT td tk tg [c0 cd nb dc aw cdn edr glb cc cst]].
  munfold. unfold time. munfold. unfold set_hwk, set_log, set_cmd.
  cbn -[dispatch int uint32 Z.eqb astore addError byteCount uint8].
  destruct (uint8 (Z.shiftr (Z.land a 60) 2) =? 8);
    cbn -[dispatch int uint32 Z.eqb astore addError byteCount uint8].
  - destruct aw; cbn -[dispatch int uint32 Z.eqb astore addError byteCount uint8].
    + destruct (byteCount a =? 0); [reflexivity|].
      cbn -[dispatch int uint32 Z.eqb astore addError byteCount uint8].
      destruct cdn; reflexivity.
    + destruct (byteCount a =? 0);
        cbn -[dispatch int uint32 Z.eqb astore addError byteCount uint8].
      * destruct cdn; reflexivity.
      * destruct (astore cd (byteCount a - 1) dataByte); [|reflexivity].
        cbn -[dispatch int uint32 Z.eqb astore addError byteCount uint8].
        destruct (int (dc + 1) =? nb); [reflexivity|].
        destruct cdn; reflexivity.
  - destruct aw; cbn -[dispatch int uint32 Z.eqb astore addError byteCount uint8];
      destruct cdn; reflexivity.
Qed.

Lemma bind_ret_tt (m : M unit) s : (m;; ret tt) s = m s.
Proof.
  unfold mbind, M_bind, ret, mret, M_ret.
  destruct (m s) as [[[] s']| |]; reflexivity.
Qed.

Lemma set_cmd_set_cmd r1 r2 s : set_cmd r1 (set_cmd r2 s) = set_cmd r1 s.
Proof. by destruct s. Qed.

(** X9.  The first command frame of a command, "S<c><a> xyW" in three
    copies with the address of the event PSOC and the count [n] in the
    address byte [a]: the two hexadecimal digits are decoded to the command
    code [c], [n] becomes the number of data bytes to wait for, the command
    counters go up by one and the start time is taken; a command without
    data bytes is handed to the dispatcher at once, any other waits for its
    data. *)
Theorem command_header_decoded env other (c n : Z) (s : DAQ) :
  0 <= c < 256 -> 0 <= n < 16 ->
  awaitingCommand (cmd s) = true -> cmdDone (cmd s) = false ->
  let r := cmd s in
  let s1 := set_cmd (mkCmdRegs c (cmdData r) n 0 false (n =? 0) (eventDataReady r)
                       (int (cmdCountGLB r + 1)) (int (cmdCount' r + 1))
                       (uint32 (now (poll env (hwk s)))))
                    (set_hwk (S (hwk s)) s) in
  commandFrame env other (tripled (frameOf c (addressOf n))) s
  = if n =? 0 then dispatch other s1 else Ok (tt, s1).
Proof.
  intros Hc Hn Haw Hdone. cbv zeta.
  destruct (addressOf_fields n Hn) as (Ha & Haddr & Hcnt).
  rewrite commandFrame_frameOf by done. cbv zeta.
  rewrite Haddr, Hcnt, Haw, Hdone. cbn [negb Z.eqb Pos.eqb].
  cbn [cmd set_cmd cmdDone].
  destruct (n =? 0); reflexivity.
Qed.

Lemma command_header_decoded_witness :
  commandFrame envQuiet noOther (tripled (frameOf 0x3B (addressOf 1))) daqReset
  = Ok (tt, set_cmd (mkCmdRegs 0x3B (replicate 16 0) 1 0 false false false 1 1 0)
              (set_hwk 1 daqReset)).
Proof.
  exact (command_header_decoded envQuiet noOther 0x3B 1 daqReset
           ltac:(lia) ltac:(lia) eq_refl eq_refl).
Defined.

Lemma commandFrame_data env other (d j : Z) (s : DAQ) :
  0 <= d < 256 -> 1 <= j < 16 ->
  awaitingCommand (cmd s) = false -> cmdDone (cmd s) = false ->
  Z.of_nat (length (cmdData (cmd s))) = 16 ->
  let r := cmd s in
  let complete := int (dCnt r + 1) =? nDataBytes r in
  let s1 := set_cmd (mkCmdRegs (command r) (aset (cmdData r) (j - 1) d) (nDataBytes r)
                       (int (dCnt r + 1)) false complete (eventDataReady r)
                       (cmdCountGLB r) (cmdCount' r) (cmdStartTime r)) s in
  commandFrame env other (tripled (frameOf d (addressOf j))) s
  = if complete then dispatch other s1 else Ok (tt, s1).
Proof.
  intros Hd Hj Haw Hdone HL. cbv zeta.
  destruct (addressOf_fields j ltac:(lia)) as (Ha & Haddr & Hcnt).
  rewrite commandFrame_frameOf by done. cbv zeta.
  rewrite Haddr, Hcnt, Haw, Hdone. cbn [negb Z.eqb Pos.eqb].
  destruct (Z.eqb_spec j 0); [lia|].
  rewrite astore_Some by lia. cbn [cmd set_cmd cmdDone].
  destruct (int (dCnt (cmd s) + 1) =? nDataBytes (cmd s)); reflexivity.
Qed.

Lemma set_hwk_id s : set_hwk (hwk s) s = s.
Proof. by destruct s. Qed.

Lemma cmdTimeout_idle wide env n s :
  awaitingCommand (cmd s) = true -> cmdTimeout wide env n s = Ok (n, s).
Proof. intros H. unfold cmdTimeout. munfold. by rewrite H. Qed.

Lemma cmdTimeout_in_time wide env n s :
  awaitingCommand (cmd s) = false ->
  inTime env (cmdStartTime (cmd s)) (hwk s) ->
  cmdTimeout wide env n s = Ok (n, set_hwk (S (hwk s)) s).
Proof.
  intros H [H1 H2]. unfold TIMEOUT in *. unfold cmdTimeout, time. munfold.
  rewrite H. cbn [negb]. destruct s as [? ? ? ? ? ? ? ? ? ? r]. cbn in *.
  set (t := uint32 _) in *.
  destruct wide.
  - destruct (Z.gtb_spec (t - cmdStartTime r) TIMEOUT); [unfold TIMEOUT in *; lia | done].
  - rewrite (uint32_id (t - cmdStartTime r)) by lia.
    destruct (Z.gtb_spec (t - cmdStartTime r) TIMEOUT); [unfold TIMEOUT in *; lia | done].
Qed.

Lemma runPasses_frame wide env other b ps n s s1 s2 :
  cmdTimeout wide env n s = Ok (n, s1) ->
  commandFrame env other b s1 = Ok (tt, s2) ->
  runPasses wide env other (Some b :: ps) n s = runPasses wide env other ps n s2.
Proof.
  intros E1 E2. cbn [runPasses]. unfold mbind, M_bind. by rewrite E1, E2.
Qed.

Lemma runPasses_last wide env other b n s s1 :
  cmdTimeout wide env n s = Ok (n, s1) ->
  runPasses wide env other [Some b] n s = (commandFrame env other b;; ret n) s1.
Proof.
  intros E1. cbn [runPasses]. unfold mbind at 1, M_bind at 1. by rewrite E1.
Qed.

(** Passes without a command while no command is in progress. *)
Lemma runPasses_idle wide env other g ps n s :
  awaitingCommand (cmd s) = true ->
  runPasses wide env other (replicate g None ++ ps) n s
  = runPasses wide env other ps n s.
Proof.
  intros Haw. induction g as [|g IH]; [done|].
  cbn [replicate app runPasses]. unfold mbind at 1, M_bind at 1.
  rewrite (cmdTimeout_idle wide env n s Haw). exact IH.
Qed.

(** Passes without a command while a command is in progress and in time. *)
Lemma runPasses_waiting wide env other g ps n : forall s,
  awaitingCommand (cmd s) = false ->
  (forall j, (j < g)%nat -> inTime env (cmdStartTime (cmd s)) (hwk s + j)) ->
  runPasses wide env other (replicate g None ++ ps) n s
  = runPasses wide env other ps n (set_hwk (hwk s + g) s).
Proof.
  induction g as [|g IH]; intros s Haw Ht.
  - cbn [replicate app]. by rewrite Nat.add_0_r, set_hwk_id.
  - cbn [replicate app runPasses]. unfold mbind at 1, M_bind at 1.
    rewrite (cmdTimeout_in_time wide env n s Haw)
      by (rewrite <- (Nat.add_0_r (hwk s)); apply Ht; lia).
    change ((ret tt;; runPasses wide env other (replicate g None ++ ps) n)
              (set_hwk (S (hwk s)) s))
      with (runPasses wide env other (replicate g None ++ ps) n (set_hwk (S (hwk s)) s)).
    rewrite IH.
    + f_equal. destruct s. unfold set_hwk. cbn [hwk hwm log out tofA tofB outputTOF tkrData tkr trg cmd]. f_equal. lia.
    + by destruct s.
    + intros j Hj. destruct s as [k ? ? ? ? ? ? ? ? ? r]. unfold set_hwk.
      cbn [hwk cmd] in *.
      replace (S k + j)%nat with (k + S j)%nat by lia. apply Ht. lia.
Qed.

Lemma length_withGaps_pos gs b bs : (0 < length (withGaps gs (b :: bs)))%nat.
Proof. cbn [withGaps]. rewrite length_app. cbn [length]. lia. Qed.

Lemma runPasses_data wide env other n0 ds : forall gs i s,
  ds <> [] -> Forall (fun d => 0 <= d < 256) ds ->
  1 <= i -> i + Z.of_nat (length ds) <= 16 ->
  awaitingCommand (cmd s) = false -> cmdDone (cmd s) = false ->
  Z.of_nat (length (cmdData (cmd s))) = 16 ->
  0 <= dCnt (cmd s) ->
  dCnt (cmd s) + Z.of_nat (length ds) = nDataBytes (cmd s) ->
  nDataBytes (cmd s) < 16 ->
  (forall j, (j < length (withGaps gs (dataFrames i ds)))%nat ->
     inTime env (cmdStartTime (cmd s)) (hwk s + j)) ->
  let r := cmd s in
  runPasses wide env other (withGaps gs (dataFrames i ds)) n0 s
  = (dispatch other;; ret n0)
      (set_cmd (mkCmdRegs (command r)
                  (take (Z.to_nat (i - 1)) (cmdData r) ++ ds
                   ++ drop (Z.to_nat (i - 1) + length ds) (cmdData r))
                  (nDataBytes r) (nDataBytes r) false true (eventDataReady r)
                  (cmdCountGLB r) (cmdCount' r) (cmdStartTime r))
               (set_hwk (hwk s + length (withGaps gs (dataFrames i ds))) s)).
Proof.
  induction ds as [|d ds IH]; intros gs i s Hne HF Hi Hlen Haw Hdone HL Hdc Hn Hn16 Ht;
    [done|]. cbv zeta.
  apply Forall_cons in HF as [Hd HF]. cbn [length] in Hlen, Hn.
  assert (Haset : aset (cmdData (cmd s)) (i - 1) d
                  = take (Z.to_nat (i - 1)) (cmdData (cmd s)) ++ d
                    :: drop (S (Z.to_nat (i - 1))) (cmdData (cmd s))).
  { unfold aset. rewrite bool_decide_eq_true_2 by lia.
    apply insert_take_drop. lia. }
  set (g := hd 0%nat gs).
  change (withGaps gs (dataFrames i (d :: ds)))
    with (replicate g None ++ Some (tripled (frameOf d (addressOf i)))
            :: withGaps (tl gs) (dataFrames (i + 1) ds)) in *.
  rewrite length_app, length_replicate in *. cbn [length] in Ht |- *.
  rewrite runPasses_waiting by (done || (intros j Hj; apply Ht; lia)).
  set (sa := set_hwk (hwk s + g) s).
  assert (Hcmda : cmd sa = cmd s) by (by destruct s).
  assert (Hka : hwk sa = (hwk s + g)%nat) by (by destruct s).
  pose proof (cmdTimeout_in_time wide env n0 sa ltac:(by rewrite Hcmda)
                ltac:(rewrite Hcmda, Hka; apply Ht; lia)) as Eto.
  set (s0 := set_hwk (S (hwk sa)) sa) in *.
  assert (Hcmd0 : cmd s0 = cmd s) by (by destruct s).
  pose proof (commandFrame_data env other d i s0 ltac:(done) ltac:(lia)
                ltac:(by rewrite Hcmd0) ltac:(by rewrite Hcmd0)
                ltac:(by rewrite Hcmd0)) as Hstep.
  cbv zeta in Hstep. rewrite Hcmd0 in Hstep. rewrite int_id in Hstep by lia.
  destruct ds as [|d' ds].
  - cbn [dataFrames withGaps length] in *.
    rewrite (runPasses_last _ _ _ _ _ _ _ Eto).
    unfold mbind at 1, M_bind at 1. rewrite Hstep.
    destruct (Z.eqb_spec (dCnt (cmd s) + 1) (nDataBytes (cmd s))); [|lia].
    rewrite Haset. cbn [app]. rewrite !Nat.add_1_r.
    replace (dCnt (cmd s) + 1) with (nDataBytes (cmd s)) by lia.
    subst s0 sa. destruct s as [k ? ? ? ? ? ? ? ? ? r]. unfold set_cmd, set_hwk.
    cbn [hwk hwm log out tofA tofB outputTOF tkrData tkr trg cmd].
    replace (k + S g)%nat with (S (k + g)) by lia. reflexivity.
  - destruct (Z.eqb_spec (dCnt (cmd s) + 1) (nDataBytes (cmd s)));
      [cbn [length] in *; lia|].
    rewrite (runPasses_frame _ _ _ _ _ _ _ _ _ Eto Hstep).
    set (s1 := set_cmd _ s0).
    assert (Hk1 : hwk s1 = S (hwk s + g)) by (subst s1 s0 sa; by destruct s).
    rewrite (IH (tl gs) (i + 1) s1); subst s1; cbn [cmd set_cmd cmdData dCnt nDataBytes
      awaitingCommand cmdDone command eventDataReady cmdCountGLB cmdCount' cmdStartTime];
      rewrite ?Hcmd0; cbn [cmd set_cmd cmdData dCnt nDataBytes
      awaitingCommand cmdDone command eventDataReady cmdCountGLB cmdCount' cmdStartTime];
      try done; try (cbn [length] in *; lia); try (by rewrite length_aset).
    + set (rest := withGaps (tl gs) (dataFrames (i + 1) (d' :: ds))) in *.
      subst s0 sa. clear IH Hstep Eto Hcmda Hka Hcmd0 Hk1 Ht.
      destruct s as [k ? ? ? ? ? ? ? ? ? r]. unfold set_cmd, set_hwk.
      cbn [hwk hwm log out tofA tofB outputTOF tkrData tkr trg cmd command cmdData
           nDataBytes dCnt awaitingCommand cmdDone eventDataReady cmdCountGLB cmdCount'
           cmdStartTime] in *.
      replace (S (k + g) + length rest)%nat with (k + (g + S (length rest)))%nat by lia.
      do 3 f_equal.
      rewrite Haset. replace (Z.to_nat (i + 1 - 1)) with (S (Z.to_nat (i - 1))) by lia.
      rewrite take_app_ge by (rewrite length_take; lia).
      rewrite length_take, Nat.min_l by lia.
      replace (S (Z.to_nat (i - 1)) - Z.to_nat (i - 1))%nat with 1%nat by lia.
      cbn [take]. rewrite take_0.
      rewrite <- app_assoc. cbn [app]. do 3 f_equal.
      rewrite drop_app_ge by (rewrite length_take; lia).
      rewrite length_take, Nat.min_l by lia.
      cbn [length]. f_equal.
      replace (S (Z.to_nat (i - 1)) + S (length ds) - Z.to_nat (i - 1))%nat
        with (S (S (length ds))) by lia.
      cbn [drop]. rewrite drop_drop. f_equal. lia.
    + set (rest := withGaps (tl gs) (dataFrames (i + 1) (d' :: ds))) in *.
      intros j Hj. rewrite Hk1.
      replace (S (hwk s + g) + j)%nat with (hwk s + (g + S j))%nat by lia.
      apply Ht. lia.
Qed.

(** X10.  A command with data bytes is assembled from its frames.  The
    first frame carries the command code [c] and the number of data bytes,
    the frames that follow carry the data bytes [ds], numbered 1, 2, ...;
    between them the main loop may go round without a command.  When every
    pass up to the one of the last frame reads the clock no later than
    [TIMEOUT] ticks after the first frame was taken (the time-out check
    reads it once per pass), the dispatcher is called, once, after the last
    frame, with [command = c], [nDataBytes] the number of data bytes and
    [ds] at the start of [cmdData]; the rest of [cmdData] is as it was,
    nothing is logged on the way, and no time-out is counted. *)
Theorem command_assembly wide env other (c : Z) (ds : list Z) (g0 : nat)
    (gs : list nat) (n0 : Z) (s : DAQ) :
  0 <= c < 256 -> (0 < length ds < 16)%nat ->
  Forall (fun d => 0 <= d < 256) ds ->
  awaitingCommand (cmd s) = true -> cmdDone (cmd s) = false ->
  Z.of_nat (length (cmdData (cmd s))) = 16 ->
  let start := uint32 (now (poll env (hwk s))) in
  let rest := withGaps gs (dataFrames 1 ds) in
  (forall j, (j < length rest)%nat -> inTime env start (S (hwk s) + j)) ->
  let n := Z.of_nat (length ds) in
  let r := cmd s in
  runPasses wide env other
    (withGaps (g0 :: gs) (tripled (frameOf c (addressOf n)) :: dataFrames 1 ds)) n0 s
  = (dispatch other;; ret n0)
      (set_cmd (mkCmdRegs c (ds ++ drop (length ds) (cmdData r)) n n false true
                  (eventDataReady r) (int (cmdCountGLB r + 1)) (int (cmdCount' r + 1))
                  start)
               (set_hwk (S (hwk s) + length rest) s)).
Proof.
  intros Hc Hlen HF Haw Hdone HL start rest Ht. cbv zeta.
  pose proof (commandFrame_frameOf env other c
                (addressOf (Z.of_nat (length ds))) s Hc) as Hfirst.
  destruct (addressOf_fields (Z.of_nat (length ds)) ltac:(lia)) as (Ha & Haddr & Hcnt).
  specialize (Hfirst Ha). cbv zeta in Hfirst.
  rewrite Haddr, Hcnt, Haw, Hdone in Hfirst.
  cbn [negb Z.eqb Pos.eqb] in Hfirst.
  destruct (Z.eqb_spec (Z.of_nat (length ds)) 0) as [|_]; [lia|].
  cbn [cmd set_cmd cmdDone] in Hfirst.
  cbn [withGaps hd tl]. fold rest.
  rewrite runPasses_idle by done.
  rewrite (runPasses_frame _ _ _ _ _ _ _ _ _ (cmdTimeout_idle wide env n0 s Haw) Hfirst).
  subst rest.
  rewrite runPasses_data;
    cbn [cmd set_cmd set_hwk hwk cmdData dCnt nDataBytes awaitingCommand cmdDone command
         eventDataReady cmdCountGLB cmdCount' cmdStartTime];
    try done; try lia.
  intros ->. cbn in Hlen. lia.
Qed.

Lemma command_assembly_witness :
  runPasses false envQuiet noOther
    [None; Some (tripled (frameOf 0x3B (addressOf 1))); None; None;
     Some (tripled (frameOf 0x01 (addressOf 1)))]
    0 daqReset
  = (dispatch noOther;; ret 0)
      (set_cmd (mkCmdRegs 0x3B ([1] ++ replicate 15 0) 1 1 false true false 1 1 0)
               (set_hwk 4 daqReset)).
Proof.
  refine (command_assembly false envQuiet noOther 0x3B [1] 1 [2%nat] 0 daqReset
            ltac:(lia) _ _ eq_refl eq_refl eq_refl _).
  - cbn. lia.
  - repeat constructor; lia.
  - intros j Hj. split; vm_compute; discriminate.
Defined.

(** A command in progress whose time is up is given up. *)
Lemma cmdTimeout_late wide env n s :
  awaitingCommand (cmd s) = false ->
  0 <= cmdStartTime (cmd s) ->
  cmdStartTime (cmd s) + TIMEOUT < uint32 (now (poll env (hwk s))) ->
  let r := cmd s in
  cmdTimeout wide env n s
  = Ok (int (n + 1),
        set_cmd (mkCmdRegs (command r) (cmdData r) 0 (dCnt r) true false
                   (eventDataReady r) (cmdCountGLB r) (cmdCount' r) (cmdStartTime r))
                (set_hwk (S (hwk s)) s)).
Proof.
  intros H H0 H1. unfold TIMEOUT in *. unfold cmdTimeout, time. munfold.
  rewrite H. cbn [negb]. destruct s as [? ? ? ? ? ? ? ? ? ? r]. cbn in *.
  pose proof (uint32_range (now (poll env hwk0))) as Hr.
  set (t := uint32 _) in *.
  destruct wide.
  - destruct (Z.gtb_spec (t - cmdStartTime r) TIMEOUT); [done | unfold TIMEOUT in *; lia].
  - rewrite (uint32_id (t - cmdStartTime r)) by lia.
    destruct (Z.gtb_spec (t - cmdStartTime r) TIMEOUT); [done | unfold TIMEOUT in *; lia].
Qed.

(** X20.  The time-out of a command.  A command in progress whose next
    frame is taken from the ring more than [TIMEOUT] ticks after its first
    one is given up in that pass: the time-out is counted, and the frame,
    which carries the data byte [d] with the number [j], is taken as the
    first frame of a new command with the code [d] that waits for [j] data
    bytes of its own. *)
Theorem command_timeout_restart wide env other (d j n0 : Z) (s : DAQ) :
  0 <= d < 256 -> 1 <= j < 16 ->
  awaitingCommand (cmd s) = false -> cmdDone (cmd s) = false ->
  0 <= cmdStartTime (cmd s) ->
  cmdStartTime (cmd s) + TIMEOUT < uint32 (now (poll env (hwk s))) ->
  let r := cmd s in
  runPasses wide env other [Some (tripled (frameOf d (addressOf j)))] n0 s
  = Ok (int (n0 + 1),
        set_cmd (mkCmdRegs d (cmdData r) j 0 false false (eventDataReady r)
                   (int (cmdCountGLB r + 1)) (int (cmdCount' r + 1))
                   (uint32 (now (poll env (S (hwk s))))))
                (set_hwk (S (S (hwk s))) s)).
Proof.
  intros Hd Hj Haw Hdone H0 Hlate. cbv zeta.
  cbn [runPasses]. unfold mbind at 1, M_bind at 1.
  rewrite (cmdTimeout_late wide env n0 s Haw H0 Hlate).
  destruct (addressOf_fields j ltac:(lia)) as (Ha & Haddr & Hcnt).
  unfold mbind at 1, M_bind at 1.
  rewrite commandFrame_frameOf by done. cbv zeta.
  rewrite Haddr, Hcnt. cbn [negb Z.eqb Pos.eqb cmd set_cmd awaitingCommand cmdDone].
  destruct (Z.eqb_spec j 0) as [|_]; [lia|].
  destruct s as [k ? ? ? ? ? ? ? ? ? r]. unfold set_cmd, set_hwk.
  cbn [hwk hwm log out tofA tofB outputTOF tkrData tkr trg cmd command cmdData
       nDataBytes dCnt awaitingCommand cmdDone eventDataReady cmdCountGLB cmdCount'
       cmdStartTime]. reflexivity.
Qed.

Lemma command_timeout_restart_witness :
  let env := mkEnv (fun k => mkPoll None (300 * Z.of_nat k)) (fun _ => true) in
  let s := set_cmd (mkCmdRegs 0x3B (replicate 16 0) 1 0 false false false 1 1 0)
                   (set_hwk 1 daqReset) in
  runPasses false env noOther [Some (tripled (frameOf 0x01 (addressOf 1)))] 0 s
  = Ok (1, set_cmd (mkCmdRegs 0x01 (replicate 16 0) 1 0 false false false 2 2 600)
             (set_hwk 3 daqReset)).
Proof.
  intros env s.
  refine (command_timeout_restart false env noOther 0x01 1 0 s
            ltac:(lia) ltac:(lia) eq_refl eq_refl _ _).
  - cbn. lia.
  - vm_compute. reflexivity.
Defined.

(** X11.  While a command waits for its data bytes, a frame for the event
    PSOC whose address byte carries the number 0 (this is what the first
    frame of a command without data looks like) is not taken as a new
    command: [ERR_BAD_BYTE] is logged with the code and the number of data
    bytes of the command in progress (with room in the log the count of
    faults goes up by one and this entry is the new one), and that command
    stays in progress, with nothing else changed. *)
Theorem data_byte_zero_rejected env other (d : Z) (s : DAQ) :
  0 <= d < 256 ->
  awaitingCommand (cmd s) = false -> cmdDone (cmd s) = false ->
  let l' := addError ERR_BAD_BYTE (command (cmd s)) (nDataBytes (cmd s)) (log s) in
  commandFrame env other (tripled (frameOf d (addressOf 0))) s = Ok (tt, set_log l' s)
  /\ (logWf (log s) -> nErrors (log s) < MXERR ->
      nErrors l' = nErrors (log s) + 1
      /\ aget (errors l') (nErrors (log s))
         = Some (mkError ERR_BAD_BYTE (uint8 (command (cmd s)))
                         (uint8 (nDataBytes (cmd s))))
      /\ forall i, i <> nErrors (log s) ->
           aget (errors l') i = aget (errors (log s)) i).
Proof.
  intros Hd Haw Hdone l'. split.
  - rewrite commandFrame_frameOf by (done || (vm_compute; split; discriminate)).
    cbv zeta. rewrite Haw, Hdone. reflexivity.
  - exact (addError_room ERR_BAD_BYTE (command (cmd s)) (nDataBytes (cmd s)) (log s)).
Qed.

Lemma data_byte_zero_rejected_witness :
  let s := set_cmd (mkCmdRegs 0x3B (replicate 16 0) 1 0 false false false 1 1 0)
                   daqReset in
  exists l',
    commandFrame envQuiet noOther (tripled frame3D) s = Ok (tt, set_log l' s)
    /\ nErrors l' = 1
    /\ aget (errors l') 0 = Some (mkError ERR_BAD_BYTE 0x3B 1).
Proof.
  intros s.
  destruct (data_byte_zero_rejected envQuiet noOther 0x3D s ltac:(lia) eq_refl eq_refl)
    as (E & Hrec).
  destruct Hrec as (Hn & Hg & _).
  - split; [reflexivity | simpl; unfold MXERR; lia].
  - simpl. unfold MXERR. lia.
  - eexists. split; [exact E|]. split; [exact Hn | exact Hg].
Defined.

(** X12.  Frames that are not for the event PSOC change nothing but the
    count of command packets: three equal copies that do not start with 'S'
    or do not end with 'W' leave the globals as they are, and three copies
    of a well-formed frame whose address byte names another PSOC only add
    one to [cmdCountGLB], and only when no command is in progress. *)
Theorem foreign_frames_ignored env other (frame : list Z) (d a : Z) (s : DAQ) :
  cmdDone (cmd s) = false ->
  (length frame = 9%nat ->
   aread 0 frame 0 <> 83 \/ aread 0 frame 8 <> 87 ->
   commandFrame env other (tripled frame) s = Ok (tt, s))
  /\ (0 <= d < 256 -> 0 <= a < 256 ->
      uint8 (Z.shiftr (Z.land a 0x3C) 2) <> 0x08 ->
      let r := cmd s in
      commandFrame env other (tripled (frameOf d a)) s
      = Ok (tt, if awaitingCommand r
                then set_cmd (mkCmdRegs (command r) (cmdData r) (nDataBytes r) (dCnt r)
                                (awaitingCommand r) (cmdDone r) (eventDataReady r)
                                (int (cmdCountGLB r + 1)) (cmdCount' r)
                                (cmdStartTime r)) s
                else s)).
Proof.
  intros Hdone. split.
  - intros HL Hbad. unfold commandFrame.
    unfold mbind at 1, M_bind at 1, gets at 1.
    rewrite voteCommand_tripled by done.
    pose proof (aread_tripled frame 0 0 HL ltac:(lia) ltac:(lia)) as E0.
    pose proof (aread_tripled frame 8 0 HL ltac:(lia) ltac:(lia)) as E8.
    change (0 + 9 * 0) with 0 in E0. change (8 + 9 * 0) with 8 in E8.
    rewrite E0, E8.
    assert ((aread 0 frame 0 =? 83) && (aread 0 frame 8 =? 87) = false) as Hf.
    { destruct Hbad as [H | H]; apply Z.eqb_neq in H; rewrite H;
        [done | apply andb_false_r]. }
    cbn [negb andb]. rewrite Hf. munfold. by rewrite set_log_id.
  - intros Hd Ha Haddr. cbv zeta.
    rewrite commandFrame_frameOf by done. cbv zeta.
    apply Z.eqb_neq in Haddr. rewrite Haddr, Hdone. cbn [negb].
    destruct (awaitingCommand (cmd s)); reflexivity.
Qed.

Lemma foreign_frames_ignored_witness :
  commandFrame envQuiet noOther (tripled [88; 48; 55; 50; 48; 32; 120; 121; 87]) daqReset
  = Ok (tt, daqReset)
  /\ commandFrame envQuiet noOther (tripled (frameOf 0x07 0x10)) daqReset
     = Ok (tt, set_cmd (mkCmdRegs 0 (replicate 16 0) 0 0 true false false 1 0 0) daqReset).
Proof.
  destruct (foreign_frames_ignored envQuiet noOther [88; 48; 55; 50; 48; 32; 120; 121; 87]
              0x07 0x10 daqReset eq_refl) as [H1 H2].
  split.
  - apply H1; [reflexivity | left; vm_compute; discriminate].
  - apply H2; [lia | lia | vm_compute; discriminate].
Defined.


(** ** The output stage *)

Lemma triggerEnable_bit (enable : bool) (t : TrgRegs) :
  Z.land (Control_Reg_Trg (triggerEnable enable t)) triggerEnable_Mask
  = if enable then 1 else 0.
Proof.
  unfold triggerEnable, triggerEnable_Mask. cbn [Control_Reg_Trg].
  set (v := uint8 (Z.land (Control_Reg_Trg t) (Z.lnot 1))).
  assert (Hland0 : Z.land v 1 = 0).
  { apply Z.bits_inj'. intros n Hn. rewrite Z.land_spec, Z.bits_0.
    destruct (decide (n = 0)) as [-> | Hne].
    - subst v. unfold uint8. change 256 with (2 ^ 8).
      rewrite Z.mod_pow2_bits_low by lia.
      rewrite Z.land_spec, Z.lnot_spec by lia. cbn.
      by rewrite andb_false_r.
    - replace (Z.testbit 1 n) with false; [apply andb_false_r|].
      symmetry. apply (Z.bits_above_log2 1 n); cbn; lia. }
  destruct enable; [|done].
  by rewrite Z.land_lor_distr_l, Hland0.
Qed.

(** X13.  When there are data to send, the output stage sends one packet:
    the header [DC 00 FF], the length byte, the command code (or [DD] for
    event data), the number of command data bytes, the command data, the
    data, padding and the trailer [FF 00 FF].  The padding makes the packet
    a whole number of 3-byte words.  The length byte is the sum of the two
    counts as a byte.  Afterwards the output buffer is empty, no command is
    in progress, and the trigger has been enabled again if, and only if,
    the data were an event. *)
Theorem output_packet_aligned (s : DAQ) :
  0 < nDataReady (out s) <= Z.of_nat (length (dataOut (out s))) ->
  0 <= nDataBytes (cmd s) <= Z.of_nat (length (cmdData (cmd s))) ->
  let sent := (outputStage s).1 in
  let s' := (outputStage s).2 in
  let n := nDataBytes (cmd s) + nDataReady (out s) in
  let pad := (3 - n mod 3) mod 3 in
  sent = [VAR_HEAD; 0x00; 0xFF; uint8 n;
          if cmdDone (cmd s) then command (cmd s) else 0xDD; nDataBytes (cmd s)]
         ++ take (Z.to_nat (nDataBytes (cmd s))) (cmdData (cmd s))
         ++ payload (out s)
         ++ take (Z.to_nat pad) [0x01; 0x02]
         ++ [0xFF; 0x00; 0xFF]
  /\ Z.of_nat (length sent) = 9 + n + pad
  /\ Z.of_nat (length sent) mod 3 = 0
  /\ nDataReady (out s') = 0
  /\ dataOut (out s') = dataOut (out s)
  /\ cmdDone (cmd s') = false
  /\ eventDataReady (cmd s') = false
  /\ awaitingCommand (cmd s') = cmdDone (cmd s) || awaitingCommand (cmd s)
  /\ (eventDataReady (cmd s) = true -> isTriggerEnabled s' = true)
  /\ (eventDataReady (cmd s) = false -> trg s' = trg s).
Proof.
  intros Hout Hcmd. cbv zeta.
  unfold outputStage. cbv zeta.
  destruct (Z.gtb_spec (nDataReady (out s)) 0) as [_|]; [|lia].
  cbn [orb fst snd].
  set (n := nDataBytes (cmd s) + nDataReady (out s)).
  assert (Hm : 0 <= n mod 3 < 3) by (apply Z.mod_pos_bound; lia).
  assert (Hpad : (if uint16 (3 - n mod 3) =? 3 then 0 else uint16 (3 - n mod 3))
                 = (3 - n mod 3) mod 3).
  { rewrite uint16_id by lia.
    destruct (Z.eqb_spec (3 - n mod 3) 3) as [E|E].
    - rewrite E. reflexivity.
    - by rewrite (Z.mod_small (3 - n mod 3)) by lia. }
  replace (nDataReady (out s) + nDataBytes (cmd s)) with n by (subst n; lia).
  rewrite Hpad.
  set (pad := (3 - n mod 3) mod 3).
  assert (Hp : 0 <= pad < 3) by (apply Z.mod_pos_bound; lia).
  assert (Hlen : Z.of_nat (length
            ([VAR_HEAD; 0x00; 0xFF; uint8 n;
              if negb (cmdDone (cmd s)) then 0xDD else command (cmd s);
              nDataBytes (cmd s)]
             ++ take (Z.to_nat (nDataBytes (cmd s))) (cmdData (cmd s))
             ++ take (Z.to_nat (nDataReady (out s))) (dataOut (out s))
             ++ take (Z.to_nat pad) [0x01; 0x02]
             ++ [0xFF; 0x00; 0xFF])) = 9 + n + pad).
  { rewrite !length_app, !length_take. cbn [length]. subst n. lia. }
  split.
  { unfold payload. by destruct (cmdDone (cmd s)). }
  split; [exact Hlen|].
  split.
  { rewrite Hlen. subst pad.
    replace (9 + n + (3 - n mod 3) mod 3) with (n + (3 - n mod 3) mod 3 + 3 * 3) by lia.
    rewrite Z.mod_add by lia.
    rewrite Zplus_mod_idemp_r.
    replace (n + (3 - n mod 3)) with (3 + (n - n mod 3)) by lia.
    rewrite (Z.div_mod n 3) at 1 by lia.
    replace (3 + (3 * (n / 3) + n mod 3 - n mod 3)) with ((1 + n / 3) * 3) by lia.
    apply Z.mod_mul. lia. }
  destruct s as [k m lg o tA tB oT td tk tg [c0 cd nb dc aw cdn edr glb cc cst]].
  cbn [cmd out trg set_out set_trg set_cmd eventDataReady cmdDone awaitingCommand
       nDataReady dataOut] in *.
  unfold isTriggerEnabled.
  destruct edr; cbn [cmd out trg set_out set_trg set_cmd eventDataReady cmdDone
                     awaitingCommand nDataReady dataOut].
  - repeat (split; [try done; by destruct cdn|]).
    split; [|done]. intros _.
    by rewrite (triggerEnable_bit true tg).
  - repeat (split; [try done; by destruct cdn|]).
    split; done.
Qed.

Lemma output_packet_aligned_witness :
  let s := set_out (mkOut (aset (dataOut (out daqReset)) 0 1) 1)
                   (withCommand 0x07 daqReset) in
  (outputStage s).1 = [0xDC; 0x00; 0xFF; 1; 0x07; 0; 1; 0x01; 0x02; 0xFF; 0x00; 0xFF]
  /\ Z.of_nat (length (outputStage s).1) mod 3 = 0.
Proof.
  intros s.
  assert (H1 : 0 < nDataReady (out s) <= Z.of_nat (length (dataOut (out s))))
    by (vm_compute; split; [reflexivity | discriminate]).
  assert (H2 : 0 <= nDataBytes (cmd s) <= Z.of_nat (length (cmdData (cmd s))))
    by (vm_compute; split; discriminate).
  pose proof (output_packet_aligned s H1 H2) as H. cbv zeta in H.
  destruct H as (Hs & _ & Hm & _).
  split; [exact Hs | exact Hm].
Defined.

(** ** The GO interrupt *)

Lemma isrGO1_disabled status now s latch :
  isTriggerEnabled s = false ->
  isrGO1 status now s latch
  = (set_trg (mkTrgRegs (Control_Reg_Trg (trg s)) (triggered (trg s)) (cntGO (trg s))
                        (uint32 (cntGO1 (trg s) + 1))) s,
     latch).
Proof. intros H. unfold isrGO1. by rewrite H. Qed.

Lemma isrGO1_enabled status now s latch :
  isTriggerEnabled s = true ->
  isrGO1 status now s latch
  = (set_trg (mkTrgRegs (Control_Reg_Trg (triggerEnable false (trg s))) true
                        (uint32 (cntGO (trg s) + 1)) (uint32 (cntGO1 (trg s) + 1))) s,
     (uint8 status, uint32 now)).
Proof. intros H. unfold isrGO1. rewrite H. by destruct s. Qed.

Lemma runGO_disabled gos : forall s latch,
  isTriggerEnabled s = false -> 0 <= cntGO1 (trg s) < 4294967296 ->
  runGO gos s latch
  = (set_trg (mkTrgRegs (Control_Reg_Trg (trg s)) (triggered (trg s)) (cntGO (trg s))
                        (uint32 (cntGO1 (trg s) + Z.of_nat (length gos)))) s,
     latch).
Proof.
  unfold runGO.
  induction gos as [|g gos IH]; intros s latch Hdis Hc.
  - cbn [foldl length]. rewrite Z.add_0_r, uint32_id by done. by destruct s as [? ? ? ? ? ? ? ? ? [] ?].
  - cbn [foldl fst snd length]. rewrite isrGO1_disabled by done.
    rewrite IH; cbn [trg set_trg Control_Reg_Trg triggered cntGO cntGO1].
    + assert (uint32 (uint32 (cntGO1 (trg s) + 1) + Z.of_nat (length gos))
              = uint32 (cntGO1 (trg s) + Z.of_nat (S (length gos)))) as ->.
      { unfold uint32. rewrite Zplus_mod_idemp_l. f_equal. lia. }
      by destruct s.
    + by destruct s.
    + apply uint32_range.
Qed.

(** X14.  Dead time.  When GO signals come in one after the other with the
    trigger enabled at the first, only the first is accepted: it disables
    the trigger, sets the pending-trigger flag, adds one to [cntGO] and
    latches the trigger status and the time; the others leave all that as
    it is.  Every GO signal, accepted or not, adds one to [cntGO1].  With
    the trigger disabled at the first, none is accepted. *)
Theorem go_dead_time (g : Z * Z) (gos : list (Z * Z)) (s : DAQ) (latch : Z * Z) :
  let s' := (runGO (g :: gos) s latch).1 in
  let latch' := (runGO (g :: gos) s latch).2 in
  isTriggerEnabled s' = false
  /\ cntGO1 (trg s') = uint32 (cntGO1 (trg s) + 1 + Z.of_nat (length gos))
  /\ (isTriggerEnabled s = true ->
      triggered (trg s') = true
      /\ cntGO (trg s') = uint32 (cntGO (trg s) + 1)
      /\ latch' = (uint8 g.1, uint32 g.2))
  /\ (isTriggerEnabled s = false ->
      triggered (trg s') = triggered (trg s)
      /\ cntGO (trg s') = cntGO (trg s)
      /\ latch' = latch).
Proof.
  cbv zeta.
  assert (Hstep : forall s1 l1, isrGO1 g.1 g.2 s latch = (s1, l1) ->
            runGO (g :: gos) s latch = runGO gos s1 l1).
  { intros s1 l1 E. unfold runGO. cbn [foldl fst snd]. by rewrite E. }
  destruct (isTriggerEnabled s) eqn:Hen.
  - rewrite (Hstep _ _ (isrGO1_enabled g.1 g.2 s latch Hen)). clear Hstep.
    rewrite runGO_disabled; cbn [fst snd trg set_trg Control_Reg_Trg triggered cntGO cntGO1].
    + destruct s as [k m lg o tA tB oT td tk tg cm].
      cbn [fst snd trg set_trg Control_Reg_Trg triggered cntGO cntGO1].
      split.
      { unfold isTriggerEnabled, set_trg. cbn [trg Control_Reg_Trg].
        by rewrite (triggerEnable_bit false tg). }
      split.
      { unfold uint32. rewrite Zplus_mod_idemp_l. done. }
      split; [|done]. intros _. done.
    + destruct s. unfold isTriggerEnabled, set_trg. cbn [trg Control_Reg_Trg].
      by rewrite (triggerEnable_bit false).
    + destruct s. cbn. apply uint32_range.
  - rewrite (Hstep _ _ (isrGO1_disabled g.1 g.2 s latch Hen)). clear Hstep.
    rewrite runGO_disabled; cbn [fst snd trg set_trg Control_Reg_Trg triggered cntGO cntGO1].
    + destruct s as [k m lg o tA tB oT td tk tg cm].
      cbn [fst snd trg set_trg Control_Reg_Trg triggered cntGO cntGO1].
      split; [exact Hen|].
      split.
      { unfold uint32. rewrite Zplus_mod_idemp_l. done. }
      split; [done|]. done.
    + destruct s. exact Hen.
    + destruct s. cbn. apply uint32_range.
Qed.


(** ** The event record *)

Lemma set_out_set_out o1 o2 s : set_out o1 (set_out o2 s) = set_out o1 s.
Proof. by destruct s. Qed.

Lemma set_out_id s : set_out (out s) s = s.
Proof. by destruct s. Qed.

Lemma bufHolds_put acc s0 s v :
  bufHolds acc s0 s -> Z.of_nat (length acc) < MAX_DATA_OUT ->
  forall n,
  bufHolds (acc ++ [uint8 v]) s0
    (set_out (mkOut (aset (dataOut (out s)) (Z.of_nat (length acc)) (uint8 v)) n) s).
Proof.
  intros (HL & Ha & Ht & Hf) Hlt n. unfold bufHolds, MAX_DATA_OUT in *.
  destruct s as [k m lg [d nr] tA tB oT td tk tg cm]. cbn [out set_out dataOut] in *.
  rewrite length_aset, length_app. cbn [length].
  split; [done|]. split; [lia|]. split; [|done].
  replace (length acc + 1)%nat with (Z.to_nat (Z.of_nat (length acc) + 1)) by lia.
  rewrite take_aset_snoc by lia. by rewrite Nat2Z.id, Ht.
Qed.

Lemma putOut_holds acc s0 v :
  Z.of_nat (length acc) < MAX_DATA_OUT ->
  total (outHolds acc s0) (putOut v) (fun _ => outHolds (acc ++ [uint8 v]) s0).
Proof.
  intros Hlt s [Hb Hn]. pose proof Hb as (HL & _).
  unfold MAX_DATA_OUT in *. rewrite uint8_id in Hn by lia.
  unfold putOut, setNDataReady, setDataOut. munfold.
  rewrite Hn, astore_Some by lia.
  eexists _, _. split; [reflexivity|].
  cbn [out set_out dataOut nDataReady]. rewrite set_out_set_out.
  split.
  - by apply bufHolds_put.
  - cbn [out set_out nDataReady]. rewrite length_app. cbn [length].
    f_equal. lia.
Qed.

Lemma putOuts_holds vs : forall acc s0,
  Z.of_nat (length acc) + Z.of_nat (length vs) <= MAX_DATA_OUT ->
  total (outHolds acc s0) (foldr (fun v m => putOut v;; m) (ret tt) vs)
        (fun _ => outHolds (acc ++ (uint8 <$> vs)) s0).
Proof.
  induction vs as [|v vs IH]; intros acc s0 Hlen.
  - cbn. apply total_ret. intros s. by rewrite app_nil_r.
  - cbn [foldr length] in *.
    apply (total_bind _ _ (fun _ => outHolds (acc ++ [uint8 v]) s0)).
    + apply putOut_holds. lia.
    + intros []. eapply total_weaken.
      * apply (IH (acc ++ [uint8 v]) s0). rewrite length_app. cbn [length]. lia.
      * done.
      * intros [] s. cbn [fmap list_fmap]. by rewrite <- app_assoc.
Qed.

Lemma storeFrom_holds vs : forall acc s0,
  Z.of_nat (length acc) + Z.of_nat (length vs) <= MAX_DATA_OUT ->
  total (bufHolds acc s0) (storeFrom (Z.of_nat (length acc)) vs)
        (fun _ => bufHolds (acc ++ (uint8 <$> vs)) s0).
Proof.
  induction vs as [|v vs IH]; intros acc s0 Hlen.
  - cbn. apply total_ret. intros s. by rewrite app_nil_r.
  - cbn [storeFrom length] in *.
    apply (total_bind _ _ (fun _ => bufHolds (acc ++ [uint8 v]) s0)).
    + intros s Hb. pose proof Hb as (HL & _).
      unfold setDataOut. munfold. unfold MAX_DATA_OUT in *.
      rewrite astore_Some by lia.
      eexists _, _. split; [reflexivity|].
      apply bufHolds_put; [done | unfold MAX_DATA_OUT; lia].
    + intros []. eapply total_weaken.
      * replace (Z.of_nat (length acc) + 1)
          with (Z.of_nat (length (acc ++ [uint8 v])))
          by (rewrite length_app; cbn [length]; lia).
        apply (IH (acc ++ [uint8 v]) s0). rewrite length_app. cbn [length]. lia.
      * done.
      * intros [] s. cbn [fmap list_fmap]. by rewrite <- app_assoc.
Qed.

Lemma hitBytes_holds l : forall k i acc s0,
  0 <= i -> i + Z.of_nat k <= Z.of_nat (length l) ->
  Z.of_nat (length acc) + Z.of_nat k <= MAX_DATA_OUT ->
  total (outHolds acc s0)
        (forM k i (fun i => v ← checked (aget l i); putOut v))
        (fun _ => outHolds (acc ++ (uint8 <$> take k (drop (Z.to_nat i) l))) s0).
Proof.
  induction k as [|k IH]; intros i acc s0 Hi Hl Hlen.
  - cbn. apply total_ret. intros s. by rewrite app_nil_r.
  - cbn [forM].
    destruct (aget_is_Some l i ltac:(lia)) as [v Hv].
    assert (Hd : drop (Z.to_nat i) l = v :: drop (Z.to_nat (i + 1)) l).
    { rewrite aget_lookup in Hv by lia.
      rewrite (drop_S _ _ _ Hv). f_equal. f_equal. lia. }
    apply (total_bind _ _ (fun _ => outHolds (acc ++ [uint8 v]) s0)).
    + apply (total_bind _ _ (fun v' s => v' = v /\ outHolds acc s0 s)).
      * apply total_checked. intros s Hs. by exists v.
      * intros v'. apply total_assume. intros ->. apply putOut_holds. lia.
    + intros []. eapply total_weaken.
      * apply (IH (i + 1) (acc ++ [uint8 v]) s0); [lia | lia |].
        rewrite length_app. cbn [length]. lia.
      * done.
      * intros [] s. rewrite Hd. cbn [take fmap list_fmap].
        by rewrite <- app_assoc.
Qed.

Lemma withBoards_id s : withBoards (boardHits (tkrData s)) s = s.
Proof. by destruct s as [? ? ? ? ? ? ? [] ? ? ?]. Qed.

Lemma withBoards_withBoards bh1 bh2 s :
  withBoards bh1 (withBoards bh2 s) = withBoards bh1 s.
Proof. by destruct s. Qed.

Lemma outHolds_frame (g : DAQ -> DAQ) acc s0 s :
  (forall o s, set_out o (g s) = g (set_out o s)) ->
  (forall s, out (g s) = out s) ->
  outHolds acc s0 s -> outHolds acc (g s0) (g s).
Proof.
  intros Hc Ho [(HL & Ha & Ht & Hf) Hn]. unfold outHolds, bufHolds.
  rewrite !Ho, Hc, Hf. done.
Qed.

Lemma outHolds_rest acc s0 s : outHolds acc s0 s -> set_out (out s0) s = s0.
Proof. by intros [(_ & _ & _ & Hf) _]. Qed.

Lemma outHolds_tkrData acc s0 s : outHolds acc s0 s -> tkrData s = tkrData s0.
Proof. intros H. apply outHolds_rest in H. rewrite <- H. by destruct s. Qed.

Lemma outHolds_log acc s0 s : outHolds acc s0 s -> log s = log s0.
Proof. intros H. apply outHolds_rest in H. rewrite <- H. by destruct s. Qed.

Lemma length_boardBytes brd b :
  boardReady b ->
  Z.of_nat (length (boardBytes brd b))
  = 2 + match hitList b with Some _ => nBytes b | None => 5 end.
Proof.
  intros [Hn Hl]. unfold boardBytes. destruct (hitList b) as [l|].
  - cbn [length]. rewrite length_fmap, length_take. lia.
  - cbn [length]. lia.
Qed.

(** One pass of the loop over the boards, for a board that fits. *)
Lemma putBoard_fits brd b acc s0 :
  aget (boardHits (tkrData s0)) brd = Some b -> boardReady b ->
  Z.of_nat (length (acc ++ boardBytes brd b)) + 3 <= MAX_DATA_OUT ->
  total (outHolds acc s0) (putBoard brd)
        (fun r s => r = true
                    /\ outHolds (acc ++ boardBytes brd b)
                         (withBoards (sentBoards 1 brd (boardHits (tkrData s0))) s0) s).
Proof.
  intros Hb Hready Hlen.
  pose proof (length_boardBytes brd b Hready) as Hsize.
  pose proof Hready as [Hn Hl].
  rewrite length_app in Hlen. unfold MAX_DATA_OUT in *.
  assert (Hsent : sentBoards 1 brd (boardHits (tkrData s0))
                  = match hitList b with
                    | Some l => aset (boardHits (tkrData s0)) brd (mkBoard 0 (Some l))
                    | None => boardHits (tkrData s0)
                    end).
  { unfold sentBoards. cbn [for_loop]. rewrite Hb. by destruct b as [? [?|]]. }
  rewrite Hsent. clear Hsent.
  unfold putBoard.
  apply (total_bind _ _ (fun b' s => b' = b /\ outHolds acc s0 s)).
  { intros s Hs. rewrite getBoard_Ok with (b := b)
      by (by rewrite (outHolds_tkrData _ _ _ Hs)).
    eexists _, _. split; [reflexivity|]. done. }
  intros b'. apply total_assume. intros ->.
  apply (total_bind _ _ (fun n s => n = Z.of_nat (length acc) /\ outHolds acc s0 s)).
  { apply total_gets. intros s Hs. split; [|done].
    destruct Hs as [_ ->]. apply uint8_id. lia. }
  intros n. apply total_assume. intros ->.
  assert (Hguard : (Z.of_nat (length acc) >? int (256 - int (5 + nBytes b))) = false).
  { rewrite !int_id by (rewrite ?int_id; lia).
    destruct (Z.gtb_spec (Z.of_nat (length acc)) (256 - (5 + nBytes b))); [|done].
    destruct (hitList b); lia. }
  unfold MAX_DATA_OUT. rewrite Hguard.
  apply (total_bind _ _ (fun _ => outHolds (acc ++ [uint8 brd]) s0));
    [apply putOut_holds; unfold MAX_DATA_OUT; lia|]. intros [].
  apply (total_bind _ _ (fun _ => outHolds (acc ++ boardBytes brd b)
           (withBoards match hitList b with
                       | Some l => aset (boardHits (tkrData s0)) brd (mkBoard 0 (Some l))
                       | None => boardHits (tkrData s0)
                       end s0)));
    [|intros []; by apply total_ret].
  unfold boardBytes in *. destruct (hitList b) as [l|] eqn:Hhl.
  - cbn [length] in Hsize, Hlen.
    apply (total_bind _ _ (fun _ => outHolds ((acc ++ [uint8 brd]) ++ [uint8 (nBytes b)]) s0)).
    { apply putOut_holds. rewrite length_app. cbn [length]. unfold MAX_DATA_OUT. lia. }
    intros [].
    apply (total_bind _ _ (fun _ => outHolds
             (((acc ++ [uint8 brd]) ++ [uint8 (nBytes b)])
              ++ (uint8 <$> take (Z.to_nat (nBytes b)) (drop (Z.to_nat 0) l))) s0)).
    { apply hitBytes_holds; [lia | lia |].
      rewrite !length_app. cbn [length]. unfold MAX_DATA_OUT. lia. }
    intros []. intros s Hs.
    rewrite (setBoardNBytes_Ok brd 0 b) by (by rewrite (outHolds_tkrData _ _ _ Hs)).
    eexists _, _. split; [reflexivity|].
    rewrite Hhl. change (uint8 0) with 0.
    rewrite (outHolds_tkrData _ _ _ Hs).
    change (set_tkrData _ s)
      with ((fun s' => set_tkrData
               (mkTkrData (triggerCount (tkrData s0)) (cmdCount (tkrData s0))
                  (trgPattern (tkrData s0)) (nTkrBoards (tkrData s0))
                  (aset (boardHits (tkrData s0)) brd (mkBoard 0 (Some l)))) s') s).
    change (withBoards _ s0)
      with ((fun s' => set_tkrData
               (mkTkrData (triggerCount (tkrData s0)) (cmdCount (tkrData s0))
                  (trgPattern (tkrData s0)) (nTkrBoards (tkrData s0))
                  (aset (boardHits (tkrData s0)) brd (mkBoard 0 (Some l)))) s') s0).
    apply outHolds_frame; [by intros o []| by intros []|].
    rewrite <- !app_assoc in Hs. cbn [app drop Z.to_nat] in Hs. exact Hs.
  - rewrite withBoards_id. cbn [length] in Hlen.
    assert (Hput : forall a v, Z.of_nat (length a) < 256 ->
              total (outHolds a s0) (putOut v) (fun _ => outHolds (a ++ [uint8 v]) s0))
      by (intros; by apply putOut_holds).
    eapply total_bind; [apply Hput; rewrite ?length_app; cbn [length]; lia|]. intros [].
    eapply total_bind; [apply Hput; rewrite ?length_app; cbn [length]; lia|]. intros [].
    eapply total_bind; [apply Hput; rewrite ?length_app; cbn [length]; lia|]. intros [].
    eapply total_bind; [apply Hput; rewrite ?length_app; cbn [length]; lia|]. intros [].
    eapply total_bind; [apply Hput; rewrite ?length_app; cbn [length]; lia|]. intros [].
    intros s Hs.
    assert (Hroom : Z.of_nat (length ((((((acc ++ [uint8 brd]) ++ [uint8 5]) ++ [uint8 231])
                       ++ [uint8 brd]) ++ [uint8 0]) ++ [uint8 7])) < 256)
      by (rewrite !length_app; cbn [length]; lia).
    destruct (Hput _ 0x30 Hroom s Hs) as ([] & s' & E & Hs').
    exists tt, s'. split; [exact E|].
    rewrite <- !app_assoc in Hs'. exact Hs'.
Qed.

Lemma aread_take_prefix (acc d : list Z) (i : Z) :
  take (length acc) d = acc -> 0 <= i < Z.of_nat (length acc) ->
  aread 0 d i = aread 0 acc i.
Proof.
  intros Ht Hi. unfold aread. rewrite !aget_lookup by lia.
  rewrite <- (lookup_take_lt d (length acc)) by lia. by rewrite Ht.
Qed.

(** One pass of the loop over the boards, for a board that does not fit. *)
Lemma putBoard_too_big brd b acc s0 :
  aget (boardHits (tkrData s0)) brd = Some b -> 0 <= nBytes b < 256 ->
  10 < Z.of_nat (length acc) < MAX_DATA_OUT ->
  MAX_DATA_OUT < Z.of_nat (length acc) + 5 + nBytes b ->
  total (outHolds acc s0) (putBoard brd)
        (fun r s => r = false
                    /\ outHolds acc
                         (set_log (addError ERR_EVT_TOO_BIG (aread 0 acc 6)
                                     (aread 0 acc 10) (log s0)) s0) s).
Proof.
  intros Hb Hn Hacc Hbig. unfold MAX_DATA_OUT in *.
  unfold putBoard.
  apply (total_bind _ _ (fun b' s => b' = b /\ outHolds acc s0 s)).
  { intros s Hs. rewrite getBoard_Ok with (b := b)
      by (by rewrite (outHolds_tkrData _ _ _ Hs)).
    eexists _, _. split; [reflexivity|]. done. }
  intros b'. apply total_assume. intros ->.
  apply (total_bind _ _ (fun n s => n = Z.of_nat (length acc) /\ outHolds acc s0 s)).
  { apply total_gets. intros s Hs. split; [|done].
    destruct Hs as [_ ->]. apply uint8_id. lia. }
  intros n. apply total_assume. intros ->.
  assert (Hguard : (Z.of_nat (length acc) >? int (256 - int (5 + nBytes b))) = true).
  { rewrite !int_id by (rewrite ?int_id; lia).
    destruct (Z.gtb_spec (Z.of_nat (length acc)) (256 - (5 + nBytes b))); [done | lia]. }
  unfold MAX_DATA_OUT. rewrite Hguard.
  apply (total_bind _ _ (fun d6 s => d6 = aread 0 acc 6 /\ outHolds acc s0 s)).
  { apply total_gets. intros s Hs. split; [|done].
    destruct Hs as [(_ & _ & Ht & _) _]. apply aread_take_prefix; [done | lia]. }
  intros d6. apply total_assume. intros ->.
  apply (total_bind _ _ (fun d10 s => d10 = aread 0 acc 10 /\ outHolds acc s0 s)).
  { apply total_gets. intros s Hs. split; [|done].
    destruct Hs as [(_ & _ & Ht & _) _]. apply aread_take_prefix; [done | lia]. }
  intros d10. apply total_assume. intros ->.
  apply (total_bind _ _ (fun _ => outHolds acc
           (set_log (addError ERR_EVT_TOO_BIG (aread 0 acc 6) (aread 0 acc 10) (log s0))
                    s0))).
  2:{ intros []. apply total_ret. intros s Hs. split; [done | exact Hs]. }
  unfold logError. apply total_modify. intros s Hs.
  rewrite (outHolds_log _ _ _ Hs).
  change (set_log ?l s) with ((fun s' => set_log l s') s).
  change (set_log ?l s0) with ((fun s' => set_log l s') s0).
  apply outHolds_frame; [by intros o [] | by intros [] | done].
Qed.

Lemma sentBoards_other n : forall brd bh i,
  i < brd -> aget (sentBoards n brd bh) i = aget bh i.
Proof.
  unfold sentBoards.
  induction n as [|n IH]; intros brd bh i Hi; [done|].
  cbn [for_loop]. rewrite IH by lia.
  destruct (aget bh brd) as [[? [l|]]|]; [|done|done].
  apply aget_aset_ne. lia.
Qed.

Lemma sentBoards_later brd bh i :
  brd < i -> aget (sentBoards 1 brd bh) i = aget bh i.
Proof.
  intros Hi. unfold sentBoards. cbn [for_loop].
  destruct (aget bh brd) as [[? [l|]]|]; [|done|done].
  apply aget_aset_ne. lia.
Qed.

Lemma boardsBytes_ext n : forall brd bh bh',
  (forall i, brd <= i < brd + Z.of_nat n -> aget bh' i = aget bh i) ->
  boardsBytes n brd bh' = boardsBytes n brd bh.
Proof.
  induction n as [|n IH]; intros brd bh bh' H; [done|].
  cbn [boardsBytes]. unfold aread. rewrite (H brd) by lia.
  f_equal. apply IH. intros i Hi. apply H. lia.
Qed.

(** The loop over the boards: [k] boards are copied; either these are all,
    or the next one does not fit, which ends the loop. *)
Lemma putBoards_prefix k : forall n brd acc s0,
  (k <= n)%nat -> 0 <= brd ->
  (forall i, brd <= i < brd + Z.of_nat k ->
     exists b, aget (boardHits (tkrData s0)) i = Some b /\ boardReady b) ->
  Z.of_nat (length (acc ++ boardsBytes k brd (boardHits (tkrData s0)))) + 3
    <= MAX_DATA_OUT ->
  ((k < n)%nat ->
   10 < Z.of_nat (length acc)
   /\ exists b, aget (boardHits (tkrData s0)) (brd + Z.of_nat k) = Some b
                /\ 0 <= nBytes b < 256
                /\ MAX_DATA_OUT
                   < Z.of_nat (length (acc ++ boardsBytes k brd (boardHits (tkrData s0))))
                     + 5 + nBytes b) ->
  total (outHolds acc s0) (putBoards n brd)
        (fun _ => outHolds (acc ++ boardsBytes k brd (boardHits (tkrData s0)))
                    ((if decide (k < n)%nat
                      then set_log (addError ERR_EVT_TOO_BIG (aread 0 acc 6)
                                      (aread 0 acc 10) (log s0))
                      else id)
                       (withBoards (sentBoards k brd (boardHits (tkrData s0))) s0))).
Proof.
  induction k as [|k IH]; intros n brd acc s0 Hkn Hbrd Hready Hfit Hbig.
  - cbn [boardsBytes sentBoards for_loop] in *. rewrite app_nil_r in *.
    rewrite withBoards_id.
    destruct n as [|n].
    + rewrite decide_False by lia. cbn [putBoards]. by apply total_ret.
    + rewrite decide_True by lia. cbn [putBoards].
      destruct (Hbig ltac:(lia)) as (Hacc & b & Hb & Hn & Hover).
      rewrite Z.add_0_r in Hb.
      eapply total_bind.
      * apply (putBoard_too_big brd b acc s0 Hb Hn); unfold MAX_DATA_OUT in *; lia.
      * intros r. apply total_assume. intros ->. by apply total_ret.
  - destruct n as [|n]; [lia|]. cbn [putBoards].
    destruct (Hready brd ltac:(lia)) as (b & Hb & Hrb).
    assert (Hbytes : boardsBytes (S k) brd (boardHits (tkrData s0))
                     = boardBytes brd b
                       ++ boardsBytes k (brd + 1) (boardHits (tkrData s0))).
    { cbn [boardsBytes]. by rewrite (aread_aget _ _ _ _ Hb). }
    rewrite Hbytes in *. rewrite app_assoc in *.
    set (s1 := withBoards (sentBoards 1 brd (boardHits (tkrData s0))) s0).
    assert (Hbh1 : boardHits (tkrData s1) = sentBoards 1 brd (boardHits (tkrData s0)))
      by (subst s1; by destruct s0).
    assert (Hlog1 : log s1 = log s0) by (subst s1; by destruct s0).
    assert (Hsame : forall j, brd < j ->
              aget (boardHits (tkrData s1)) j = aget (boardHits (tkrData s0)) j).
    { intros j Hj. rewrite Hbh1. by apply sentBoards_later. }
    assert (Hbb : boardsBytes k (brd + 1) (boardHits (tkrData s1))
                  = boardsBytes k (brd + 1) (boardHits (tkrData s0))).
    { apply boardsBytes_ext. intros i Hi. apply Hsame. lia. }
    eapply total_bind.
    { apply (putBoard_fits brd b acc s0 Hb Hrb).
      rewrite length_app in Hfit. lia. }
    intros r. apply total_assume. intros ->. fold s1.
    eapply total_weaken.
    + apply (IH n (brd + 1) (acc ++ boardBytes brd b) s1); [lia | lia | | |].
      * intros i Hi. rewrite Hsame by lia. apply Hready. lia.
      * by rewrite Hbb.
      * intros Hlt. destruct (Hbig ltac:(lia)) as (Hacc & b' & Hb' & Hn' & Hover).
        split; [rewrite length_app; lia|].
        exists b'. rewrite Hsame by lia.
        split; [rewrite <- Hb'; f_equal; lia|]. split; [done|]. by rewrite Hbb.
    + done.
    + intros [] s. rewrite Hbb, Hlog1, Hbh1.
      assert (Hsent : sentBoards k (brd + 1) (sentBoards 1 brd (boardHits (tkrData s0)))
                      = sentBoards (S k) brd (boardHits (tkrData s0))) by reflexivity.
      rewrite Hsent. subst s1. rewrite withBoards_withBoards.
      assert (Ha6 : forall j, 0 <= j < Z.of_nat (length acc) ->
                aread 0 (acc ++ boardBytes brd b) j = aread 0 acc j).
      { intros j Hj. unfold aread. rewrite !aget_lookup by lia.
        by rewrite lookup_app_l by lia. }
      destruct (decide (k < n)%nat), (decide (S k < S n)%nat); try lia; [|done].
      destruct (Hbig ltac:(lia)) as (Hacc & _).
      by rewrite !Ha6 by lia.
Qed.

Lemma putBoard_header_bytes e idx c s :
  aread 0 (uint8 <$> eventHeader e idx c s) 6 = uint8 (byte32 (cntGO (trg s)) 0)
  /\ aread 0 (uint8 <$> eventHeader e idx c s) 10 = uint8 (byte32 (timeStampSave e) 0).
Proof. split; reflexivity. Qed.

(** The event builder, when [k] boards are copied. *)
Lemma buildEvent_content e idx c s (k : nat) :
  let bh := boardHits (tkrData s) in
  let nb := Z.to_nat (nTkrBoards (tkrData s)) in
  let hdr := uint8 <$> eventHeader e idx c s in
  let body := boardsBytes k 0 bh in
  Z.of_nat (length (dataOut (out s))) = MAX_DATA_OUT ->
  (k <= nb)%nat ->
  (forall i, 0 <= i < Z.of_nat k -> exists b, aget bh i = Some b /\ boardReady b) ->
  Z.of_nat (length (hdr ++ body ++ trailer)) <= MAX_DATA_OUT ->
  ((k < nb)%nat ->
   exists b, aget bh (Z.of_nat k) = Some b /\ 0 <= nBytes b < 256
             /\ MAX_DATA_OUT < Z.of_nat (length (hdr ++ body)) + 5 + nBytes b) ->
  exists s',
    buildEvent e idx c s = Ok (tt, s')
    /\ outHolds (hdr ++ body ++ trailer)
         (eventDone
            ((if decide (k < nb)%nat
              then set_log (addError ERR_EVT_TOO_BIG (byte32 (cntGO (trg s)) 0)
                              (byte32 (timeStampSave e) 0) (log s))
              else id)
               (withBoards (sentBoards k 0 bh) s))) s'.
Proof.
  intros bh nb hdr body HL Hk Hready Hlen Hbig.
  assert (Hh : length hdr = 52%nat)
    by (subst hdr; by rewrite length_fmap, length_eventHeader).
  rewrite !length_app in Hlen. cbn [length trailer] in Hlen.
  unfold MAX_DATA_OUT in *.
  set (F := (if decide (k < nb)%nat
             then set_log (addError ERR_EVT_TOO_BIG (byte32 (cntGO (trg s)) 0)
                             (byte32 (timeStampSave e) 0) (log s))
             else id) (withBoards (sentBoards k 0 bh) s)).
  assert (Htot : total (fun s1 => s1 = s) (buildEvent e idx c)
                   (fun _ => outHolds (hdr ++ body ++ trailer) (eventDone F))).
  2:{ destruct (Htot s eq_refl) as ([] & s' & E & Hs'). by exists s'. }
  unfold buildEvent.
  apply (total_bind _ _ (fun h s1 => h = eventHeader e idx c s /\ s1 = s)).
  { apply total_gets. by intros s1 ->. }
  intros h. apply total_assume. intros ->.
  apply (total_bind _ _ (fun _ => bufHolds hdr s)).
  { eapply total_weaken.
    - apply (storeFrom_holds (eventHeader e idx c s) [] s).
      rewrite length_eventHeader. cbn. unfold MAX_DATA_OUT. lia.
    - intros s1 ->. unfold bufHolds, MAX_DATA_OUT. cbn [length].
      split; [done|]. split; [lia|]. split; [by rewrite take_0 | apply set_out_id].
    - by intros [] s1. }
  intros [].
  apply (total_bind _ _ (fun _ => outHolds hdr s)).
  { unfold setNDataReady. munfold. apply total_modify.
    intros s1 (HL1 & Ha1 & Ht1 & Hf1). unfold outHolds, bufHolds.
    destruct s1 as [? ? ? [d nr] ? ? ? ? ? ? ?].
    cbn [out set_out dataOut nDataReady] in *. rewrite Hh. done. }
  intros [].
  apply (total_bind _ _ (fun n s1 => n = nTkrBoards (tkrData s) /\ outHolds hdr s s1)).
  { apply total_gets. intros s1 Hs1. by rewrite (outHolds_tkrData _ _ _ Hs1). }
  intros n. apply total_assume. intros ->.
  apply (total_bind _ _ (fun _ => outHolds (hdr ++ body) F)).
  { eapply total_weaken.
    - apply (putBoards_prefix k nb 0 hdr s Hk ltac:(lia)).
      + intros i Hi. apply Hready. lia.
      + fold bh body. rewrite length_app. unfold MAX_DATA_OUT. lia.
      + intros Hlt. split; [lia|].
        destruct (Hbig Hlt) as (b & Hb & Hn & Hover).
        exists b. rewrite Z.add_0_l. done.
    - done.
    - intros [] s1. fold bh body. subst F.
      destruct (putBoard_header_bytes e idx c s) as [E6 E10].
      fold hdr in E6, E10. rewrite E6, E10.
      assert (Hu : forall x y l, addError ERR_EVT_TOO_BIG (uint8 x) (uint8 y) l
                                 = addError ERR_EVT_TOO_BIG x y l).
      { intros x y l. unfold addError.
        assert (Hid : forall z, uint8 (uint8 z) = uint8 z)
          by (intros z; apply uint8_id, uint8_range).
        by rewrite !Hid. }
      by rewrite Hu. }
  intros [].
  assert (Hput : forall a v, Z.of_nat (length a) < 256 ->
            total (outHolds a F) (putOut v) (fun _ => outHolds (a ++ [uint8 v]) F))
    by (intros; by apply putOut_holds).
  assert (Hb : Z.of_nat (length (hdr ++ body)) + 4 <= 256)
    by (rewrite length_app; lia).
  eapply total_bind; [apply Hput; rewrite ?length_app in *; cbn [length]; lia|]. intros [].
  eapply total_bind; [apply Hput; rewrite ?length_app in *; cbn [length]; lia|]. intros [].
  eapply total_bind; [apply Hput; rewrite ?length_app in *; cbn [length]; lia|]. intros [].
  eapply total_bind; [apply Hput; rewrite ?length_app in *; cbn [length]; lia|]. intros [].
  rewrite <- !app_assoc.
  change ([uint8 70] ++ [uint8 73] ++ [uint8 78] ++ [uint8 73]) with trailer.
  apply (total_bind _ _ (fun _ s1 => exists s2, outHolds (hdr ++ body ++ trailer) F s2
           /\ s1 = set_cmd (mkCmdRegs (command (cmd s2)) (cmdData (cmd s2))
                              (nDataBytes (cmd s2)) (dCnt (cmd s2))
                              (awaitingCommand (cmd s2)) (cmdDone (cmd s2)) true
                              (cmdCountGLB (cmd s2)) (cmdCount' (cmd s2))
                              (cmdStartTime (cmd s2))) s2)).
  { unfold setCmd. apply total_modify. intros s2 Hs2. by exists s2. }
  intros [].
  apply (total_bind _ _ (fun _ s1 => exists s2, outHolds (hdr ++ body ++ trailer) F s2
           /\ s1 = (let s := set_cmd (mkCmdRegs (command (cmd s2)) (cmdData (cmd s2))
                              (nDataBytes (cmd s2)) (dCnt (cmd s2))
                              (awaitingCommand (cmd s2)) (cmdDone (cmd s2)) true
                              (cmdCountGLB (cmd s2)) (cmdCount' (cmd s2))
                              (cmdStartTime (cmd s2))) s2 in
                    set_tofA (tofClear (tofA s)) (set_tofB (tofClear (tofB s)) s)))).
  { apply total_modify. intros s1 (s2 & Hs2 & ->). by exists s2. }
  intros []. unfold setTkrData. apply total_modify.
  intros s1 (s2 & Hs2 & ->).
  change (set_tkrData _ _) with (eventDone s2).
  apply outHolds_frame; [by intros o [] | by intros [] | done].
Qed.

Lemma outHolds_payload acc s0 s :
  outHolds acc s0 s -> Z.of_nat (length acc) < MAX_DATA_OUT ->
  payload (out s) = acc /\ nDataReady (out s) = Z.of_nat (length acc).
Proof.
  intros [(HL & Ha & Ht & Hf) Hn] Hlt. unfold MAX_DATA_OUT in *.
  rewrite uint8_id in Hn by lia. unfold payload. rewrite Hn, Nat2Z.id. done.
Qed.

(** X15.  The event record.  When the hit lists of all boards fit, the
    event builder fills the output buffer with the 52 bytes of the header,
    then for each board its number, the length of its hit list and the hit
    list (or a default hit list with the tag 0x07 where the list is
    [NULL]), then "FINI"; [nDataReady] is the length of this record.
    Nothing is logged, the byte counts of the hit lists that were copied
    are set to 0, the TOF buffers are reset, the board count is 0 and event
    data are marked as ready; the trigger registers are not touched. *)
Theorem buildEvent_record (e : EventIn) (idx : list Z) (c : Corr) (s : DAQ) :
  let bh := boardHits (tkrData s) in
  let nb := Z.to_nat (nTkrBoards (tkrData s)) in
  let record := (uint8 <$> eventHeader e idx c s) ++ boardsBytes nb 0 bh ++ trailer in
  Z.of_nat (length (dataOut (out s))) = MAX_DATA_OUT ->
  (forall i, 0 <= i < Z.of_nat nb -> exists b, aget bh i = Some b /\ boardReady b) ->
  Z.of_nat (length record) < MAX_DATA_OUT ->
  exists s',
    buildEvent e idx c s = Ok (tt, s')
    /\ payload (out s') = record
    /\ nDataReady (out s') = Z.of_nat (length record)
    /\ log s' = log s
    /\ eventDataReady (cmd s') = true
    /\ nTkrBoards (tkrData s') = 0
    /\ boardHits (tkrData s') = sentBoards nb 0 bh
    /\ tofA s' = tofClear (tofA s) /\ tofB s' = tofClear (tofB s)
    /\ trg s' = trg s.
Proof.
  intros bh nb record HL Hready Hlen.
  destruct (buildEvent_content e idx c s nb HL ltac:(subst nb; lia) Hready
              ltac:(fold bh nb record; lia) ltac:(subst nb; lia))
    as (s' & E & Hs').
  fold bh nb record in Hs'. rewrite decide_False in Hs' by (subst nb; lia).
  exists s'. split; [exact E|].
  destruct (outHolds_payload _ _ _ Hs' Hlen) as [Hp Hn].
  split; [exact Hp|]. split; [exact Hn|].
  apply outHolds_rest in Hs'.
  set (F := eventDone (id (withBoards (sentBoards nb 0 bh) s))) in *.
  assert (Hfields : log s' = log F /\ cmd s' = cmd F /\ tkrData s' = tkrData F
                    /\ tofA s' = tofA F /\ tofB s' = tofB F /\ trg s' = trg F).
  { rewrite <- Hs'. by destruct s'. }
  destruct Hfields as (-> & -> & -> & -> & -> & ->).
  subst F. by destruct s.
Qed.

Lemma buildEvent_record_witness :
  let s := set_tkrData (mkTkrData 258 3 0x80 1
                          (mkBoard 5 (Some [0xE7; 0; 0; 0x06; 0x30])
                           :: replicate 7 (mkBoard 0 None))) daqReset in
  exists s',
    buildEvent eventIn0 [] corrInit s = Ok (tt, s')
    /\ drop 35 (payload (out s'))
       = [127; 255; 1; 2; 3; 128; 0; 0; 255; 255; 255; 255; 255; 255; 255; 255; 1;
          0; 5; 0xE7; 0; 0; 0x06; 0x30; 0x46; 0x49; 0x4E; 0x49]
    /\ nDataReady (out s') = 63.
Proof.
  intros s.
  destruct (buildEvent_record eventIn0 [] corrInit s) as (s' & E & Hp & Hn & _).
  - reflexivity.
  - intros i Hi. assert (i = 0) as -> by (cbn in Hi; lia).
    eexists. split; [reflexivity|]. split; cbn; lia.
  - vm_compute. reflexivity.
  - exists s'. split; [exact E|]. split; [by rewrite Hp | exact Hn].
Defined.

(** X16.  An event record of exactly 256 bytes is lost.  The builder writes
    all of it, but [nDataReady] is a [uint8] and is 0 afterwards, so the
    output stage sends nothing and does not enable the trigger again: the
    trigger stays as the GO interrupt left it, with event data still marked
    as ready. *)
Theorem event_of_256_bytes_lost (e : EventIn) (idx : list Z) (c : Corr) (s : DAQ) :
  let bh := boardHits (tkrData s) in
  let nb := Z.to_nat (nTkrBoards (tkrData s)) in
  let record := (uint8 <$> eventHeader e idx c s) ++ boardsBytes nb 0 bh ++ trailer in
  Z.of_nat (length (dataOut (out s))) = MAX_DATA_OUT ->
  (forall i, 0 <= i < Z.of_nat nb -> exists b, aget bh i = Some b /\ boardReady b) ->
  Z.of_nat (length record) = MAX_DATA_OUT ->
  cmdDone (cmd s) = false ->
  exists s',
    buildEvent e idx c s = Ok (tt, s')
    /\ dataOut (out s') = record
    /\ nDataReady (out s') = 0
    /\ eventDataReady (cmd s') = true
    /\ outputStage s' = ([], s')
    /\ isTriggerEnabled s' = isTriggerEnabled s.
Proof.
  intros bh nb record HL Hready Hlen Hdone.
  destruct (buildEvent_content e idx c s nb HL ltac:(subst nb; lia) Hready
              ltac:(fold bh nb record; lia) ltac:(subst nb; lia))
    as (s' & E & Hs').
  fold bh nb record in Hs'. rewrite decide_False in Hs' by (subst nb; lia).
  exists s'. split; [exact E|].
  destruct Hs' as [(HL' & _ & Ht & Hf) Hn].
  rewrite Hlen in Hn. change (uint8 MAX_DATA_OUT) with 0 in Hn.
  assert (Hd : dataOut (out s') = record).
  { rewrite <- Ht. symmetry. apply take_ge. lia. }
  set (F := eventDone (id (withBoards (sentBoards nb 0 bh) s))) in *.
  assert (Hfields : cmd s' = cmd F /\ trg s' = trg F).
  { rewrite <- Hf. by destruct s'. }
  destruct Hfields as (Hc & Htr).
  assert (HcF : cmdDone (cmd F) = false /\ eventDataReady (cmd F) = true
                /\ trg F = trg s).
  { subst F. destruct s as [? ? ? ? ? ? ? ? ? ? []]. cbn in *. done. }
  destruct HcF as (HcF1 & HcF2 & HcF3).
  split; [exact Hd|]. split; [exact Hn|]. split; [by rewrite Hc|].
  split.
  - unfold outputStage. rewrite Hn, Hc, HcF1. reflexivity.
  - unfold isTriggerEnabled. by rewrite Htr, HcF3.
Qed.

Lemma event_of_256_bytes_lost_witness :
  let s := set_tkrData (mkTkrData 0 0 0 1
                          (mkBoard 198 (Some (replicate 198 0xAA))
                           :: replicate 7 (mkBoard 0 None))) daqArmed in
  exists s',
    buildEvent eventIn0 [] corrInit (set_trg (triggerEnable false (trg s)) s)
    = Ok (tt, s')
    /\ nDataReady (out s') = 0
    /\ outputStage s' = ([], s')
    /\ isTriggerEnabled s' = false.
Proof.
  intros s.
  destruct (event_of_256_bytes_lost eventIn0 [] corrInit
              (set_trg (triggerEnable false (trg s)) s))
    as (s' & E & _ & Hn & _ & Ho & Ht).
  - reflexivity.
  - intros i Hi. assert (i = 0) as -> by (cbn in Hi; lia).
    eexists. split; [reflexivity|]. split; cbn; lia.
  - reflexivity.
  - reflexivity.
  - exists s'. split; [exact E|]. split; [exact Hn|]. split; [exact Ho|].
    rewrite Ht. reflexivity.
Defined.

(** X17.  An event that is too big.  When board [k] is the first whose hit
    list does not leave five bytes of room, the loop over the boards ends
    there: the record holds the header, the boards before [k] and "FINI",
    while byte 51 of the header still gives the board count of the tracker
    event; [ERR_EVT_TOO_BIG] is logged once, with the high bytes of the
    event number and of the time stamp; and the boards from [k] on keep
    their byte counts and hit lists. *)
Theorem event_too_big_truncated (e : EventIn) (idx : list Z) (c : Corr) (s : DAQ)
    (k : nat) (b : BoardHits) :
  let bh := boardHits (tkrData s) in
  let nb := Z.to_nat (nTkrBoards (tkrData s)) in
  let hdr := uint8 <$> eventHeader e idx c s in
  let record := hdr ++ boardsBytes k 0 bh ++ trailer in
  Z.of_nat (length (dataOut (out s))) = MAX_DATA_OUT ->
  (k < nb)%nat ->
  (forall i, 0 <= i < Z.of_nat k -> exists b, aget bh i = Some b /\ boardReady b) ->
  Z.of_nat (length record) < MAX_DATA_OUT ->
  aget bh (Z.of_nat k) = Some b -> 0 <= nBytes b < 256 ->
  MAX_DATA_OUT < Z.of_nat (length (hdr ++ boardsBytes k 0 bh)) + 5 + nBytes b ->
  exists s',
    buildEvent e idx c s = Ok (tt, s')
    /\ payload (out s') = record
    /\ record !! 51%nat = Some (uint8 (nTkrBoards (tkrData s)))
    /\ log s' = addError ERR_EVT_TOO_BIG (byte32 (cntGO (trg s)) 0)
                  (byte32 (timeStampSave e) 0) (log s)
    /\ boardHits (tkrData s') = sentBoards k 0 bh
    /\ (forall i, Z.of_nat k <= i -> aget (boardHits (tkrData s')) i = aget bh i)
    /\ eventDataReady (cmd s') = true.
Proof.
  intros bh nb hdr record HL Hk Hready Hlen Hb Hn Hbig.
  destruct (buildEvent_content e idx c s k HL ltac:(subst nb; lia) Hready
              ltac:(fold bh nb hdr record; lia)) as (s' & E & Hs').
  { intros _. by exists b. }
  fold bh nb hdr record in Hs'. rewrite decide_True in Hs' by done.
  exists s'. split; [exact E|].
  destruct (outHolds_payload _ _ _ Hs' Hlen) as [Hp _].
  split; [exact Hp|]. split; [reflexivity|].
  apply outHolds_rest in Hs'.
  match type of Hs' with _ = ?f => set (F := f) in * end.
  assert (Hfields : log s' = log F /\ cmd s' = cmd F /\ tkrData s' = tkrData F).
  { rewrite <- Hs'. by destruct s'. }
  destruct Hfields as (-> & -> & ->).
  assert (HF : log F = addError ERR_EVT_TOO_BIG (byte32 (cntGO (trg s)) 0)
                         (byte32 (timeStampSave e) 0) (log s)
               /\ boardHits (tkrData F) = sentBoards k 0 bh
               /\ eventDataReady (cmd F) = true).
  { subst F. by destruct s. }
  destruct HF as (-> & -> & ->).
  split; [done|]. split; [done|]. split; [|done].
  intros i Hi. clear -Hi.
  assert (Hgen : forall n brd l, brd + Z.of_nat n <= i ->
            aget (sentBoards n brd l) i = aget l i).
  { unfold sentBoards. induction n as [|n IH]; intros brd l Hle; [done|].
    cbn [for_loop]. rewrite IH by lia.
    destruct (aget l brd) as [[? [?|]]|]; [|done|done].
    apply aget_aset_ne. lia. }
  apply Hgen. lia.
Qed.

Lemma event_too_big_truncated_witness :
  let s := set_tkrData (mkTkrData 0 0 0 1
                          (mkBoard 200 (Some (replicate 200 0xAA))
                           :: replicate 7 (mkBoard 0 None))) daqReset in
  exists s',
    buildEvent eventIn0 [] corrInit s = Ok (tt, s')
    /\ drop 51 (payload (out s')) = [1; 0x46; 0x49; 0x4E; 0x49]
    /\ nErrors (log s') = 1
    /\ aget (boardHits (tkrData s')) 0 = Some (mkBoard 200 (Some (replicate 200 0xAA))).
Proof.
  intros s.
  destruct (event_too_big_truncated eventIn0 [] corrInit s 0
              (mkBoard 200 (Some (replicate 200 0xAA))))
    as (s' & E & Hp & _ & Hl & _ & Hb & _).
  - reflexivity.
  - cbn. lia.
  - intros i Hi. cbn in Hi. lia.
  - cbn. unfold MAX_DATA_OUT. lia.
  - reflexivity.
  - cbn. lia.
  - cbn. unfold MAX_DATA_OUT. lia.
  - exists s'. split; [exact E|]. split; [by rewrite Hp|].
    split; [by rewrite Hl|]. rewrite Hb by (cbn; lia). reflexivity.
Defined.

(** ** The gate on commands *)

(** X18.  While the trigger is enabled, the commands 0x3D (return trigger
    enable status) and 0x44 (end run) go to their handlers.  Every other
    fully received command, the one that disables the trigger included, is
    dropped: the globals change by one [ERR_CMD_IGNORE] entry of the log at
    most (so no handler has run), and the entry is there when the log had
    room.  When the output buffer is empty, the output stage that follows
    sends no byte and ends the command; it leaves [nDataBytes] as the
    dropped command set it. *)
Theorem command_gating (other : Z -> M unit) (s : DAQ) :
  isTriggerEnabled s = true ->
  let c := command (cmd s) in
  (c = 0x3D \/ c = 0x44 -> dispatch other s = commandSwitch other c s)
  /\ (c <> 0x3D -> c <> 0x44 ->
      let s' := set_log (addError ERR_CMD_IGNORE c 0 (log s)) s in
      dispatch other s = Ok (tt, s')
      /\ (nDataReady (out s) = 0 -> cmdDone (cmd s) = true ->
          let s'' := (outputStage s').2 in
          (outputStage s').1 = []
          /\ awaitingCommand (cmd s'') = true /\ cmdDone (cmd s'') = false
          /\ nDataBytes (cmd s'') = nDataBytes (cmd s)
          /\ log s'' = log s' /\ out s'' = out s /\ trg s'' = trg s)
      /\ (logWf (log s) -> nErrors (log s) < MXERR ->
          nErrors (log s') = nErrors (log s) + 1
          /\ aget (errors (log s')) (nErrors (log s))
             = Some (mkError ERR_CMD_IGNORE (uint8 c) 0)
          /\ forall i, i <> nErrors (log s) ->
               aget (errors (log s')) i = aget (errors (log s)) i)).
Proof.
  intros Hen c. split.
  - intros Hc. rewrite dispatch_unfold. fold c.
    destruct Hc as [-> | ->]; done.
  - intros H1 H2 s'. split; [|split].
    + rewrite dispatch_unfold. fold c. rewrite Hen.
      destruct (Z.eqb_spec c 0x3D); [done|].
      destruct (Z.eqb_spec c 0x44); [done|]. done.
    + intros Hn Hdone. subst s'. unfold outputStage.
      destruct s as [? ? ? [d n] ? ? ? ? ? ? r]. cbn in Hn, Hdone. subst n.
      cbn [cmd set_log out nDataReady]. rewrite Hdone. cbn. done.
    + intros Hwf Hroom.
      exact (addError_room ERR_CMD_IGNORE c 0 (log s) Hwf Hroom).
Qed.

Lemma command_gating_witness :
  let s' := set_log (addError ERR_CMD_IGNORE 0x07 0 (log daqArmed))
                    (withCommand 0x07 daqArmed) in
  dispatch noOther (withCommand 0x07 daqArmed) = Ok (tt, s')
  /\ nErrors (log s') = 1
  /\ (outputStage s').1 = []
  /\ awaitingCommand (cmd (outputStage s').2) = true.
Proof.
  intros s'.
  pose proof (command_gating noOther (withCommand 0x07 daqArmed) eq_refl) as H.
  cbv zeta in H. destruct H as [_ H].
  destruct H as (H1 & H2 & H3); [discriminate..|].
  destruct (H2 eq_refl eq_refl) as (H4 & H5 & _).
  destruct H3 as (H6 & _).
  - split; [reflexivity | simpl; unfold MXERR; lia].
  - simpl. unfold MXERR. lia.
  - split; [exact H1|]. split; [exact H6|]. split; [exact H4 | exact H5].
Defined.

(** ** Packets of the tracker *)

Lemma arrives_app env st fuel a : forall b k k',
  arrives env st fuel k (a ++ b) k'
  <-> exists km, arrives env st fuel k a km /\ arrives env st fuel km b k'.
Proof.
  induction a as [|x a IH]; intros b k k'; cbn [app arrives].
  - split; [intros H; by exists k | by intros (km & -> & H)].
  - split.
    + intros (n & Hn & Hr & H). apply IH in H as (km & H1 & H2).
      exists km. split; [by exists n | done].
    + intros (km & (n & Hn & Hr & H1) & H2). exists n.
      split; [done|]. split; [done|]. apply IH. by exists km.
Qed.

Lemma tkr_getByte_arrives env fuel st flag b bs k' s :
  arrives env st fuel (hwk s) (b :: bs) k' ->
  exists k1, tkr_getByte env fuel st flag s = Ok (uint8 b, set_hwk k1 s)
             /\ arrives env st fuel k1 bs k'.
Proof.
  intros (n & Hn & Hr & H). exists (S (hwk s + n)). split; [|done].
  by apply tkr_getByte_receives.
Qed.

Lemma arrives_envBytes bs fuel :
  (0 < fuel)%nat -> forall k, arrives (envBytes (replicate k 0 ++ bs)) 0 fuel (S k) bs (S k + length bs).
Proof.
  intros Hf. revert bs. 
  assert (H : forall rest done', arrives (envBytes (done' ++ rest)) 0 fuel (S (length done')) rest
                (S (length done') + length rest)).
  { induction rest as [|b rest IH]; intros done'; cbn [arrives length].
    - lia.
    - exists 0%nat. split; [done|]. split.
      + split; [intros m Hm; lia|]. rewrite Nat.add_0_r. cbn.
        by rewrite lookup_app_r, Nat.sub_diag by lia.
      + rewrite Nat.add_0_r.
        specialize (IH (done' ++ [b])). rewrite <- app_assoc in IH. cbn [app] in IH.
        rewrite length_app in IH. cbn [length] in IH.
        by replace (S (length done' + 1)) with (S (S (length done'))) in IH by lia;
        replace (S (S (length done')) + length rest)%nat
          with (S (length done') + S (length rest))%nat in IH by lia. }
  intros bs k. specialize (H bs (replicate k 0)). by rewrite length_replicate in H.
Qed.

Lemma aset_id {A} (l : list A) (i : Z) (x : A) : aget l i = Some x -> aset l i x = l.
Proof.
  intros H. pose proof (aget_Some_lt _ _ _ H). rewrite aget_lookup in H by lia.
  unfold aset. rewrite bool_decide_eq_true_2 by lia. by apply list_insert_id.
Qed.

Lemma uint8_uint8 x : uint8 (uint8 x) = uint8 x.
Proof. apply uint8_id, uint8_range. Qed.

(** The loop that reads the bytes of a hit list from position [i] on. *)
Lemma readHits_loop env fuel st lyr nb bytes : forall i buf s k',
  arrives env st fuel (hwk s) bytes k' ->
  aget (boardHits (tkrData s)) lyr = Some (mkBoard nb (Some buf)) ->
  0 <= i -> i + Z.of_nat (length bytes) <= Z.of_nat (length buf) ->
  i + Z.of_nat (length bytes) <= MAX_TKR_BOARD_BYTES ->
  forM (length bytes) i
    (fun i => theByte ← tkr_getByte env fuel st 10;
              when (i <? MAX_TKR_BOARD_BYTES) (storeHit lyr i theByte)) s
  = Ok (tt, set_hwk k'
              (withBoards
                 (aset (boardHits (tkrData s)) lyr
                    (mkBoard nb (Some (take (Z.to_nat i) buf ++ (uint8 <$> bytes)
                                       ++ drop (Z.to_nat i + length bytes) buf))))
                 s)).
Proof.
  induction bytes as [|b bytes IH]; intros i buf s k' Harr Hb Hi Hlen Hmax.
  - cbn [arrives] in Harr. subst k'. cbn [forM length fmap list_fmap app].
    rewrite Nat.add_0_r, take_drop, (aset_id _ _ _ Hb), withBoards_id, set_hwk_id.
    reflexivity.
  - cbn [length] in *. cbn [forM].
    destruct (tkr_getByte_arrives env fuel st 10 b bytes k' s Harr) as (k1 & E & Harr1).
    unfold mbind at 1, M_bind at 1. unfold mbind at 1, M_bind at 1. rewrite E.
    destruct (Z.ltb_spec i MAX_TKR_BOARD_BYTES) as [_|]; [|lia]. unfold when.
    rewrite storeHit_Ok with (n := nb) (buf := buf);
      [|by destruct s | lia].
    rewrite IH with (buf := aset buf i (uint8 (uint8 b))) (k' := k');
      [| by destruct s | destruct s; proj; apply aget_aset_eq; apply aget_Some_lt in Hb; done
       | lia | rewrite length_aset; lia | lia].
    f_equal. f_equal. rewrite uint8_uint8.
    assert (Hl : take (Z.to_nat (i + 1)) (aset buf i (uint8 b)) ++ (uint8 <$> bytes)
                 ++ drop (Z.to_nat (i + 1) + length bytes) (aset buf i (uint8 b))
                 = take (Z.to_nat i) buf ++ (uint8 <$> b :: bytes)
                   ++ drop (Z.to_nat i + S (length bytes)) buf).
    { rewrite take_aset_snoc by lia. rewrite <- app_assoc. cbn [app fmap list_fmap].
      f_equal. f_equal. f_equal. unfold aset. rewrite bool_decide_eq_true_2 by lia.
      rewrite drop_insert_lt by lia. f_equal. lia. }
    rewrite Hl. destruct s as [? ? ? ? ? ? ? [] ? ? ?]. unfold withBoards. proj.
    by rewrite aset_aset.
Qed.
(** Globals given field by field: the setters and the fields compute. *)
Ltac norm :=
  cbv [set_hwk set_hwm set_log set_out set_tkrData set_tkr
       hwk hwm log out tofA tofB outputTOF tkrData tkr trg cmd
       triggerCount cmdCount trgPattern nTkrBoards boardHits nBytes hitList].

Lemma bind_ret {A B} (a : A) (f : A -> M B) s : (ret a ≫= f) s = f a s.
Proof. reflexivity. Qed.

(** One board of an event packet whose hit list is as it should be. *)
Lemma readBoard_stored env fuel st brd rc h s k' :
  hitListOk brd h ->
  arrives env st fuel (hwk s) (boardPacket h) k' ->
  0 <= brd < Z.of_nat (length (boardHits (tkrData s))) ->
  mallocOK env (hwm s) = true ->
  readBoard env fuel st brd rc s
  = Ok (rc, set_hwk k'
              (set_hwm (S (hwm s))
                 (withBoards (aset (boardHits (tkrData s)) brd
                                (mkBoard (Z.of_nat (length h)) (Some h))) s))).
Proof.
  intros (Hlen & H0 & (a & H1 & Ha & Hlyr) & Hbytes) Harr Hbrd Hm.
  unfold MAX_TKR_BOARD_BYTES in Hlen.
  destruct h as [|x0 [|x1 rest]]; [done | done |].
  cbn in H0, H1. injection H0 as ->. injection H1 as ->.
  assert (Ha0 : 0 <= a < 256) by (inversion Hbytes as [|? ? _ Hb']; inversion Hb'; lia).
  assert (Hrest : Forall (fun b => 0 <= b < 256) rest)
    by (inversion Hbytes as [|? ? _ Hb']; by inversion Hb').
  unfold boardPacket in Harr.
  remember (Z.of_nat (length (231 :: a :: rest))) as n eqn:Hn0.
  assert (Hn : n = Z.of_nat (length rest) + 2) by (subst n; cbn [length]; lia).
  clear Hn0.
  destruct (aget_is_Some _ _ Hbrd) as [b0 Hb0].
  unfold readBoard.
  destruct (tkr_getByte_arrives env fuel st 7 _ _ k' s Harr) as (k1 & E1 & Harr1).
  rewrite (bind_Ok _ _ _ _ _ E1). rewrite (uint8_id n) by lia.
  destruct (Z.ltb_spec n 4) as [|_]; [lia|].
  destruct (tkr_getByte_arrives env fuel st 8 _ _ k' (set_hwk k1 s) Harr1)
    as (k2 & E2 & Harr2).
  rewrite (bind_Ok _ _ _ _ _ E2). change (uint8 231) with 231.
  change (negb (231 =? 231)) with false. cbn iota.
  destruct (tkr_getByte_arrives env fuel st 9 _ _ k' (set_hwk k2 (set_hwk k1 s))
              ltac:(by destruct s)) as (k3 & E3 & Harr3).
  rewrite (bind_Ok _ _ _ _ _ E3). rewrite (uint8_id a) by lia.
  destruct (Z.gtb_spec a 8) as [|_]; [lia|].
  rewrite bind_ret. rewrite Hlyr. rewrite Z.eqb_refl. cbn [negb].
  change (when false (logError ERR_TKR_LYR_ORDER brd brd)) with (ret tt).
  rewrite bind_ret.
  destruct (Z.gtb_spec n MAX_TKR_BOARD_BYTES) as [|_]; [unfold MAX_TKR_BOARD_BYTES in *; lia|].
  destruct s as [k m l o tA tB oT [tc cc pat nbd bh] t trg c]. norm.
  cbn [hwk hwm tkrData boardHits] in *.
  erewrite bind_Ok; [|apply setBoardNBytes_Ok with (b := b0); by proj].
  norm. rewrite (uint8_id n) by lia.
  unfold malloc at 1. unfold mbind at 1, M_bind at 1. proj. rewrite Hm.
  erewrite bind_Ok; [|apply setBoardHitList_Ok; proj; apply aget_aset_eq; lia].
  norm. rewrite aset_aset. rewrite bool_decide_eq_false_2 by done.
  erewrite bind_Ok;
    [|apply storeHit_Ok; proj; [apply aget_aset_eq; lia | rewrite length_replicate; lia]].
  norm. rewrite aset_aset.
  erewrite bind_Ok;
    [|apply storeHit_Ok; proj;
      [apply aget_aset_eq; lia | rewrite length_aset, length_replicate; lia]].
  norm. rewrite aset_aset.
  replace (Z.to_nat (n - 2)) with (length rest) by lia.
  erewrite bind_Ok;
    [|eapply (readHits_loop env fuel st brd n rest 2); proj;
      [exact Harr3 | apply aget_aset_eq; lia | lia
       | rewrite !length_aset, length_replicate; lia
       | unfold MAX_TKR_BOARD_BYTES; lia]].
  unfold ret, mret, M_ret, withBoards. norm. rewrite aset_aset.
  assert (Hbytes' : uint8 <$> rest = rest).
  { clear -Hrest. induction Hrest as [|x r Hx _ IH]; [done|].
    cbn [fmap list_fmap]. rewrite (uint8_id x) by done. f_equal. exact IH. }
  assert (Hl : take (Z.to_nat 2)
                 (aset (aset (replicate (Z.to_nat n) 0) 0 (uint8 231)) 1 (uint8 a))
               ++ (uint8 <$> rest)
               ++ drop (Z.to_nat 2 + length rest)
                    (aset (aset (replicate (Z.to_nat n) 0) 0 (uint8 231)) 1 (uint8 a))
               = 231 :: a :: rest).
  { change (uint8 231) with 231. rewrite (uint8_id a) by lia. rewrite Hbytes'.
    replace (Z.to_nat n) with (S (S (length rest))) by lia.
    unfold aset. rewrite !bool_decide_eq_true_2 by lia.
    change (Z.to_nat 2) with 2%nat. change (Z.to_nat 0) with 0%nat.
    change (Z.to_nat 1) with 1%nat. cbn [replicate].
    change (take 2 (<[1%nat:=a]> (<[0%nat:=231]> (0 :: 0 :: replicate (length rest) 0))))
      with [231; a].
    change (drop (2 + length rest)
              (<[1%nat:=a]> (<[0%nat:=231]> (0 :: 0 :: replicate (length rest) 0))))
      with (drop (length rest) (replicate (length rest) 0)).
    rewrite drop_replicate, Nat.sub_diag. cbn [replicate app]. by rewrite app_nil_r. }
  by rewrite Hl.
Qed.

Lemma length_storeBoards hs : forall brd bh,
  length (storeBoards brd hs bh) = length bh.
Proof.
  induction hs as [|h hs IH]; intros brd bh; cbn [storeBoards]; [done|].
  by rewrite IH, length_aset.
Qed.

(** The loop over the boards of an event packet. *)
Lemma readBoards_stored env fuel st rc hs : forall brd s k',
  hitListsOk brd hs -> 0 <= brd ->
  brd + Z.of_nat (length hs) <= Z.of_nat (length (boardHits (tkrData s))) ->
  (forall j, (j < length hs)%nat -> mallocOK env (hwm s + j) = true) ->
  arrives env st fuel (hwk s) (mjoin (boardPacket <$> hs)) k' ->
  foldM (length hs) brd (readBoard env fuel st) rc s
  = Ok (rc, set_hwk k'
              (set_hwm (hwm s + length hs)
                 (withBoards (storeBoards brd hs (boardHits (tkrData s))) s))).
Proof.
  induction hs as [|h hs IH]; intros brd s k' Hok Hbrd Hlen Hm Harr.
  - cbn [arrives fmap list_fmap mjoin list_join] in Harr. subst k'.
    cbn [foldM length storeBoards]. rewrite Nat.add_0_r, withBoards_id.
    by destruct s.
  - destruct Hok as [Hh Hhs]. cbn [length] in *.
    change (mjoin (boardPacket <$> h :: hs))
      with (boardPacket h ++ mjoin (boardPacket <$> hs)) in Harr.
    apply arrives_app in Harr as (km & Harr1 & Harr2).
    cbn [foldM].
    rewrite (bind_Ok _ _ _ _ _
               (readBoard_stored env fuel st brd rc h s km Hh Harr1 ltac:(lia)
                  ltac:(rewrite <- (Hm 0%nat) by lia; f_equal; lia))).
    rewrite (IH (brd + 1) _ k' Hhs ltac:(lia)).
    + destruct s as [k m ? ? ? ? ? [] ? ? ?]. unfold withBoards. norm.
      cbn [storeBoards]. replace (S m + length hs)%nat with (m + S (length hs))%nat by lia.
      reflexivity.
    + destruct s as [? ? ? ? ? ? ? [] ? ? ?]. unfold withBoards. norm.
      rewrite length_aset. cbn [tkrData boardHits] in Hlen. lia.
    + intros j Hj. destruct s as [k m ? ? ? ? ? [] ? ? ?]. unfold withBoards. norm.
      cbn [hwm] in Hm. rewrite <- (Hm (S j)) by lia. f_equal. lia.
    + destruct s as [k m ? ? ? ? ? [] ? ? ?]. unfold withBoards. norm. exact Harr2.
Qed.
Lemma trigger_count_join hi lo :
  0 <= hi < 256 -> 0 <= lo < 256 ->
  Z.lor (uint16 (Z.shiftl (Z.land hi 0x00FF) 8)) (Z.land lo 0x00FF) = 256 * hi + lo.
Proof.
  intros Hhi Hlo.
  assert (forallb (fun hi =>
            forallb (fun lo =>
              Z.lor (uint16 (Z.shiftl (Z.land hi 0x00FF) 8)) (Z.land lo 0x00FF)
              =? 256 * hi + lo) (seqZ 0 256)) (seqZ 0 256) = true) as Hall
    by (vm_compute; reflexivity).
  rewrite forallb_forall in Hall.
  specialize (Hall hi ltac:(apply list_elem_of_In, elem_of_seqZ; lia)).
  rewrite forallb_forall in Hall. apply Z.eqb_eq, Hall.
  apply list_elem_of_In, elem_of_seqZ. lia.
Qed.

(** Takes the next byte of the packet [Harr] for the call of [tkr_getByte]
    at the head of the goal. *)
Ltac next_byte Harr :=
  let k1 := fresh "k" in
  let E := fresh "E" in
  let Harr' := fresh "Harr" in
  match goal with
  | |- context [(tkr_getByte ?env ?fuel ?st ?flag ≫= _) ?s] =>
      destruct (tkr_getByte_arrives env fuel st flag _ _ _ s Harr) as (k1 & E & Harr');
      rewrite (bind_Ok _ _ _ _ _ E); clear E Harr; rename Harr' into Harr
  end.

(** A well-formed event packet, read by [getTrackerData]. *)
Lemma event_packet_stored_aux env fuel (hi lo cc nb : Z) (hs : list (list Z))
    (s : DAQ) (k' : nat) :
  let startTime := uint32 (now (poll env (hwk s))) in
  arrives env startTime fuel (S (hwk s)) (eventPacket hi lo cc nb hs) k' ->
  0 <= hi < 256 -> 0 <= lo < 256 -> 0 <= cc < 256 -> 0 <= nb < 256 ->
  Z.land nb 0x3F = Z.of_nat (length hs) ->
  numTkrBrds (tkr s) = Z.of_nat (length hs) ->
  Z.of_nat (length hs) <= Z.of_nat (length (boardHits (tkrData s))) ->
  hitListsOk 0 hs ->
  (forall j, (j < length hs)%nat -> mallocOK env (hwm s + j) = true) ->
  getTrackerData env fuel TKR_EVT_DATA s
  = Ok (0, set_hwk k'
             (set_hwm (hwm s + length hs)
                (set_tkrData
                   (mkTkrData (256 * hi + lo) cc (Z.land nb 0xC0)
                      (Z.of_nat (length hs))
                      (storeBoards 0 hs (boardHits (tkrData s)))) s))).
Proof.
  intros startTime Harr Hhi Hlo Hcc Hnb Hn Hnum Hlen Hok Hm.
  unfold getTrackerData.
  rewrite (bind_Ok _ _ _ _ _ (time_Ok env s)). fold startTime.
  unfold eventPacket in Harr. cbn [app] in Harr.
  destruct s as [k m l o tA tB oT [tc0 cc0 pat0 nbd0 bh] t tr c].
  cbn [hwk hwm tkrData tkr boardHits] in *. norm.
  next_byte Harr. norm.
  next_byte Harr. norm.
  change (uint8 5) with 5. change (uint8 TKR_EVT_DATA) with TKR_EVT_DATA.
  change (negb (TKR_EVT_DATA =? TKR_EVT_DATA)) with false. cbn iota.
  rewrite bind_ret.
  change (TKR_EVT_DATA =? TKR_EVT_DATA) with true. cbn iota.
  change (negb (5 =? 5)) with false. cbn iota.
  unfold readEvent.
  next_byte Harr. norm.
  unfold mbind at 1, M_bind at 1, setTkrData at 1, modify at 1. norm.
  next_byte Harr. norm.
  unfold mbind at 1, M_bind at 1, setTkrData at 1, modify at 1. norm.
  next_byte Harr. norm.
  unfold mbind at 1, M_bind at 1, setTkrData at 1, modify at 1. norm.
  next_byte Harr. norm.
  unfold mbind at 1, M_bind at 1, setTkrData at 1, modify at 1. norm.
  unfold mbind at 1, M_bind at 1, gets at 1. norm.
  rewrite !(uint8_id hi), !(uint8_id lo), !(uint8_id cc), !(uint8_id nb) by done.
  rewrite Hn, Hnum, Z.eqb_refl. cbn [negb].
  unfold mbind at 1, M_bind at 1, setTkrData at 1, modify at 1. norm.
  rewrite Nat2Z.id, trigger_count_join by done.
  rewrite (readBoards_stored env fuel startTime 0 hs 0 _ k' Hok ltac:(lia));
    norm; [reflexivity | lia | exact Hm | exact Harr].
Qed.

(** X21.  An event packet of the tracker that is as it should be is stored
    as it was sent.  [getTrackerData] is called for event data and the
    packet comes in: the length 5, the identifier 0xD3, the trigger count
    in two bytes, the command count, the byte with the trigger pattern and
    the number of boards, which is the number configured, and for each
    board the length of its hit list and the hit list, which is 4 to
    [MAX_TKR_BOARD_BYTES] bytes long, starts with 0xE7 and carries the
    address of the board.  With [malloc] succeeding, the call returns 0,
    reads exactly the packet, logs nothing, and leaves the counts, the
    pattern, the number of boards and, for each board, the byte count and
    a hit list equal to the bytes sent in [tkrData]; nothing else
    changes. *)
Theorem event_packet_stored env fuel (hi lo cc nb : Z) (hs : list (list Z))
    (s : DAQ) (k' : nat) :
  let startTime := uint32 (now (poll env (hwk s))) in
  arrives env startTime fuel (S (hwk s)) (eventPacket hi lo cc nb hs) k' ->
  0 <= hi < 256 -> 0 <= lo < 256 -> 0 <= cc < 256 -> 0 <= nb < 256 ->
  Z.land nb 0x3F = Z.of_nat (length hs) ->
  numTkrBrds (tkr s) = Z.of_nat (length hs) ->
  Z.of_nat (length hs) <= Z.of_nat (length (boardHits (tkrData s))) ->
  hitListsOk 0 hs ->
  (forall j, (j < length hs)%nat -> mallocOK env (hwm s + j) = true) ->
  getTrackerData env fuel TKR_EVT_DATA s
  = Ok (0, set_hwk k'
             (set_hwm (hwm s + length hs)
                (set_tkrData
                   (mkTkrData (256 * hi + lo) cc (Z.land nb 0xC0)
                      (Z.of_nat (length hs))
                      (storeBoards 0 hs (boardHits (tkrData s)))) s))).
Proof. exact (event_packet_stored_aux env fuel hi lo cc nb hs s k'). Qed.

Lemma event_packet_stored_witness :
  let packet := eventPacket 1 2 3 0x81 [[0xE7; 0; 0; 0x06; 0x30]] in
  getTrackerData (envBytes packet) 1 TKR_EVT_DATA daqReset
  = Ok (0, set_hwk 13
             (set_hwm 1
                (set_tkrData
                   (mkTkrData 258 3 0x80 1
                      (mkBoard 5 (Some [0xE7; 0; 0; 0x06; 0x30])
                       :: replicate 7 (mkBoard 0 None))) daqReset))).
Proof.
  intros packet.
  refine (event_packet_stored (envBytes packet) 1 1 2 3 0x81 [[0xE7; 0; 0; 0x06; 0x30]]
            daqReset 13 _ ltac:(lia) ltac:(lia) ltac:(lia) ltac:(lia)
            eq_refl eq_refl _ _ _).
  - exact (arrives_envBytes packet 1 ltac:(lia) 0%nat).
  - cbn. lia.
  - split; [|exact I]. split; [cbn; unfold MAX_TKR_BOARD_BYTES; lia|].
    split; [reflexivity|]. split; [exists 0; split; [reflexivity | split; [lia | reflexivity]]|].
    repeat constructor; lia.
  - intros j Hj. reflexivity.
Defined.

(** ** From the tracker to the event record *)





(** ** The echo of a command *)

Ltac norm' :=
  cbv [set_hwk set_hwm set_log set_out set_tkrData set_tkr
       hwk hwm log out tofA tofB outputTOF tkrData tkr trg cmd
       numTkrBrds tkrCmdCode tkrCmdCount nTkrHouseKeeping tkrHouseKeepingFPGA
       tkrHouseKeeping dataOut nDataReady].

Lemma setDataOut_Ok i v s :
  0 <= i < Z.of_nat (length (dataOut (out s))) ->
  setDataOut i v s
  = Ok (tt, set_out (mkOut (aset (dataOut (out s)) i (uint8 v)) (nDataReady (out s))) s).
Proof. intros H. unfold setDataOut. munfold. by rewrite astore_Some. Qed.

Lemma command_count_join hi lo :
  0 <= hi < 256 -> 0 <= lo < 256 ->
  uint16 (Z.lor (Z.land (uint16 (Z.shiftl hi 8)) 0xFF00) lo) = 256 * hi + lo.
Proof.
  intros Hhi Hlo.
  assert (forallb (fun hi =>
            forallb (fun lo =>
              uint16 (Z.lor (Z.land (uint16 (Z.shiftl hi 8)) 0xFF00) lo)
              =? 256 * hi + lo) (seqZ 0 256)) (seqZ 0 256) = true) as Hall
    by (vm_compute; reflexivity).
  rewrite forallb_forall in Hall.
  specialize (Hall hi ltac:(apply list_elem_of_In, elem_of_seqZ; lia)).
  rewrite forallb_forall in Hall. apply Z.eqb_eq, Hall.
  apply list_elem_of_In, elem_of_seqZ. lia.
Qed.

(** X23.  The echo of a command.  [getTrackerData] is called for an echo
    and the packet comes in: the length 4, the identifier 0xF1, the command
    count of the tracker in two bytes and the code of the command that the
    tracker echoes.  The call reads exactly the packet, leaves its last
    three bytes in the output buffer as three bytes of data, and sets
    [tkrCmdCount]; it returns 0 and logs nothing when the code is the one
    that was sent ([tkrCmdCode]); otherwise it returns 1 and logs
    [ERR_TKR_BAD_ECHO] with the two codes, which is recorded when the log
    has room.  The tracker event is not touched. *)
Theorem echo_packet env fuel (b0 b1 code : Z) (s : DAQ) (k' : nat) :
  let startTime := uint32 (now (poll env (hwk s))) in
  arrives env startTime fuel (S (hwk s)) [4; TKR_ECHO_DATA; b0; b1; code] k' ->
  0 <= b0 < 256 -> 0 <= b1 < 256 -> 0 <= code < 256 ->
  3 <= Z.of_nat (length (dataOut (out s))) ->
  let good := tkrCmdCode (tkr s) =? code in
  exists s',
    getTrackerData env fuel TKR_ECHO_DATA s = Ok (if good then 0 else 1, s')
    /\ hwk s' = k'
    /\ nDataReady (out s') = 3 /\ payload (out s') = [b0; b1; code]
    /\ tkrCmdCount (tkr s') = 256 * b0 + b1
    /\ tkrCmdCode (tkr s') = tkrCmdCode (tkr s)
    /\ tkrData s' = tkrData s
    /\ log s' = (if good then log s
                 else addError ERR_TKR_BAD_ECHO code (tkrCmdCode (tkr s)) (log s))
    /\ (good = false -> logWf (log s) -> nErrors (log s) < MXERR ->
        nErrors (log s') = nErrors (log s) + 1
        /\ aget (errors (log s')) (nErrors (log s))
           = Some (mkError ERR_TKR_BAD_ECHO code (uint8 (tkrCmdCode (tkr s))))).
Proof.
  intros startTime Harr Hb0 Hb1 Hc HL good.
  unfold getTrackerData.
  rewrite (bind_Ok _ _ _ _ _ (time_Ok env s)). fold startTime.
  destruct s as [k m l [d n] tA tB oT td [nb tcode tcount nhk fpga hk] tr c].
  cbn [hwk hwm tkrData tkr out dataOut tkrCmdCode log] in *. norm'.
  next_byte Harr. norm'. next_byte Harr. norm'.
  change (uint8 4) with 4. change (uint8 TKR_ECHO_DATA) with TKR_ECHO_DATA.
  change (negb (TKR_ECHO_DATA =? TKR_ECHO_DATA)) with false. cbn iota.
  rewrite bind_ret.
  change (TKR_ECHO_DATA =? TKR_EVT_DATA) with false.
  change (TKR_ECHO_DATA =? TKR_HOUSE_DATA) with false.
  change (TKR_ECHO_DATA =? TKR_ECHO_DATA) with true. cbn iota.
  unfold readEcho. change (negb (4 =? 4)) with false.
  change (when false (logError ERR_TKR_BAD_LENGTH TKR_ECHO_DATA 4)) with (ret tt).
  rewrite bind_ret.
  unfold mbind at 1, M_bind at 1, setNDataReady at 1, setOut at 1, modify at 1. norm'.
  change (uint8 3) with 3.
  next_byte Harr. norm'. rewrite (uint8_id b0) by done.
  erewrite bind_Ok; [|apply setDataOut_Ok; norm'; lia]. norm'.
  unfold mbind at 1, M_bind at 1, setTkr at 1, modify at 1. norm'.
  next_byte Harr. norm'. rewrite (uint8_id b1) by done.
  erewrite bind_Ok; [|apply setDataOut_Ok; norm'; rewrite length_aset; lia]. norm'.
  unfold mbind at 1, M_bind at 1, setTkr at 1, modify at 1. norm'.
  next_byte Harr. norm'. rewrite (uint8_id code) by done.
  erewrite bind_Ok; [|apply setDataOut_Ok; norm'; rewrite !length_aset; lia]. norm'.
  unfold mbind at 1, M_bind at 1, gets at 1. norm'.
  rewrite !(uint8_id b0), !(uint8_id b1), !(uint8_id code) by done.
  rewrite command_count_join by done.
  cbn [arrives] in Harr. subst k'.
  assert (Hpay : take (Z.to_nat 3) (aset (aset (aset d 0 b0) 1 b1) 2 code) = [b0; b1; code]).
  { destruct d as [|x0 [|x1 [|x2 d]]]; cbn [length] in HL; try lia. reflexivity. }
  subst good. destruct (Z.eqb_spec tcode code) as [Heq | Hne]; cbn [negb].
  - eexists. split; [reflexivity|]. norm'. unfold payload. norm'. by rewrite Hpay.
  - unfold mbind at 1, M_bind at 1, logError at 1, modify at 1. norm'.
    eexists. split; [reflexivity|]. norm'. unfold payload. norm'. rewrite Hpay.
    do 7 (split; [reflexivity|]). intros _ Hwf Hroom.
    destruct (addError_room ERR_TKR_BAD_ECHO code tcode l Hwf Hroom) as (H1 & H2 & _).
    rewrite (uint8_id code) in H2 by done. by split.
Qed.

Lemma echo_packet_witness :
  let packet := [4; TKR_ECHO_DATA; 1; 2; 0x55] in
  exists s',
    getTrackerData (envBytes packet) 1 TKR_ECHO_DATA daqReset = Ok (1, s')
    /\ payload (out s') = [1; 2; 0x55]
    /\ tkrCmdCount (tkr s') = 258
    /\ nErrors (log s') = 1
    /\ aget (errors (log s')) 0 = Some (mkError ERR_TKR_BAD_ECHO 0x55 0).
Proof.
  intros packet.
  destruct (echo_packet (envBytes packet) 1 1 2 0x55 daqReset 6)
    as (s' & E & _ & _ & Hp & Hc & _ & _ & _ & Hrec).
  - exact (arrives_envBytes packet 1 ltac:(lia) 0%nat).
  - lia.
  - lia.
  - lia.
  - cbn. lia.
  - destruct Hrec as (Hn & Hg).
    + reflexivity.
    + split; [reflexivity | simpl; unfold MXERR; lia].
    + simpl. unfold MXERR. lia.
    + exists s'. split; [exact E|]. split; [exact Hp|]. split; [exact Hc|].
      split; [exact Hn | exact Hg].
Defined.
(** ** Housekeeping packets *)

(** The loop that stores the housekeeping bytes from position [i] on. *)
Lemma readHouse_loop env fuel st bytes : forall i s k',
  arrives env st fuel (hwk s) bytes k' ->
  nTkrHouseKeeping (tkr s) = i -> 0 <= i ->
  i + Z.of_nat (length bytes) <= TKRHOUSE_LEN ->
  Z.of_nat (length (tkrHouseKeeping (tkr s))) = TKRHOUSE_LEN ->
  Forall (fun b => 0 <= b < 256) bytes ->
  forM (length bytes) i
    (fun i =>
       tmpData ← tkr_getByte env fuel st 16;
       when (i <? TKRHOUSE_LEN)
         (t ← gets tkr;
          h ← checked (astore (tkrHouseKeeping t) i tmpData);
          setTkr (fun t => mkTkrRegs (numTkrBrds t) (tkrCmdCode t) (tkrCmdCount t)
                             (uint8 (nTkrHouseKeeping t + 1))
                             (tkrHouseKeepingFPGA t) h))) s
  = Ok (tt, set_hwk k'
              (set_tkr (mkTkrRegs (numTkrBrds (tkr s)) (tkrCmdCode (tkr s))
                          (tkrCmdCount (tkr s)) (i + Z.of_nat (length bytes))
                          (tkrHouseKeepingFPGA (tkr s))
                          (take (Z.to_nat i) (tkrHouseKeeping (tkr s)) ++ bytes
                           ++ drop (Z.to_nat i + length bytes)
                                (tkrHouseKeeping (tkr s)))) s)).
Proof.
  unfold TKRHOUSE_LEN.
  induction bytes as [|b bytes IH]; intros i s k' Harr Hn Hi Hlen HL HF.
  - cbn [arrives] in Harr. subst k'. cbn [forM length app].
    rewrite Nat.add_0_r, take_drop, Z.add_0_r, <- Hn. by destruct s as [? ? ? ? ? ? ? ? [] ? ?].
  - apply Forall_cons in HF as [Hb HF]. cbn [length] in *. cbn [forM].
    destruct (tkr_getByte_arrives env fuel st 16 b bytes k' s Harr) as (k1 & E & Harr1).
    unfold mbind at 1, M_bind at 1. unfold mbind at 1, M_bind at 1. rewrite E.
    destruct (Z.ltb_spec i 70) as [_|]; [|lia]. unfold when.
    destruct s as [k m l o tA tB oT td [nb tcode tcount nhk fpga hk] tr c].
    cbn [tkr nTkrHouseKeeping tkrHouseKeeping hwk] in *. subst nhk.
    unfold mbind at 1, M_bind at 1, gets at 1. norm'.
    rewrite astore_Some by lia.
    unfold mbind at 1, M_bind at 1, checked at 1.
    unfold setTkr at 1, modify at 1. norm'.
    rewrite (uint8_id b), (uint8_id (i + 1)) by lia.
    rewrite (IH (i + 1) _ k'); norm'; try done; try lia; try (rewrite length_aset; lia).
    do 4 f_equal; [lia|].
    rewrite take_aset_snoc by lia. rewrite <- app_assoc. cbn [app].
    do 3 f_equal. unfold aset. rewrite bool_decide_eq_true_2 by lia.
    rewrite drop_insert_lt by lia. f_equal. lia.
Qed.

(** X24.  A housekeeping packet that is as it should be is stored as it
    was sent.  [getTrackerData] is called for housekeeping data and the
    packet comes in: the length, the identifier 0xC7, the number of data
    bytes (1 to [TKRHOUSE_LEN]; the length is this number plus 6), the
    command count in two bytes, the address of the FPGA (8 at most), the
    code of the command, which is the one that was sent, and the data
    bytes.  The call returns 0, reads exactly the packet and leaves the
    command count, the address, the number of data bytes and the data
    bytes in the globals.  It logs nothing when the last data byte is 0x0F;
    otherwise it logs [ERR_TKR_BAD_TRAILER] with the command code and that
    byte (recorded when the log has room), and still returns 0. *)
Theorem housekeeping_packet env fuel (cHi cLo fpga : Z) (data : list Z)
    (s : DAQ) (k' : nat) :
  let startTime := uint32 (now (poll env (hwk s))) in
  let nData := Z.of_nat (length data) in
  let t := tkr s in
  arrives env startTime fuel (S (hwk s))
    ([nData + 6; TKR_HOUSE_DATA; nData; cHi; cLo; fpga; tkrCmdCode t] ++ data) k' ->
  0 <= cHi < 256 -> 0 <= cLo < 256 -> 0 <= fpga <= 8 -> 0 <= tkrCmdCode t < 256 ->
  1 <= nData <= TKRHOUSE_LEN ->
  Forall (fun b => 0 <= b < 256) data ->
  Z.of_nat (length (tkrHouseKeeping t)) = TKRHOUSE_LEN ->
  let final := List.last data 0 in
  let l' := if final =? 0x0F then log s
            else addError ERR_TKR_BAD_TRAILER (tkrCmdCode t) final (log s) in
  getTrackerData env fuel TKR_HOUSE_DATA s
  = Ok (0, set_log l'
             (set_hwk k'
                (set_tkr (mkTkrRegs (numTkrBrds t) (tkrCmdCode t) (256 * cHi + cLo)
                            nData fpga
                            (data ++ drop (length data) (tkrHouseKeeping t))) s)))
  /\ (final <> 0x0F -> logWf (log s) -> nErrors (log s) < MXERR ->
      nErrors l' = nErrors (log s) + 1
      /\ aget (errors l') (nErrors (log s))
         = Some (mkError ERR_TKR_BAD_TRAILER (tkrCmdCode t) final)).
Proof.
  intros startTime nData t Harr HcHi HcLo Hfpga Hcode Hn HF HL final l'.
  assert (Hfinal : 0 <= final < 256).
  { subst final. destruct (decide (data = [])) as [-> | Hne]; [cbn; lia|].
    rewrite Forall_forall in HF. apply HF.
    destruct (exists_last Hne) as (d0 & x & ->). rewrite last_last.
    apply elem_of_app. right. by apply list_elem_of_singleton. }
  split.
  2:{ intros Hne Hwf Hroom. subst l'.
      destruct (Z.eqb_spec final 15); [done|].
      destruct (addError_room ERR_TKR_BAD_TRAILER (tkrCmdCode t) final (log s) Hwf Hroom)
        as (H1 & H2 & _).
      rewrite (uint8_id (tkrCmdCode t)), (uint8_id final) in H2 by done. by split. }
  unfold TKRHOUSE_LEN in *.
  unfold getTrackerData.
  rewrite (bind_Ok _ _ _ _ _ (time_Ok env s)). fold startTime.
  cbn [app] in Harr. subst t.
  destruct s as [k m l o tA tB oT td [nb tcode tcount nhk fpga0 hk] tr c].
  cbn [hwk hwm tkr tkrCmdCode tkrHouseKeeping log numTkrBrds] in *. norm'.
  next_byte Harr. norm'. next_byte Harr. norm'.
  rewrite (uint8_id (nData + 6)) by lia.
  change (uint8 TKR_HOUSE_DATA) with TKR_HOUSE_DATA.
  change (negb (TKR_HOUSE_DATA =? TKR_HOUSE_DATA)) with false. cbn iota.
  rewrite bind_ret.
  change (TKR_HOUSE_DATA =? TKR_EVT_DATA) with false.
  change (TKR_HOUSE_DATA =? TKR_HOUSE_DATA) with true. cbn iota.
  unfold readHouseKeeping.
  unfold mbind at 1, M_bind at 1.
  next_byte Harr. norm'. rewrite (uint8_id nData) by lia.
  rewrite Z.eqb_refl. cbn [negb]. rewrite bind_ret.
  next_byte Harr. norm'.
  unfold mbind at 1, M_bind at 1, setTkr at 1, modify at 1. norm'.
  next_byte Harr. norm'.
  unfold mbind at 1, M_bind at 1, setTkr at 1, modify at 1. norm'.
  next_byte Harr. norm'.
  unfold mbind at 1, M_bind at 1, setTkr at 1, modify at 1. norm'.
  unfold mbind at 1, M_bind at 1, gets at 1. norm'.
  rewrite !(uint8_id cHi), !(uint8_id cLo), !(uint8_id fpga) by lia.
  destruct (Z.gtb_spec fpga 8) as [|_]; [lia|].
  change (when false (logError ERR_TKR_BAD_FPGA tcode fpga)) with (ret tt).
  rewrite bind_ret.
  next_byte Harr. norm'. rewrite (uint8_id tcode) by lia.
  rewrite Z.eqb_refl. cbn [negb].
  change (when false (logError ERR_TKR_BAD_ECHO tcode tcode)) with (ret tt).
  rewrite bind_ret.
  unfold mbind at 1, M_bind at 1, setTkr at 1, modify at 1. norm'.
  replace (Z.to_nat nData) with (length data) by (subst nData; lia).
  match goal with
  | |- context [(forM _ 0 _ ≫= _) ?s0] =>
      rewrite (bind_Ok _ _ _ _ _
                 (readHouse_loop env fuel startTime data 0 s0 k' Harr eq_refl
                    ltac:(lia) ltac:(unfold TKRHOUSE_LEN; lia) HL HF))
  end. norm'.
  unfold mbind at 1, M_bind at 1, gets at 1. norm'.
  rewrite command_count_join by done.
  change (Z.to_nat 0) with 0%nat. rewrite take_0. cbn [app Nat.add].
  rewrite Z.add_0_l. fold nData.
  assert (Hlast : aget (data ++ drop (length data) hk) (nData - 1) = Some final).
  { rewrite aget_lookup by lia.
    rewrite lookup_app_l by lia. subst final nData.
    destruct (decide (data = [])) as [-> | Hne]; [cbn in Hn; lia|].
    destruct (exists_last Hne) as (d0 & x & ->). rewrite last_last.
    rewrite length_app. cbn [length].
    replace (Z.to_nat (Z.of_nat (length d0 + 1) - 1)) with (length d0) by lia.
    by rewrite lookup_app_r, Nat.sub_diag by lia. }
  rewrite Hlast. unfold mbind at 1, M_bind at 1, checked at 1.
  subst l'. destruct (Z.eqb_spec final 15) as [Heq | Hne]; cbn [negb].
  - reflexivity.
  - reflexivity.
Qed.

Lemma housekeeping_packet_witness :
  let packet := [9; TKR_HOUSE_DATA; 3; 1; 2; 4; 0; 0x59; 0x07; 0x0E] in
  exists s',
    getTrackerData (envBytes packet) 1 TKR_HOUSE_DATA daqReset = Ok (0, s')
    /\ take 3 (tkrHouseKeeping (tkr s')) = [0x59; 0x07; 0x0E]
    /\ nTkrHouseKeeping (tkr s') = 3
    /\ tkrCmdCount (tkr s') = 258
    /\ nErrors (log s') = 1
    /\ aget (errors (log s')) 0 = Some (mkError ERR_TKR_BAD_TRAILER 0 0x0E).
Proof.
  intros packet.
  destruct (housekeeping_packet (envBytes packet) 1 1 2 4 [0x59; 0x07; 0x0E] daqReset 11)
    as (E & Hrec).
  - exact (arrives_envBytes packet 1 ltac:(lia) 0%nat).
  - lia.
  - lia.
  - lia.
  - cbn. lia.
  - cbn. unfold TKRHOUSE_LEN. lia.
  - repeat constructor; lia.
  - reflexivity.
  - destruct Hrec as (Hn & Hg).
    + cbn. lia.
    + split; [reflexivity | simpl; unfold MXERR; lia].
    + simpl. unfold MXERR. lia.
    + eexists. split; [exact E|]. split; [reflexivity|]. split; [reflexivity|].
      split; [reflexivity|]. split; [exact Hn | exact Hg].
Defined.

(** X25.  A housekeeping packet without data bytes.  When the packet
    announces no data bytes (length 6), no byte is stored,
    [nTkrHouseKeeping] stays 0, and the check of the trailer reads
    [tkrHouseKeeping[nTkrHouseKeeping - 1]], that is the entry -1, outside
    the array. *)
Theorem housekeeping_packet_empty env fuel (cHi cLo fpga code : Z) (s : DAQ) (k' : nat) :
  let startTime := uint32 (now (poll env (hwk s))) in
  arrives env startTime fuel (S (hwk s))
    [6; TKR_HOUSE_DATA; 0; cHi; cLo; fpga; code] k' ->
  getTrackerData env fuel TKR_HOUSE_DATA s = Undefined.
Proof.
  intros startTime Harr.
  unfold getTrackerData.
  rewrite (bind_Ok _ _ _ _ _ (time_Ok env s)). fold startTime.
  destruct s as [k m l o tA tB oT td [nb tcode tcount nhk fpga0 hk] tr c].
  cbn [hwk] in *. norm'.
  next_byte Harr. norm'. next_byte Harr. norm'.
  change (uint8 6) with 6. change (uint8 TKR_HOUSE_DATA) with TKR_HOUSE_DATA.
  change (negb (TKR_HOUSE_DATA =? TKR_HOUSE_DATA)) with false. cbn iota.
  rewrite bind_ret.
  change (TKR_HOUSE_DATA =? TKR_EVT_DATA) with false.
  change (TKR_HOUSE_DATA =? TKR_HOUSE_DATA) with true. cbn iota.
  apply bind_Undefined.
  unfold readHouseKeeping.
  next_byte Harr. norm'. change (uint8 0) with 0.
  change (negb (6 =? 0 + 6)) with false. cbn iota. rewrite bind_ret.
  next_byte Harr. norm'.
  unfold mbind at 1, M_bind at 1, setTkr at 1, modify at 1. norm'.
  next_byte Harr. norm'.
  unfold mbind at 1, M_bind at 1, setTkr at 1, modify at 1. norm'.
  next_byte Harr. norm'.
  unfold mbind at 1, M_bind at 1, setTkr at 1, modify at 1. norm'.
  unfold mbind at 1, M_bind at 1, gets at 1. norm'.
  assert (Hlog : forall (b : bool) code' v1 v2 (f : unit -> M unit) s0,
            (when b (logError code' v1 v2) ≫= f) s0
            = f tt (if b then set_log (addError code' v1 v2 (log s0)) s0 else s0)).
  { intros b code' v1 v2 f s0. by destruct b. }
  rewrite Hlog. norm'.
  match goal with
  | |- context [if ?b then _ else _] => destruct b
  end; norm'.
  all: next_byte Harr; norm'.
  all: rewrite Hlog; norm'.
  all: match goal with
       | |- context [if ?b then _ else _] => destruct b
       end; norm'.
  all: unfold mbind at 1, M_bind at 1, setTkr at 1, modify at 1; norm'.
  all: change (Z.to_nat 0) with 0%nat; cbn [forM]; rewrite bind_ret.
  all: unfold mbind at 1, M_bind at 1, gets at 1; norm'.
  all: by rewrite aget_neg by lia.
Qed.

Lemma housekeeping_packet_empty_witness :
  getTrackerData (envBytes [6; TKR_HOUSE_DATA; 0; 1; 2; 4; 0]) 1 TKR_HOUSE_DATA daqReset
  = Undefined.
Proof.
  apply (housekeeping_packet_empty (envBytes [6; TKR_HOUSE_DATA; 0; 1; 2; 4; 0]) 1
           1 2 4 0 daqReset 8).
  exact (arrives_envBytes [6; TKR_HOUSE_DATA; 0; 1; 2; 4; 0] 1 ltac:(lia) 0%nat).
Defined.
